(** * Limnological data server: filter builder, value normaliser,
      result formatter and export generator

    A shallow embedding of the three services of the repository
    ([FilterService], [DataFormatterService], [ExportService]) together
    with the part of the JavaScript runtime they rely on, and the
    properties the specification states about them.

    Conventions of the embedding.
    - A JavaScript value is a [jsval].  A plain object is the list of its
      own enumerable properties in enumeration order; property access is
      [get] (first match, [JUndefined] when absent).  A column map is the
      map of its own entries; reading it by key also finds the members it
      inherits from [Object.prototype].
    - A string is a [string]: the sequence of its code units, for code
      units up to 0xFF.
    - A finite Number read from a text by [Number] is the exact
      mathematical value of that text (a rational in lowest terms).  The
      results of arithmetic ([parseInt], subtraction, multiplication,
      increment) are rounded to binary64, ties to even.  The two zeros
      are one value.
    - A Number that holds an integer (a placeholder index) is the [Z] it
      holds; time values and calendar fields are [Z].
    - Functions of the runtime whose result is implementation-defined are
      fields of a [Runtime] record. *)

From Stdlib Require Import ZArith QArith Qabs String Ascii List Bool Lia.
From stdpp Require Import gmap strings pretty.
Import ListNotations.

Local Open Scope string_scope.
Local Open Scope Z_scope.

#[local] Arguments String.append !_ _ / : simpl nomatch.

(** ** JavaScript values *)

Inductive jsnum : Type :=
| NaN
| Infinity (negative : bool)
| Finite (q : Q).

#[warnings="-register-all"]
Inductive jsval : Type :=
| JUndefined
| JNull
| JBool (b : bool)
| JNum (n : jsnum)
| JStr (s : string)
| JDate (tv : option Z)
| JObj (props : list (string * jsval)).

(** Own enumerable properties of a plain object, in enumeration order. *)
Abbreviation jsobject := (list (string * jsval)).

(** Errors are thrown values; only their name and message matter here. *)
Record jserror : Type := mkError { err_name : string; err_message : string }.

(** Outcome of evaluating a statement list: a value or a thrown error. *)
Inductive completion (A : Type) : Type :=
| Normal (a : A)
| Throw (e : jserror).
Arguments Normal {A} a.
Arguments Throw {A} e.

#[global] Instance completion_ret : MRet completion := fun A a => Normal a.

#[global] Instance completion_bind : MBind completion := fun A B k c =>
  match c with
  | Normal a => k a
  | Throw e => Throw e
  end.

(** [try { c } catch (error) { h error }] *)
Definition tryCatch {A} (c : completion A) (h : jserror -> completion A) : completion A :=
  match c with
  | Normal a => Normal a
  | Throw e => h e
  end.

(** A settled promise. *)
Inductive promise (A : Type) : Type :=
| Fulfilled (a : A)
| Rejected (e : jserror).
Arguments Fulfilled {A} a.
Arguments Rejected {A} e.

(** The promise an [async] function returns for a body that completes with
    [c]: a thrown error rejects it, and a returned promise is adopted as it
    is. *)
Definition async {A} (body : completion (promise A)) : promise A :=
  match body with
  | Normal p => p
  | Throw e => Rejected e
  end.

(** [await p] inside an [async] body. *)
Definition await {A} (p : promise A) : completion A :=
  match p with
  | Fulfilled a => Normal a
  | Rejected e => Throw e
  end.

Module JS.

(** *** Property access *)

Fixpoint get (o : jsobject) (key : string) : jsval :=
  match o with
  | [] => JUndefined
  | (k, v) :: o' => if String.eqb k key then v else get o' key
  end.

(** [Object.keys(o)] and the keys visited by [for (key in o)]. *)
Definition keys (o : jsobject) : list string := map fst o.

(** The index keys of a string value: ["0"], ["1"], ... *)
Definition indexKeys (s : string) : list string :=
  map (fun i => pretty (Z.of_nat i)) (seq 0 (String.length s)).

(** The code unit of [s] at the index written [key], if [key] is one of
    the index keys. *)
Definition charAtKey (s : string) (key : string) : option ascii :=
  i ← List.find (fun i => String.eqb (pretty (Z.of_nat i)) key) (seq 0 (String.length s));
  String.get i s.

(** [v.key], or [v[key]], for a value [v] that is neither [null] nor
    [undefined]. *)
Definition prop (v : jsval) (key : string) : jsval :=
  match v with
  | JObj props => get props key
  | JStr s =>
      match charAtKey s key with
      | Some c => JStr (String c EmptyString)
      | None =>
          if String.eqb key "length"
          then JNum (Finite (inject_Z (Z.of_nat (String.length s))))
          else JUndefined
      end
  | _ => JUndefined
  end.

Definition TypeError_nullObject : jserror :=
  mkError "TypeError" "Cannot convert undefined or null to object".

Definition TypeError_read (what key : string) : jserror :=
  mkError "TypeError"
    ("Cannot read properties of " ++ what ++ " (reading '" ++ key ++ "')").

(** [Object.keys(v)] *)
Definition Object_keys (v : jsval) : completion (list string) :=
  match v with
  | JUndefined | JNull => Throw TypeError_nullObject
  | JObj props => Normal (keys props)
  | JStr s => Normal (indexKeys s)
  | _ => Normal []
  end.

(** [v[key]] for an arbitrary value [v]. *)
Definition member (v : jsval) (key : string) : completion jsval :=
  match v with
  | JUndefined => Throw (TypeError_read "undefined" key)
  | JNull => Throw (TypeError_read "null" key)
  | _ => Normal (prop v key)
  end.

(** *** Conversions and tests *)

Definition isNaN (n : jsnum) : bool :=
  match n with NaN => true | _ => false end.

(** ToBoolean *)
Definition truthy (v : jsval) : bool :=
  match v with
  | JUndefined | JNull => false
  | JBool b => b
  | JNum NaN => false
  | JNum (Infinity _) => true
  | JNum (Finite q) => negb (Qeq_bool q 0)
  | JStr s => negb (String.eqb s "")
  | JDate _ | JObj _ => true
  end.

(** [v == null] *)
Definition looseNull (v : jsval) : bool :=
  match v with
  | JUndefined | JNull => true
  | _ => false
  end.

(** [v === s] for a string literal [s] *)
Definition strictEqStr (v : jsval) (s : string) : bool :=
  match v with
  | JStr s' => String.eqb s' s
  | _ => false
  end.

(** [v === ''] *)
Definition isEmptyString (v : jsval) : bool := strictEqStr v "".

(** *** Strings *)

Definition quote : ascii := "034"%char.
Definition newline : ascii := "010"%char.

(** [hay.includes(needle)] *)
Fixpoint includes (needle hay : string) : bool :=
  String.prefix needle hay ||
  match hay with
  | EmptyString => false
  | String _ hay' => includes needle hay'
  end.

(** Occurrence of one code unit. *)
Fixpoint mem (c : ascii) (s : string) : bool :=
  match s with
  | EmptyString => false
  | String a s' => Ascii.eqb a c || mem c s'
  end.

(** [s.replace(/c/g, by)] for a single code unit [c]. *)
Fixpoint replaceAll (c : ascii) (by_ : string) (s : string) : string :=
  match s with
  | EmptyString => EmptyString
  | String a s' =>
      if Ascii.eqb a c then by_ ++ replaceAll c by_ s'
      else String a (replaceAll c by_ s')
  end.

(** [s.replace(c, by)] for a single code unit [c]: first occurrence only. *)
Fixpoint replaceFirst (c : ascii) (by_ : string) (s : string) : string :=
  match s with
  | EmptyString => EmptyString
  | String a s' =>
      if Ascii.eqb a c then by_ ++ s'
      else String a (replaceFirst c by_ s')
  end.

(** WhiteSpace and LineTerminator code units below 0x100. *)
Definition isWhiteSpace (c : ascii) : bool :=
  let n := nat_of_ascii c in
  ((9 <=? n) && (n <=? 13))%nat || (n =? 32)%nat || (n =? 160)%nat.

Fixpoint trimStart (s : string) : string :=
  match s with
  | EmptyString => EmptyString
  | String a s' => if isWhiteSpace a then trimStart s' else s
  end.

Fixpoint trimEnd (s : string) : string :=
  match s with
  | EmptyString => EmptyString
  | String a s' =>
      match trimEnd s' with
      | EmptyString => if isWhiteSpace a then EmptyString else String a EmptyString
      | t => String a t
      end
  end.

Definition trim (s : string) : string := trimEnd (trimStart s).

(** [s.slice(0, n)] *)
Fixpoint sliceTo (n : nat) (s : string) : string :=
  match n, s with
  | S n', String a s' => String a (sliceTo n' s')
  | _, _ => EmptyString
  end.

(** [parts.join(sep)] *)
Definition join (sep : string) (parts : list string) : string :=
  String.concat sep parts.

(** Every code unit of [s] satisfies [p]. *)
Fixpoint every (p : ascii -> bool) (s : string) : bool :=
  match s with
  | EmptyString => true
  | String a s' => p a && every p s'
  end.

(** The keys [JSON.stringify] writes for a plain object: a property whose
    value is [undefined] is left out. *)
Definition jsonKeys (o : jsobject) : list string :=
  keys (List.filter (fun kv => match snd kv with JUndefined => false | _ => true end) o).

End JS.

(** ** Numbers and digits *)

Module Num.

Import JS.

Definition isDigit (c : ascii) : bool :=
  let n := nat_of_ascii c in ((48 <=? n) && (n <=? 57))%nat.

Definition digitVal (c : ascii) : Z := Z.of_nat (nat_of_ascii c) - 48.

Definition digitChar (d : Z) : ascii := ascii_of_nat (Z.to_nat (48 + d)).

(** Value of a hexadecimal digit, if it is one. *)
Definition hexVal (c : ascii) : option Z :=
  let n := Z.of_nat (nat_of_ascii c) in
  if (48 <=? n) && (n <=? 57) then Some (n - 48)
  else if (65 <=? n) && (n <=? 70) then Some (n - 55)
  else if (97 <=? n) && (n <=? 102) then Some (n - 87)
  else None.

(** Mathematical value of a digit sequence in the given radix; [None] when
    a code unit is not a digit of that radix. *)
Fixpoint radixValueFrom (radix : Z) (acc : Z) (s : string) : option Z :=
  match s with
  | EmptyString => Some acc
  | String c s' =>
      match hexVal c with
      | Some d => if d <? radix then radixValueFrom radix (acc * radix + d) s' else None
      | None => None
      end
  end.

(** Value of a sequence of decimal digits, most significant first. *)
Fixpoint digitsValueFrom (acc : Z) (s : string) : Z :=
  match s with
  | EmptyString => acc
  | String c s' => digitsValueFrom (acc * 10 + digitVal c) s'
  end.

Definition digitsValue (s : string) : Z := digitsValueFrom 0 s.

(** The longest prefix of decimal digits, and what follows it. *)
Fixpoint spanDigits (s : string) : string * string :=
  match s with
  | EmptyString => (EmptyString, EmptyString)
  | String c s' =>
      if isDigit c then
        let '(ds, rest) := spanDigits s' in (String c ds, rest)
      else (EmptyString, s)
  end.

(** [n] written with exactly [width] decimal digits (the low ones). *)
Fixpoint padDigits (width : nat) (n : Z) : string :=
  match width with
  | O => EmptyString
  | S w => padDigits w (n / 10) ++ String (digitChar (n mod 10)) EmptyString
  end.

(** [m * 10^e] as a rational in lowest terms. *)
Definition scale10 (m e : Z) : Q :=
  if 0 <=? e then inject_Z (m * 10 ^ e)
  else Qred (m # Z.to_pos (10 ^ (- e))).

(** An optional sign. *)
Definition takeSign (s : string) : bool * string :=
  match s with
  | String "-" s' => (true, s')
  | String "+" s' => (false, s')
  | _ => (false, s)
  end.

(** ExponentPart, which must reach the end of the text. *)
Definition exponentPart (s : string) : option Z :=
  match s with
  | EmptyString => Some 0
  | String c s' =>
      if Ascii.eqb c "e" || Ascii.eqb c "E" then
        let '(neg, r) := takeSign s' in
        let '(ds, rest) := spanDigits r in
        if String.eqb ds "" || negb (String.eqb rest "") then None
        else Some (if neg then - digitsValue ds else digitsValue ds)
      else None
  end.

(** StrDecimalLiteral *)
Definition decimalLiteral (s : string) : jsnum :=
  let '(neg, r0) := takeSign s in
  if String.eqb r0 "Infinity" then Infinity neg
  else
    let '(ip, r1) := spanDigits r0 in
    let '(fp, r2) :=
      match r1 with
      | String "." r => spanDigits r
      | _ => (EmptyString, r1)
      end in
    if String.eqb ip "" && String.eqb fp "" then NaN
    else
      match exponentPart r2 with
      | Some e =>
          let m := digitsValue (ip ++ fp) in
          Finite (scale10 (if neg then - m else m) (e - Z.of_nat (String.length fp)))
      | None => NaN
      end.

(** NonDecimalIntegerLiteral: [0x], [0o] and [0b] forms, unsigned. *)
Definition nonDecimalLiteral (s : string) : option jsnum :=
  match s with
  | String "0" (String c ds) =>
      let radix :=
        if Ascii.eqb c "x" || Ascii.eqb c "X" then Some 16
        else if Ascii.eqb c "o" || Ascii.eqb c "O" then Some 8
        else if Ascii.eqb c "b" || Ascii.eqb c "B" then Some 2
        else None in
      match radix with
      | Some r =>
          Some (if String.eqb ds "" then NaN
                else match radixValueFrom r 0 ds with
                     | Some v => Finite (inject_Z v)
                     | None => NaN
                     end)
      | None => None
      end
  | _ => None
  end.

(** [Number(s)] for a string [s] (StringToNumber). *)
Definition StringToNumber (s : string) : jsnum :=
  let t := trim s in
  if String.eqb t "" then Finite 0
  else match nonDecimalLiteral t with
       | Some n => n
       | None => decimalLiteral t
       end.

(** *** Numbers that hold an integer *)

(** The Number nearest to an integer, ties to the even significand, for
    magnitudes below 2^1024. *)
Definition roundInteger (n : Z) : Z :=
  let a := Z.abs n in
  if a <=? 2 ^ 53 then n
  else
    let ulp := 2 ^ (Z.log2 a - 52) in
    let q := a / ulp in
    let r := a mod ulp in
    let q' :=
      if 2 * r <? ulp then q
      else if ulp <? 2 * r then q + 1
      else if Z.even q then q else q + 1 in
    Z.sgn n * (q' * ulp).

(** The value of [x] after [x++], for a Number [x] that holds an
    integer. *)
Definition increment (x : Z) : Z := roundInteger (x + 1).

Definition digitCount (x : Z) : Z := Z.of_nat (String.length (pretty x)).

(** The two candidates with [k] digits for the text of [x]: the pair
    [(s, n)] stands for s × 10^(n - k). *)
Definition digitCandidates (x k : Z) : list (Z * Z) :=
  let d := digitCount x in
  let s0 := x / 10 ^ (d - k) in
  [(s0, d); if s0 + 1 <? 10 ^ k then (s0 + 1, d) else (10 ^ (k - 1), d + 1)].

Definition candidateValue (k : Z) (c : Z * Z) : Z := c.1 * 10 ^ (c.2 - k).

(** The candidate with [k] digits that denotes [x], the nearer one when
    both do, the even one when they are as near. *)
Definition pickDigits (x k : Z) : option (Z * Z) :=
  match List.filter (fun c => roundInteger (candidateValue k c) =? x)
          (digitCandidates x k) with
  | [] => None
  | [c] => Some c
  | c1 :: c2 :: _ =>
      let d1 := Z.abs (candidateValue k c1 - x) in
      let d2 := Z.abs (candidateValue k c2 - x) in
      if d1 <? d2 then Some c1
      else if d2 <? d1 then Some c2
      else if Z.even c1.1 then Some c1 else Some c2
  end.

(** The shortest digits [s] (there are [k] of them) and the exponent [n]
    with s × 10^(n - k) denoting [x]. *)
Fixpoint shortestDigits (x : Z) (ks : list Z) : option (Z * Z * Z) :=
  match ks with
  | [] => None
  | k :: ks' =>
      match pickDigits x k with
      | Some (s, n) => Some (s, k, n)
      | None => shortestDigits x ks'
      end
  end.

(** [String(x)] for a Number [x] that holds an integer
    (Number::toString, radix 10). *)
Definition integerText (x : Z) : string :=
  if Z.abs x <=? 2 ^ 53 then pretty x
  else
    let sign := if x <? 0 then "-" else "" in
    match shortestDigits (Z.abs x) (seqZ 1 17) with
    | Some (s, k, n) =>
        if n <=? 21 then sign ++ pretty (s * 10 ^ (n - k))
        else
          let mantissa :=
            match pretty s with
            | String c EmptyString => String c EmptyString
            | String c rest => String c ("." ++ rest)
            | EmptyString => EmptyString
            end in
          sign ++ mantissa ++ "e+" ++ pretty (n - 1)
    | None => pretty x
    end.

End Num.

(** ** Date: time values and the calendar (ECMA-262, Date objects) *)

Module Date.

Import JS Num.

Definition msPerDay : Z := 86400000.
Definition msPerHour : Z := 3600000.
Definition msPerMinute : Z := 60000.
Definition msPerSecond : Z := 1000.

Definition Day (t : Z) : Z := t / msPerDay.

Definition DaysInYear (y : Z) : Z :=
  if negb (y mod 4 =? 0) then 365
  else if negb (y mod 100 =? 0) then 366
  else if negb (y mod 400 =? 0) then 365
  else 366.

Definition DayFromYear (y : Z) : Z :=
  365 * (y - 1970) + (y - 1969) / 4 - (y - 1901) / 100 + (y - 1601) / 400.

Definition TimeFromYear (y : Z) : Z := msPerDay * DayFromYear y.

(** The year a day number falls in: the largest [y] with
    [DayFromYear y <= d] (lemma [YearFromDay_spec]), found from the mean
    year length and corrected by at most one. *)
Definition YearFromDay (d : Z) : Z :=
  let est := 1970 + (400 * d) / 146097 in
  if d <? DayFromYear est then est - 1
  else if DayFromYear (est + 1) <=? d then est + 1
  else est.

Definition YearFromTime (t : Z) : Z := YearFromDay (Day t).

Definition InLeapYear (t : Z) : Z :=
  if DaysInYear (YearFromTime t) =? 366 then 1 else 0.

Definition DayWithinYear (t : Z) : Z := Day t - DayFromYear (YearFromTime t).

(** Number of days of the year before month [mn] (0 to 11). *)
Definition monthStart (mn leap : Z) : Z :=
  match mn with
  | 0 => 0
  | 1 => 31
  | 2 => 59 + leap
  | 3 => 90 + leap
  | 4 => 120 + leap
  | 5 => 151 + leap
  | 6 => 181 + leap
  | 7 => 212 + leap
  | 8 => 243 + leap
  | 9 => 273 + leap
  | 10 => 304 + leap
  | _ => 334 + leap
  end.

Definition MonthFromTime (t : Z) : Z :=
  let d := DayWithinYear t in
  let l := InLeapYear t in
  if d <? 31 then 0
  else if d <? 59 + l then 1
  else if d <? 90 + l then 2
  else if d <? 120 + l then 3
  else if d <? 151 + l then 4
  else if d <? 181 + l then 5
  else if d <? 212 + l then 6
  else if d <? 243 + l then 7
  else if d <? 273 + l then 8
  else if d <? 304 + l then 9
  else if d <? 334 + l then 10
  else 11.

Definition DateFromTime (t : Z) : Z :=
  DayWithinYear t - monthStart (MonthFromTime t) (InLeapYear t) + 1.

(** The length of month [m] (1 to 12) of year [y] in the Gregorian
    calendar; 0 for any other [m]. *)
Definition DaysInMonth (y m : Z) : Z :=
  match m with
  | 1 | 3 | 5 | 7 | 8 | 10 | 12 => 31
  | 4 | 6 | 9 | 11 => 30
  | 2 => if DaysInYear y =? 366 then 29 else 28
  | _ => 0
  end.

Definition HourFromTime (t : Z) : Z := (t / msPerHour) mod 24.
Definition MinFromTime (t : Z) : Z := (t / msPerMinute) mod 60.
Definition SecFromTime (t : Z) : Z := (t / msPerSecond) mod 60.
Definition msFromTime (t : Z) : Z := t mod msPerSecond.

(** The day number of the given date; [month] is reduced modulo 12 into
    the year. *)
Definition MakeDay (year month date : Z) : Z :=
  let ym := year + month / 12 in
  let mn := month mod 12 in
  let leap := if DaysInYear ym =? 366 then 1 else 0 in
  DayFromYear ym + monthStart mn leap + date - 1.

Definition MakeDate (day time : Z) : Z := day * msPerDay + time.

(** [None] is NaN. *)
Definition TimeClip (t : Z) : option Z :=
  if Z.abs t >? 8640000000000000 then None else Some t.

(** [Date.UTC(year, month, date)] *)
Definition UTC (year month date : Z) : option Z :=
  let yr := if (0 <=? year) && (year <=? 99) then 1900 + year else year in
  TimeClip (MakeDate (MakeDay yr month date) 0).

(** [new Date(value)] for a Number [value]; the result is the time value
    of the object. *)
Definition fromNumber (value : option Z) : option Z :=
  match value with
  | Some t => TimeClip t
  | None => None
  end.

Definition getTime (d : option Z) : option Z := d.
Definition getUTCFullYear (d : option Z) : option Z := YearFromTime <$> d.
Definition getUTCMonth (d : option Z) : option Z := MonthFromTime <$> d.
Definition getUTCDate (d : option Z) : option Z := DateFromTime <$> d.

(** [isNaN(x)] for a Number that is NaN or an integer. *)
Definition isNaN (x : option Z) : bool :=
  match x with None => true | Some _ => false end.

(** [x === n] for such a Number [x] and an integer [n]. *)
Definition strictEq (x : option Z) (n : Z) : bool :=
  match x with
  | Some v => v =? n
  | None => false
  end.

Definition isoYear (y : Z) : string :=
  if (0 <=? y) && (y <=? 9999) then padDigits 4 y
  else (if y <? 0 then "-" else "+") ++ padDigits 6 (Z.abs y).

Definition RangeError_invalidTime : jserror :=
  mkError "RangeError" "Invalid time value".

(** The two halves of the text of [toISOString]. *)
Definition isoDatePart (t : Z) : string :=
  isoYear (YearFromTime t) ++ "-" ++ padDigits 2 (MonthFromTime t + 1)
  ++ "-" ++ padDigits 2 (DateFromTime t).

Definition isoTimePart (t : Z) : string :=
  "T" ++ padDigits 2 (HourFromTime t)
  ++ ":" ++ padDigits 2 (MinFromTime t)
  ++ ":" ++ padDigits 2 (SecFromTime t)
  ++ "." ++ padDigits 3 (msFromTime t) ++ "Z".

(** [d.toISOString()] *)
Definition toISOString (d : option Z) : completion string :=
  match d with
  | None => Throw RangeError_invalidTime
  | Some t => Normal (isoDatePart t ++ isoTimePart t)
  end.

End Date.

(** ** The implementation-defined part of the runtime *)

(** A Node.js [Buffer]. *)
Abbreviation Buffer := (list Byte.byte).

(** What the code puts into the exceljs worksheet: the rows added, whether
    a row was given the bold font, and the column widths set. *)
Record SheetRow : Type := mkSheetRow {
  row_values : list jsval;
  row_bold : bool
}.

Record Worksheet : Type := mkWorksheet {
  sheet_name : string;
  sheet_rows : list SheetRow;
  sheet_widths : list Z
}.

Record Runtime : Type := mkRuntime {
  (** time value of [new Date(s)] for a string [s] that is not handled by
      the explicit patterns ([None] is an invalid date) *)
  Date_parse : string -> option Z;
  (** [String(n)] for a Number *)
  Number_toString : jsnum -> string;
  (** [String(d)] for a Date object *)
  Date_toString : option Z -> string;
  (** [workbook.xlsx.writeBuffer()] of exceljs, for a workbook with one
      worksheet *)
  xlsx_writeBuffer : Worksheet -> promise Buffer
}.

(** [String(value)] *)
Definition ToString (rt : Runtime) (value : jsval) : string :=
  match value with
  | JUndefined => "undefined"
  | JNull => "null"
  | JBool true => "true"
  | JBool false => "false"
  | JNum n => Number_toString rt n
  | JStr s => s
  | JDate tv => Date_toString rt tv
  | JObj _ => "[object Object]"
  end.

(** ** FilterService *)

(** The names every object literal inherits from [Object.prototype].  A
    column map written as an object literal answers [columnMap[key]] for
    them although it does not list them. *)
Definition inheritedNames : list string :=
  ["constructor"; "hasOwnProperty"; "isPrototypeOf"; "propertyIsEnumerable";
   "toLocaleString"; "toString"; "valueOf"; "__proto__"; "__defineGetter__";
   "__defineSetter__"; "__lookupGetter__"; "__lookupSetter__"].

(** The text of an inherited member in a template literal: the
    prototype object itself for [__proto__], and a built-in function for
    every other name, [Object] for [constructor]. *)
Definition inheritedText (key : string) : option string :=
  if String.eqb key "__proto__" then Some "[object Object]"
  else if bool_decide (key ∈ inheritedNames) then
    Some ("function " ++ (if String.eqb key "constructor" then "Object" else key)
          ++ "() { [native code] }")
  else None.

Module FilterService.

Import JS Num.

(** [type ColumnMap = { [key: string]: string }]: the own entries of the
    object. *)
Abbreviation ColumnMap := (gmap string string).

Record FilterResult : Type := mkFilterResult {
  whereClause : string;
  params : list jsval;
  nextIndex : Z
}.

(** The three locals the loop updates. *)
Record LoopState : Type := mkLoop {
  whereClauses : list string;
  loop_params : list jsval;
  paramIndex : Z
}.

(** [`${columnName} = $${paramIndex}`] *)
Definition fragment (columnName : string) (idx : Z) : string :=
  columnName ++ " = $" ++ integerText idx.

(** [columnMap[key]] is truthy: an own entry that is not the empty
    string, or an inherited member. *)
Definition mapped (columnMap : ColumnMap) (key : string) : bool :=
  match columnMap !! key with
  | Some columnName => negb (String.eqb columnName "")
  | None => bool_decide (is_Some (inheritedText key))
  end.

(** [columnMap[key] && query[key] != null && query[key] !== ''] *)
Definition accepts (query : jsobject) (columnMap : ColumnMap) (key : string) : bool :=
  mapped columnMap key
  && negb (looseNull (get query key))
  && negb (isEmptyString (get query key)).

(** [`${columnMap[key]}`] *)
Definition columnOf (columnMap : ColumnMap) (key : string) : string :=
  match columnMap !! key with
  | Some columnName => columnName
  | None => default "" (inheritedText key)
  end.

(** One iteration of [for (const key in query)]. *)
Definition loopBody (query : jsobject) (columnMap : ColumnMap)
    (st : LoopState) (key : string) : LoopState :=
  if accepts query columnMap key then
    let columnName := columnOf columnMap key in
    {| whereClauses := (whereClauses st ++ [fragment columnName (paramIndex st)])%list;
       loop_params := (loop_params st ++ [get query key])%list;
       paramIndex := increment (paramIndex st) |}
  else st.

(** The indices the loop hands out from [idx] on, and the index it is
    left with. *)
Fixpoint indicesFrom (idx : Z) (n : nat) : list Z :=
  match n with
  | O => []
  | S n' => idx :: indicesFrom (increment idx) n'
  end.

Definition indexAfter (idx : Z) (n : nat) : Z := Nat.iter n increment idx.

Definition buildFilter (query : jsobject) (columnMap : ColumnMap)
    (startIndex : Z) : FilterResult :=
  let st := fold_left (loopBody query columnMap) (keys query)
              {| whereClauses := []; loop_params := []; paramIndex := startIndex |} in
  if (List.length (whereClauses st) =? 0)%nat then
    {| whereClause := ""; params := []; nextIndex := startIndex |}
  else
    {| whereClause := "WHERE " ++ join " AND " (whereClauses st);
       params := loop_params st;
       nextIndex := paramIndex st |}.

End FilterService.

(** ** DataFormatterService *)

Module DataFormatterService.

Import JS Num.

(** *** The three explicit date patterns *)

(** Exactly [n] decimal digits, and what follows them. *)
Fixpoint takeDigits (n : nat) (s : string) : option (string * string) :=
  match n with
  | O => Some (EmptyString, s)
  | S n' =>
      match s with
      | String c s' =>
          if isDigit c then
            '(ds, rest) ← takeDigits n' s'; Some (String c ds, rest)
          else None
      | EmptyString => None
      end
  end.

(** [\d{1,2}], greedy.  In both patterns that use it the next item is a
    separator that is not a digit, so giving a digit back never turns a
    failed match into a successful one. *)
Definition takeDigits12 (s : string) : option (string * string) :=
  match s with
  | String c1 (String c2 rest) =>
      if isDigit c1 then
        if isDigit c2 then Some (String c1 (String c2 EmptyString), rest)
        else Some (String c1 EmptyString, String c2 rest)
      else None
  | String c1 EmptyString =>
      if isDigit c1 then Some (String c1 EmptyString, EmptyString) else None
  | EmptyString => None
  end.

Definition expect (c : ascii) (s : string) : option string :=
  match s with
  | String a s' => if Ascii.eqb a c then Some s' else None
  | EmptyString => None
  end.

Definition atEnd (s : string) : option unit :=
  match s with
  | EmptyString => Some tt
  | _ => None
  end.

(** [/^(\d{4})-(\d{2})-(\d{2})/], groups in order. *)
Definition matchISO (s : string) : option (string * string * string) :=
  '(y, r1) ← takeDigits 4 s;
  r2 ← expect "-" r1;
  '(m, r3) ← takeDigits 2 r2;
  r4 ← expect "-" r3;
  '(d, _) ← takeDigits 2 r4;
  Some (y, m, d).

(** [/^(\d{1,2})\/(\d{1,2})\/(\d{4})$/], groups in order. *)
Definition matchDMY (s : string) : option (string * string * string) :=
  '(d, r1) ← takeDigits12 s;
  r2 ← expect "/" r1;
  '(m, r3) ← takeDigits12 r2;
  r4 ← expect "/" r3;
  '(y, r5) ← takeDigits 4 r4;
  _ ← atEnd r5;
  Some (d, m, y).

(** [/^(\d{1,2})-(\d{1,2})-(\d{4})$/], groups in order. *)
Definition matchMDY (s : string) : option (string * string * string) :=
  '(m, r1) ← takeDigits12 s;
  r2 ← expect "-" r1;
  '(d, r3) ← takeDigits12 r2;
  r4 ← expect "-" r3;
  '(y, r5) ← takeDigits 4 r4;
  _ ← atEnd r5;
  Some (m, d, y).

(** [Number(g)] for a captured group [g] of decimal digits
    (lemma [Number_of_digits]). *)
Definition NumberOfGroup (g : string) : Z := digitsValue g.

(** *** Type normalisation *)

(** [null] is [None].  The [try] block cannot leave by the [catch]
    clause with anything but [null]. *)
Definition buildISODate (y m d : Z) : option string :=
  let attempt : completion (option string) :=
    if (m <? 1) || (m >? 12) || (d <? 1) || (d >? 31) || (y <? 1900) || (y >? 3000)
    then Normal None
    else
      let date := Date.fromNumber (Date.UTC y (m - 1) d) in
      if Date.strictEq (Date.getUTCFullYear date) y
         && Date.strictEq (Date.getUTCMonth date) (m - 1)
         && Date.strictEq (Date.getUTCDate date) d
      then iso ← Date.toISOString date; Normal (Some (sliceTo 10 iso))
      else Normal None in
  match attempt with
  | Normal r => r
  | Throw _ => None
  end.

(** [new Date(Date.UTC(d.getUTCFullYear(), d.getUTCMonth(), d.getUTCDate()))
      .toISOString().slice(0, 10)] for a valid date with time value [t]. *)
Definition utcDatePart (t : Z) : completion string :=
  iso ← Date.toISOString
          (Date.fromNumber
             (Date.UTC (Date.YearFromTime t) (Date.MonthFromTime t) (Date.DateFromTime t)));
  Normal (sliceTo 10 iso).

Definition TypeError_trim : jserror :=
  mkError "TypeError" "value.trim is not a function".

Section WithRuntime.

Context (rt : Runtime).

Definition normalizeDate (value : jsval) : completion (option string) :=
  if negb (truthy value) then Normal None
  else
    match value with
    | JDate tv =>
        match Date.getTime tv with
        | None => Normal None
        | Some t => iso ← utcDatePart t; Normal (Some iso)
        end
    | JStr s =>
        let trimmed := trim s in
        if String.eqb trimmed "" then Normal None
        else
          match matchISO trimmed with
          | Some (y, m, d) =>
              Normal (buildISODate (NumberOfGroup y) (NumberOfGroup m) (NumberOfGroup d))
          | None =>
          match matchDMY trimmed with
          | Some (d, m, y) =>
              Normal (buildISODate (NumberOfGroup y) (NumberOfGroup m) (NumberOfGroup d))
          | None =>
          match matchMDY trimmed with
          | Some (m, d, y) =>
              Normal (buildISODate (NumberOfGroup y) (NumberOfGroup m) (NumberOfGroup d))
          | None =>
              let date := Date.fromNumber (Date_parse rt trimmed) in
              match Date.getTime date with
              | Some t =>
                  match utcDatePart t with
                  | Normal iso => Normal (Some iso)
                  | Throw _ => Normal None
                  end
              | None => Normal None
              end
          end end end
    | _ => Throw TypeError_trim
    end.

(** [null] is [None]. *)
Definition nanToNull (num : jsnum) : option jsnum :=
  if isNaN num then None else Some num.

Definition parseLocaleNumber (value : jsval) : option jsnum :=
  if looseNull value then None
  else
    match value with
    | JNum n => nanToNull n
    | _ =>
        let trimmed := trim (ToString rt value) in
        if String.eqb trimmed "" then None
        else if includes "," trimmed then
          let normalized := replaceFirst "," "." (replaceAll "." "" trimmed) in
          nanToNull (StringToNumber normalized)
        else nanToNull (StringToNumber trimmed)
    end.

(** *** Output formatting *)

Definition ofDate (r : option string) : jsval :=
  match r with Some s => JStr s | None => JNull end.

Definition ofNumber (r : option jsnum) : jsval :=
  match r with Some n => JNum n | None => JNull end.

Definition formatListOutput (row : jsval) : completion jsval :=
  if negb (truthy row) then Normal JNull
  else
    datamedida ← normalizeDate (prop row "datamedida");
    Normal (JObj [
      ("idabioticocoluna", prop row "idabioticocoluna");
      ("datamedida", ofDate datamedida);
      ("horamedida", prop row "horamedida");
      ("profundidade", ofNumber (parseLocaleNumber (prop row "profundidade")));
      ("dic", ofNumber (parseLocaleNumber (prop row "dic")));
      ("nt", ofNumber (parseLocaleNumber (prop row "nt")));
      ("pt", ofNumber (parseLocaleNumber (prop row "pt")));
      ("delta13c", ofNumber (parseLocaleNumber (prop row "delta13c")));
      ("delta15n", ofNumber (parseLocaleNumber (prop row "delta15n")));
      ("sitio",
        if truthy (prop row "idsitio") then prop row "sitio_nome" else JUndefined);
      ("campanha",
        if truthy (prop row "idcampanha") then prop row "nrocampanha" else JUndefined)
    ]).

Definition formatDetailOutput (row : jsval) : completion jsval :=
  if negb (truthy row) then Normal JNull
  else
    datamedida ← normalizeDate (prop row "datamedida");
    campanha ←
      (if truthy (prop row "idcampanha") then
         dataInicio ← normalizeDate (prop row "campanha_datainicio");
         dataFim ← normalizeDate (prop row "campanha_datafim");
         Normal (JObj [
           ("idcampanha", prop row "idcampanha");
           ("nroCampanha", prop row "nrocampanha");
           ("dataInicio", ofDate dataInicio);
           ("dataFim", ofDate dataFim);
           ("reservatorio",
             if truthy (prop row "idreservatorio") then
               JObj [
                 ("idreservatorio", prop row "idreservatorio");
                 ("nome", prop row "reservatorio_nome")
               ]
             else JUndefined)
         ])
       else Normal JUndefined);
    Normal (JObj [
      ("idabioticocoluna", prop row "idabioticocoluna");
      ("datamedida", ofDate datamedida);
      ("horamedida", prop row "horamedida");
      ("profundidade", ofNumber (parseLocaleNumber (prop row "profundidade")));
      ("dic", ofNumber (parseLocaleNumber (prop row "dic")));
      ("nt", ofNumber (parseLocaleNumber (prop row "nt")));
      ("pt", ofNumber (parseLocaleNumber (prop row "pt")));
      ("delta13c", ofNumber (parseLocaleNumber (prop row "delta13c")));
      ("delta15n", ofNumber (parseLocaleNumber (prop row "delta15n")));
      ("sitio",
        if truthy (prop row "idsitio") then
          JObj [
            ("idsitio", prop row "idsitio");
            ("nome", prop row "sitio_nome");
            ("lat", ofNumber (parseLocaleNumber (prop row "sitio_lat")));
            ("lng", ofNumber (parseLocaleNumber (prop row "sitio_lng")));
            ("descricao", prop row "sitio_descricao")
          ]
        else JUndefined);
      ("campanha", campanha)
    ]).

End WithRuntime.

(** The keys of the object literal in [formatListOutput] and, with the
    same names, in [formatDetailOutput]. *)
Definition listKeys : list string :=
  ["idabioticocoluna"; "datamedida"; "horamedida"; "profundidade"; "dic"; "nt";
   "pt"; "delta13c"; "delta15n"; "sitio"; "campanha"].

(** The keys of the nested [campanha] object. *)
Definition campanhaKeys : list string :=
  ["idcampanha"; "nroCampanha"; "dataInicio"; "dataFim"; "reservatorio"].

(** *** Canonical date strings *)

(** ["YYYY-MM-DD"] for a year of four digits. *)
Definition isoDate (y m d : Z) : string :=
  padDigits 4 y ++ "-" ++ padDigits 2 m ++ "-" ++ padDigits 2 d.

(** [s] has the shape [dddd-dd-dd] and nothing more. *)
Definition isCanonicalDate (s : string) : bool :=
  match matchISO s with
  | Some _ => (String.length s =? 10)%nat
  | None => false
  end.

(** The year a canonical date string names. *)
Definition yearOf (s : string) : Z := digitsValue (sliceTo 4 s).

End DataFormatterService.

(** ** ExportService *)

Module ExportService.

Import JS.

(** [interface ExportFileOptions].  The declared types of [format],
    [encoding] and [delimiter] are unions of string literals, which are
    not checked when the code runs: [format] is whatever value the caller
    passes, and an optional field is [None] when it is absent. *)
Record ExportFileOptions : Type := mkOptions {
  format : jsval;
  encoding : option string;
  delimiter : option string;
  includeHeaders : bool
}.

(** The options object [generateCSV] receives. *)
Record CsvOptions : Type := mkCsvOptions {
  csv_includeHeaders : bool;
  csv_delimiter : string;
  csv_encoding : string
}.

(** [type ExportDelimiter = ',' | ';'] *)
Inductive ExportDelimiter : Type := Comma | Semicolon.

Definition delimiterChar (d : ExportDelimiter) : ascii :=
  match d with
  | Comma => ","%char
  | Semicolon => ";"%char
  end.

Definition delimiterText (d : ExportDelimiter) : string :=
  String (delimiterChar d) EmptyString.

(** [x || fallback] for an optional string [x]. *)
Definition orDefault (x : option string) (fallback : string) : string :=
  match x with
  | Some s => if String.eqb s "" then fallback else s
  | None => fallback
  end.

(** UTF-8 encoding of a code unit below 0x100. *)
Definition utf8Unit (c : ascii) : list Byte.byte :=
  let n := nat_of_ascii c in
  if (n <? 128)%nat then [byte_of_ascii c]
  else [byte_of_ascii (ascii_of_nat (192 + n / 64));
        byte_of_ascii (ascii_of_nat (128 + n mod 64))].

(** [Buffer.from(content, 'utf-8')] *)
Definition utf8Encode (content : string) : Buffer :=
  flat_map utf8Unit (list_ascii_of_string content).

(** [iconv.encode(content, 'ISO-8859-1')] *)
Definition latin1Encode (content : string) : Buffer :=
  list_byte_of_string content.

Definition encodeBuffer (content : string) (encoding : string) : Buffer :=
  if String.eqb encoding "iso-8859-1" then latin1Encode content
  else utf8Encode content.

(** [Error('Falha ao gerar o arquivo.')] *)
Definition exportError : jserror := mkError "Error" "Falha ao gerar o arquivo.".

(** [xs.map(f)] for a callback that may throw. *)
Fixpoint mapC {A B} (f : A -> completion B) (xs : list A) : completion (list B) :=
  match xs with
  | [] => Normal []
  | x :: xs' => y ← f x; ys ← mapC f xs'; Normal (y :: ys)
  end.

Section WithRuntime.

Context (rt : Runtime).

Definition escapeCsvValue (value : jsval) (delimiter : string) : string :=
  if looseNull value then ""
  else
    let str := ToString rt value in
    let needsQuotes :=
      includes delimiter str || includes (String quote "") str
      || includes (String newline "") str in
    if needsQuotes then
      let str := replaceAll quote (String quote (String quote "")) str in
      String quote str ++ String quote ""
    else str.

(** The rows pushed to [csvRows], joined: [csvString]. *)
Definition csvString (data : list jsval) (includeHeaders : bool)
    (delimiter : string) : completion string :=
  keys ← Object_keys (nth 0 data JUndefined);
  let header := if includeHeaders then [join delimiter keys] else [] in
  rows ← mapC (fun row =>
                 values ← mapC (fun key =>
                                  v ← member row key;
                                  Normal (escapeCsvValue v delimiter)) keys;
                 Normal (join delimiter values)) data;
  Normal (join (String newline "") (header ++ rows)%list).

Definition generateCSV (data : list jsval) (options : CsvOptions) : promise Buffer :=
  let delimiter := csv_delimiter options in
  let includeHeaders := csv_includeHeaders options in
  let encoding := csv_encoding options in
  async (
    if (List.length data =? 0)%nat then
      if includeHeaders
      then Normal (Fulfilled (encodeBuffer "Nenhum dado encontrado" encoding))
      else Normal (Fulfilled (encodeBuffer "" encoding))
    else
      text ← csvString data includeHeaders delimiter;
      Normal (Fulfilled (encodeBuffer text encoding))).

(** [cell.value ? String(cell.value).length : 0] *)
Definition cellLength (value : jsval) : Z :=
  if truthy value then Z.of_nat (String.length (ToString rt value)) else 0.

(** The width given to column [j]: the longest cell plus 2, at least 10
    and at most 50. *)
Definition columnWidth (rows : list SheetRow) (j : nat) : Z :=
  let maxLen :=
    fold_left (fun maxLen r =>
                 let len := cellLength (nth j (row_values r) JNull) in
                 if len >? maxLen then len else maxLen) rows 0 in
  Z.min (Z.max (maxLen + 2) 10) 50.

(** exceljs makes a cell, and the columns up to it, for every value of an
    added row that is not [undefined]: the number of cells a row makes
    the sheet wide. *)
Fixpoint lastCell (values : list jsval) : nat :=
  match values with
  | [] => O
  | v :: vs =>
      match lastCell vs with
      | O => match v with JUndefined => O | _ => 1%nat end
      | S n => S (S n)
      end
  end.

(** The number of columns of the sheet. *)
Definition columnCount (rows : list SheetRow) : nat :=
  fold_right (fun r n => Nat.max (lastCell (row_values r)) n) O rows.

(** [worksheet.columns] is [null] as long as the sheet has no column. *)
Definition TypeError_columns : jserror := TypeError_read "null" "forEach".

Definition generateXLSX (data : list jsval) (includeHeaders : bool) : promise Buffer :=
  async (
    if (List.length data =? 0)%nat then
      let rows :=
        if includeHeaders
        then [mkSheetRow [JStr "Nenhum dado encontrado para exportar."] false]
        else [] in
      excelBuffer ← await (xlsx_writeBuffer rt (mkWorksheet "Dados" rows []));
      Normal (Fulfilled excelBuffer)
    else
      keys ← Object_keys (nth 0 data JUndefined);
      let header :=
        if includeHeaders then [mkSheetRow (map JStr keys) true] else [] in
      body ← mapC (fun row =>
                     values ← mapC (member row) keys;
                     Normal (mkSheetRow values false)) data;
      let rows := (header ++ body)%list in
      if (columnCount rows =? 0)%nat then Throw TypeError_columns
      else
        let widths := map (columnWidth rows) (seq 0 (columnCount rows)) in
        excelBuffer ← await (xlsx_writeBuffer rt (mkWorksheet "Dados" rows widths));
        Normal (Fulfilled excelBuffer)).

Definition TypeError_readOptions : jserror := TypeError_read "undefined" "format".

(** [options] is [None] when the caller passes [null] or [undefined].
    The promises of [generateXLSX] and [generateCSV] are returned as they
    are, without [await]; the [catch] clause sees only what the [try]
    block itself throws.  The call of [logger.error] in the [catch]
    clause has no effect on the result and is left out. *)
Definition generateExportFile (data : list jsval)
    (options : option ExportFileOptions) : promise Buffer :=
  async (
    tryCatch
      (match options with
       | None => Throw TypeError_readOptions
       | Some options =>
           if strictEqStr (format options) "xlsx" then
             Normal (generateXLSX data (includeHeaders options))
           else
             Normal (generateCSV data
                       {| csv_includeHeaders := includeHeaders options;
                          csv_delimiter := orDefault (delimiter options) ";";
                          csv_encoding := orDefault (encoding options) "utf-8" |})
       end)
      (fun error => Throw exportError)).

End WithRuntime.

End ExportService.

(** ** Reading an exported CSV text back *)

Module CsvReader.

Import JS.

(** The reader the round-trip property of the specification speaks of:
    the text is cut into rows at line feeds and into fields at the
    delimiter, a field in double quotes loses the surrounding quotes and
    has each doubled double quote collapsed into one, and the first row
    names the fields of the others. *)

Definition consChar (c : ascii) (rows : list (list string)) : list (list string) :=
  match rows with
  | (f :: fs) :: rs => (String c f :: fs) :: rs
  | [] :: rs => [String c EmptyString] :: rs
  | [] => [[String c EmptyString]]
  end.

Definition newField (rows : list (list string)) : list (list string) :=
  match rows with
  | r :: rs => (EmptyString :: r) :: rs
  | [] => [[EmptyString; EmptyString]]
  end.

Definition newRow (rows : list (list string)) : list (list string) :=
  [EmptyString] :: rows.

Fixpoint parseFrom (d : ascii) (quoted : bool) (s : string) : list (list string) :=
  match s with
  | EmptyString => [[EmptyString]]
  | String c s' =>
      if quoted then
        if Ascii.eqb c quote then
          match s' with
          | String c2 s'' =>
              if Ascii.eqb c2 quote then consChar quote (parseFrom d true s'')
              else parseFrom d false s'
          | EmptyString => parseFrom d false s'
          end
        else consChar c (parseFrom d true s')
      else
        if Ascii.eqb c quote then parseFrom d true s'
        else if Ascii.eqb c d then newField (parseFrom d false s')
        else if Ascii.eqb c newline then newRow (parseFrom d false s')
        else consChar c (parseFrom d false s')
  end.

Definition parseCSV (d : ascii) (text : string) : list (list string) :=
  parseFrom d false text.

(** The records of a text with a header row: each row paired, field by
    field, with the names of the header. *)
Definition readRecords (d : ascii) (text : string) : list (list (string * string)) :=
  match parseCSV d text with
  | header :: rows => map (fun r => combine header r) rows
  | [] => []
  end.

(** The text [escapeCsvValue] renders for a value, before any quoting:
    empty for [null] and [undefined], [String(value)] otherwise. *)
Definition cellText (rt : Runtime) (value : jsval) : string :=
  if looseNull value then EmptyString else ToString rt value.

(** The key/value pairs of a record, the values as that text. *)
Definition textPairs (rt : Runtime) (record : jsobject) : list (string * string) :=
  map (fun kv => (fst kv, cellText rt (snd kv))) record.

(** The round trip for one array of records: the CSV is generated with a
    header row, and reading the text back gives the key/value pairs of the
    records as strings. *)
Definition roundTrips (rt : Runtime) (d : ExportService.ExportDelimiter)
    (records : list jsobject) : Prop :=
  exists text : string,
    ExportService.csvString rt (map JObj records) true (ExportService.delimiterText d)
    = Normal text
    /\ readRecords (ExportService.delimiterChar d) text = map (textPairs rt) records.

(** A header name that the generator writes as it is and the reader
    reads as one field: no delimiter, no double quote, no line feed. *)
Definition plainName (d : ascii) (k : string) : bool :=
  negb (mem d k) && negb (mem quote k) && negb (mem newline k).

(** Quoting as [escapeCsvValue] does it, on the text of the value. *)
Definition escapeText (d : ascii) (s : string) : string :=
  if mem d s || mem quote s || mem newline s then
    String quote (replaceAll quote (String quote (String quote EmptyString)) s)
    ++ String quote EmptyString
  else s.

(** [s] put in front of the first field of the first row. *)
Fixpoint consString (s : string) (rows : list (list string)) : list (list string) :=
  match s with
  | EmptyString => rows
  | String c s' => consChar c (consString s' rows)
  end.

(** The fields [vs] put in front of the first row, the last of them
    joined to its first field. *)
Fixpoint consFields (vs : list string) (rows : list (list string)) : list (list string) :=
  match vs with
  | [] => rows
  | [v] => consString v rows
  | v :: vs' => consString v (newField (consFields vs' rows))
  end.

End CsvReader.

(** ** A runtime for the examples *)

(** ** Numbers in the controller *)

Module JSNumber.

Import JS Num.

(** [Number(v)] for any value.  A plain object becomes ["[object Object]"]
    first and so is NaN. *)
Definition ToNumber (v : jsval) : jsnum :=
  match v with
  | JUndefined => NaN
  | JNull => Finite 0
  | JBool b => Finite (if b then 1 else 0)
  | JNum n => n
  | JStr s => StringToNumber s
  | JDate (Some t) => Finite (inject_Z t)
  | JDate None => NaN
  | JObj _ => NaN
  end.

(** The longest prefix of digits of the radix. *)
Fixpoint spanRadix (radix : Z) (s : string) : string :=
  match s with
  | EmptyString => EmptyString
  | String c s' =>
      match hexVal c with
      | Some d => if d <? radix then String c (spanRadix radix s') else EmptyString
      | None => EmptyString
      end
  end.

Definition isNegative (x : Q) : bool := (Qnum x <? 0).

(** The exponent of the power of two at or below a positive rational. *)
Definition floorLog2 (a : Q) : Z :=
  let k := Z.log2 (Qnum a) - Z.log2 (Zpos (Qden a)) in
  if Qle_bool (Qpower 2 k) a then k else k - 1.

(** The Number nearest to a rational, ties to the even significand.  An
    integer is rounded by [roundInteger]; for the others the spacing is
    2^e, with [e] at least -1074. *)
Definition round64 (q : Q) : jsnum :=
  let q := Qred q in
  if (Qden q =? 1)%positive then
    let n := roundInteger (Qnum q) in
    if 2 ^ 1024 <=? Z.abs n then Infinity (n <? 0) else Finite (inject_Z n)
  else
    let a := Qabs q in
    let e := Z.max (floorLog2 a) (-1022) - 52 in
    let num := Qnum a * 2 ^ Z.max 0 (- e) in
    let den := Zpos (Qden a) * 2 ^ Z.max 0 e in
    let f := num / den in
    let r := num mod den in
    let m :=
      if 2 * r <? den then f
      else if den <? 2 * r then f + 1
      else if Z.even f then f else f + 1 in
    let v := Qred (inject_Z m * Qpower 2 e) in
    if Qle_bool (Qpower 2 1024) v then Infinity (isNegative q)
    else Finite (if isNegative q then Qred (- v) else v).

(** [parseInt(inputString)], without a radix argument. *)
Definition parseInt (inputString : string) : jsnum :=
  let '(neg, s) := takeSign (trimStart inputString) in
  let '(radix, s) :=
    match s with
    | String "0" (String c s') =>
        if Ascii.eqb c "x" || Ascii.eqb c "X" then (16, s') else (10, s)
    | _ => (10, s)
    end in
  let digits := spanRadix radix s in
  if String.eqb digits "" then NaN
  else
    match radixValueFrom radix 0 digits with
    | Some mathInt => round64 (inject_Z (if neg then - mathInt else mathInt))
    | None => NaN
    end.

(** [a - b] and [a * b].  The two zeros are one value here. *)
Definition sub (a b : jsnum) : jsnum :=
  match a, b with
  | NaN, _ | _, NaN => NaN
  | Finite x, Finite y => round64 (x - y)
  | Infinity s, Finite _ => Infinity s
  | Finite _, Infinity s => Infinity (negb s)
  | Infinity s, Infinity s' => if Bool.eqb s s' then NaN else Infinity s
  end.

Definition mul (a b : jsnum) : jsnum :=
  match a, b with
  | NaN, _ | _, NaN => NaN
  | Finite x, Finite y => round64 (x * y)
  | Infinity s, Finite y | Finite y, Infinity s =>
      if Qeq_bool y 0 then NaN else Infinity (xorb s (isNegative y))
  | Infinity s, Infinity s' => Infinity (xorb s s')
  end.

(** [n || fallback] for Numbers. *)
Definition orNumber (n fallback : jsnum) : jsnum :=
  if truthy (JNum n) then n else fallback.

End JSNumber.

(** ** controllers/furnas/abioticoColuna.controller *)

Module AbioticoColunaController.

Import JS FilterService.

Definition abioticoColumnMap : ColumnMap :=
  <["idcampanha" := "a.idcampanha"]> (<["idsitio" := "a.idsitio"]> ∅).

(** The template literals, line by line. *)
Definition baseQuery : string :=
  join (String newline "")
    ["";
     "        SELECT ";
     "            a.idabioticocoluna, a.datamedida, a.horamedida, a.profundidade,";
     "            a.dic, a.nt, a.pt, a.delta13c, a.delta15n,";
     "            b.idcampanha, b.nrocampanha,";
     "            c.idsitio, c.nome AS sitio_nome, c.lat AS sitio_lat, c.lng AS sitio_lng";
     "        FROM tbabioticocoluna AS a";
     "        LEFT JOIN tbcampanha AS b ON a.idcampanha = b.idcampanha";
     "        LEFT JOIN tbsitio AS c ON a.idsitio = c.idsitio";
     "    "].

Definition countQuery : string :=
  join (String newline "")
    ["";
     "        SELECT COUNT(a.idabioticocoluna)";
     "        FROM tbabioticocoluna AS a";
     "        LEFT JOIN tbcampanha AS b ON a.idcampanha = b.idcampanha";
     "        LEFT JOIN tbsitio AS c ON a.idsitio = c.idsitio";
     "    "].

Record AbioticoQuery : Type := mkAbioticoQuery {
  mainQuery : string;
  countText : string;
  values : list jsval;
  paramIndex : Z
}.

Definition buildAbioticoQuery (filters : jsobject) : AbioticoQuery :=
  let r := buildFilter filters abioticoColumnMap 1 in
  let whereString := whereClause r in
  let values := params r in
  let paramIndex := nextIndex r in
  {| mainQuery :=
       baseQuery ++ " " ++ whereString
       ++ " ORDER BY a.datamedida DESC, a.horamedida DESC";
     countText := countQuery ++ " " ++ whereString;
     values := values;
     paramIndex := paramIndex |}.

(** In [getAll]: the text and the values of the query for one page. *)
Definition paginatedQuery (q : AbioticoQuery) : string :=
  mainQuery q ++ " LIMIT $" ++ Num.integerText (paramIndex q)
  ++ " OFFSET $" ++ Num.integerText (Num.roundInteger (paramIndex q + 1)).

Definition paginatedValues (q : AbioticoQuery) (limit offset : jsval) : list jsval :=
  (values q ++ [limit; offset])%list.

(** What the handlers find around them: the variable [PAGE_SIZE] of the
    process environment, the rows [furnasPool.query] answers with, and
    the time value of [new Date()]. *)
Record Env : Type := mkEnv {
  env_PAGE_SIZE : option string;
  pool_query : string -> list jsval -> promise (list jsval);
  now : Z
}.

(** [Number(process.env.PAGE_SIZE) || 10] *)
Definition PAGE_SIZE (env : Env) : jsnum :=
  JSNumber.orNumber
    (JSNumber.ToNumber
       (match env_PAGE_SIZE env with Some s => JStr s | None => JUndefined end))
    (Finite 10).

(** In [getAll]: [page], [limit] and [offset], from [req.query]. *)
Definition pageOf (rt : Runtime) (query : jsobject) : jsnum :=
  JSNumber.orNumber (JSNumber.parseInt (ToString rt (get query "page"))) (Finite 1).

Definition limitOf (env : Env) (rt : Runtime) (query : jsobject) : jsnum :=
  JSNumber.orNumber (JSNumber.parseInt (ToString rt (get query "limit")))
    (PAGE_SIZE env).

Definition offsetOf (env : Env) (rt : Runtime) (query : jsobject) : jsnum :=
  JSNumber.mul (JSNumber.sub (pageOf rt query) (Finite 1)) (limitOf env rt query).

(** What a handler does with the response object: [res.status(s).json(body)],
    or [res.setHeader] for each header and then [res.send(content)]. *)
Inductive Response : Type :=
| SendJson (status : Z) (body : jsobject)
| SendFile (headers : list (string * string)) (content : Buffer).

(** The properties [exportData] reads from [req.body].  [delimiter] and
    [encoding] are absent or strings. *)
Record ExportBody : Type := mkExportBody {
  body_format : jsval;
  body_range : jsval;
  body_includeHeaders : jsval;
  body_delimiter : option string;
  body_encoding : option string;
  body_filters : jsval;
  body_page : jsval;
  body_limit : jsval
}.

(** [filters || {}], as the object [buildFilter] goes through.  A truthy
    value that is not an object has no key of the column map: the index
    keys of a string, and no key at all for the others. *)
Definition filtersOrEmpty (filters : jsval) : jsobject :=
  match filters with
  | JObj o => o
  | _ => []
  end.

Definition TypeError_destructure : jserror :=
  mkError "TypeError"
    "Cannot destructure property 'format' of 'req.body' as it is undefined.".

(** [x || fallback] for any value. *)
Definition orValue (x fallback : jsval) : jsval :=
  if truthy x then x else fallback.

(** The text and the values of the query of [exportData]. *)
Definition exportQuery (env : Env) (b : ExportBody) : string * list jsval :=
  let q := buildAbioticoQuery (filtersOrEmpty (body_filters b)) in
  if strictEqStr (body_range b) "page" then
    let currentPage := orValue (body_page b) (JNum (Finite 1)) in
    let currentLimit := orValue (body_limit b) (JNum (PAGE_SIZE env)) in
    let offset :=
      JSNumber.mul (JSNumber.sub (JSNumber.ToNumber currentPage) (Finite 1))
        (JSNumber.ToNumber currentLimit) in
    (mainQuery q ++ " LIMIT $" ++ Num.integerText (paramIndex q)
     ++ " OFFSET $" ++ Num.integerText (Num.roundInteger (paramIndex q + 1)),
     (values q ++ [currentLimit; JNum offset])%list)
  else (mainQuery q, values q).

Definition exportOptions (b : ExportBody) : ExportService.ExportFileOptions :=
  {| ExportService.format := body_format b;
     ExportService.includeHeaders := truthy (body_includeHeaders b);
     ExportService.delimiter := body_delimiter b;
     ExportService.encoding := body_encoding b |}.

Definition fileName (env : Env) (rt : Runtime) (format : jsval) : completion string :=
  iso ← Date.toISOString (Some (now env));
  Normal ("export_abiotico_coluna_" ++ sliceTo 10 iso ++ "." ++ ToString rt format).

Definition xlsxContentType : string :=
  "application/vnd.openxmlformats-officedocument.spreadsheetml.sheet".

(** ["Erro ao gerar exportação."], in code units. *)
Definition exportFailure : jsobject :=
  [("success", JBool false);
   ("error", JStr ("Erro ao gerar exporta" ++ String "231" (String "227" "o.")))].

(** The characters Node accepts in the value of a header: the tab, 0x20
    to 0x7E and 0x80 to 0xFF. *)
Definition validHeaderChar (c : ascii) : bool :=
  let n := nat_of_ascii c in
  ((n =? 9) || ((32 <=? n) && (n <=? 126)) || (128 <=? n))%nat.

Definition TypeError_header (name : string) : jserror :=
  mkError "TypeError"
    ("Invalid character in header content [" ++ String quote (name ++ String quote "]")).

(** [res.setHeader(name, value)] for a string [value]. *)
Definition setHeader (name value : string) : completion (string * string) :=
  if every validHeaderChar value then Normal (name, value)
  else Throw (TypeError_header name).

(** [req.body] is [None] when the request has no parsed body. *)
Definition exportData (env : Env) (rt : Runtime) (body : option ExportBody) : Response :=
  let outcome :=
    b ← match body with
        | Some b => Normal b
        | None => Throw TypeError_destructure
        end;
    let '(queryText, queryValues) := exportQuery env b in
    rows ← await (pool_query env queryText queryValues);
    formattedData ← ExportService.mapC (DataFormatterService.formatListOutput rt) rows;
    fileBuffer ← await (ExportService.generateExportFile rt formattedData
                          (Some (exportOptions b)));
    name ← fileName env rt (body_format b);
    let contentType :=
      if strictEqStr (body_format b) "xlsx" then xlsxContentType
      else "text/csv; charset=" ++ ExportService.orDefault (body_encoding b) "utf-8" in
    type ← setHeader "Content-Type" contentType;
    disposition ← setHeader "Content-Disposition"
                    ("attachment; filename=" ++ String quote (name ++ String quote ""));
    Normal (SendFile [type; disposition] fileBuffer) in
  match outcome with
  | Normal response => response
  | Throw _ => SendJson 500 exportFailure
  end.

End AbioticoColunaController.

(** No text is read by the fallback parser, every Number prints as ["0"],
    every Date as ["Invalid Date"], and the workbook is written as an
    empty buffer. *)
Definition stubRuntime : Runtime :=
  {| Date_parse := fun _ => None;
     Number_toString := fun _ => "0";
     Date_toString := fun _ => "Invalid Date";
     xlsx_writeBuffer := fun _ => Fulfilled [] |}.

(** * Properties *)

(** ** FilterService.buildFilter *)

Section FilterServiceFacts.

Import JS Num FilterService.

Context (columnMap : ColumnMap).

Local Abbreviation hits query ks :=
  (filter (λ k : string, accepts query columnMap k = true) ks).

(** *** Counting in binary64 *)

Lemma increment_safe (x : Z) : - 2 ^ 53 <= x < 2 ^ 53 → increment x = x + 1.
Proof.
  intros Hx. unfold increment, roundInteger.
  destruct (Z.leb_spec (Z.abs (x + 1)) (2 ^ 53)); [done|lia].
Qed.

Lemma indicesFrom_safe (idx : Z) (n : nat) :
  - 2 ^ 53 <= idx → idx + Z.of_nat n <= 2 ^ 53 →
  indicesFrom idx n = seqZ idx (Z.of_nat n).
Proof.
  revert idx. induction n as [|n IH]; intros idx Hlo Hhi; [done|].
  cbn [indicesFrom]. rewrite Nat2Z.inj_succ, seqZ_cons, Z.pred_succ by lia.
  rewrite increment_safe by lia. rewrite IH by lia. by rewrite Z.add_1_r.
Qed.

Lemma indexAfter_succ (idx : Z) (n : nat) :
  indexAfter idx (S n) = indexAfter (increment idx) n.
Proof. unfold indexAfter. apply Nat.iter_succ_r. Qed.

Lemma indexAfter_safe (idx : Z) (n : nat) :
  - 2 ^ 53 <= idx → idx + Z.of_nat n <= 2 ^ 53 →
  indexAfter idx n = idx + Z.of_nat n.
Proof.
  revert idx. induction n as [|n IH]; intros idx Hlo Hhi.
  - cbn. lia.
  - rewrite indexAfter_succ, increment_safe by lia. rewrite IH by lia. lia.
Qed.

Lemma indicesFrom_app (idx : Z) (n m : nat) :
  indicesFrom idx (n + m)
  = (indicesFrom idx n ++ indicesFrom (indexAfter idx n) m)%list.
Proof.
  revert idx. induction n as [|n IH]; intros idx; [done|].
  cbn [Nat.add indicesFrom app]. by rewrite IH, indexAfter_succ.
Qed.

Lemma indexAfter_add (idx : Z) (n m : nat) :
  indexAfter idx (n + m) = indexAfter (indexAfter idx n) m.
Proof.
  revert idx. induction n as [|n IH]; intros idx; [done|].
  cbn [Nat.add]. by rewrite !indexAfter_succ, IH.
Qed.

Lemma length_indicesFrom (idx : Z) (n : nat) : length (indicesFrom idx n) = n.
Proof. revert idx. induction n as [|n IH]; intros idx; [done|]. cbn. by rewrite IH. Qed.

Lemma integerText_safe (x : Z) : Z.abs x <= 2 ^ 53 → integerText x = pretty x.
Proof.
  intros Hx. unfold integerText.
  destruct (Z.leb_spec (Z.abs x) (2 ^ 53)); [done|lia].
Qed.

(** *** The loop *)

(** The loop, run from any state: it appends one fragment and one bound
    value per accepted key, numbering them from the current index. *)
Lemma loop_unfold (query : jsobject) (ks : list string) (st : LoopState) :
  fold_left (loopBody query columnMap) ks st =
  {| whereClauses :=
       whereClauses st ++
       zip_with fragment (columnOf columnMap <$> hits query ks)
                (indicesFrom (paramIndex st) (length (hits query ks)));
     loop_params := loop_params st ++ (get query <$> hits query ks);
     paramIndex := indexAfter (paramIndex st) (length (hits query ks)) |}%list.
Proof.
  revert st. induction ks as [|k ks IH]; intros st; simpl.
  - destruct st; simpl. by rewrite !app_nil_r.
  - rewrite IH. unfold loopBody. rewrite filter_cons.
    destruct (accepts query columnMap k) eqn:Hk.
    + rewrite decide_True by done.
      cbn [length fmap list_fmap whereClauses loop_params paramIndex indicesFrom].
      cbn [zip_with]. rewrite <- !app_assoc. cbn [app].
      by rewrite indexAfter_succ.
    + rewrite decide_False by done. done.
Qed.

Lemma buildFilter_unfold (query : jsobject) (startIndex : Z) :
  buildFilter query columnMap startIndex =
  match hits query (keys query) with
  | [] => {| whereClause := ""; params := []; nextIndex := startIndex |}
  | hs =>
      {| whereClause :=
           "WHERE " ++ join " AND "
             (zip_with fragment (columnOf columnMap <$> hs)
                       (indicesFrom startIndex (length hs)));
         params := get query <$> hs;
         nextIndex := indexAfter startIndex (length hs) |}
  end.
Proof.
  unfold buildFilter. rewrite loop_unfold. cbn [whereClauses loop_params paramIndex app].
  by destruct (hits query (keys query)) as [|h hs].
Qed.

(** *** Reading the column map *)

Lemma inheritedText_own (key : string) :
  key ∉ inheritedNames → inheritedText key = None.
Proof.
  intros Hk. unfold inheritedText.
  destruct (String.eqb_spec key "__proto__") as [->|_].
  - destruct Hk. unfold inheritedNames. repeat constructor.
  - by rewrite bool_decide_eq_false_2.
Qed.

Lemma mapped_own (key : string) :
  key ∉ inheritedNames → mapped columnMap key = true →
  ∃ c, columnMap !! key = Some c ∧ c ≠ "" ∧ columnOf columnMap key = c.
Proof.
  intros Hk. unfold mapped, columnOf. rewrite (inheritedText_own key Hk).
  destruct (columnMap !! key) as [c|]; [|done].
  intros Hc. exists c. split; [done|]. split; [|done].
  intros ->. done.
Qed.

Lemma accepts_elim (query : jsobject) (key : string) :
  accepts query columnMap key = true →
  mapped columnMap key = true ∧ looseNull (get query key) = false
  ∧ isEmptyString (get query key) = false.
Proof.
  unfold accepts. intros H. repeat (apply andb_prop in H as [H ?]).
  split; [done|]. split; by apply negb_true_iff.
Qed.

Lemma accepts_allow_listed (query : jsobject) (key : string) :
  key ∉ inheritedNames →
  accepts query columnMap key = true →
  columnMap !! key = Some (columnOf columnMap key).
Proof.
  intros Hk [Hm _]%accepts_elim.
  by destruct (mapped_own key Hk Hm) as (c & -> & _ & ->).
Qed.

(** The fields of the result, by the accepted keys. *)
Lemma buildFilter_fields (query : jsobject) (startIndex : Z) :
  let r := buildFilter query columnMap startIndex in
  let ks := hits query (keys query) in
  params r = get query <$> ks
  ∧ nextIndex r = indexAfter startIndex (length ks)
  ∧ whereClause r =
      match ks with
      | [] => ""
      | _ => "WHERE " ++ join " AND "
               (zip_with fragment (columnOf columnMap <$> ks)
                  (indicesFrom startIndex (length ks)))
      end.
Proof.
  intros r ks. subst r. rewrite buildFilter_unfold. fold ks.
  destruct ks; cbn; repeat split; done.
Qed.

Lemma length_hits (query : jsobject) (ks : list string) :
  (length (hits query ks) <= length ks)%nat.
Proof. apply length_filter. Qed.

(** The same with the indices written out, when they stay within the
    integers that binary64 counts one by one. *)
Lemma buildFilter_fields_safe (query : jsobject) (startIndex : Z) :
  - 2 ^ 53 <= startIndex →
  startIndex + Z.of_nat (length (keys query)) <= 2 ^ 53 →
  let r := buildFilter query columnMap startIndex in
  let ks := hits query (keys query) in
  params r = get query <$> ks
  ∧ nextIndex r = startIndex + Z.of_nat (length ks)
  ∧ whereClause r =
      match ks with
      | [] => ""
      | _ => "WHERE " ++ join " AND "
               (zip_with fragment (columnOf columnMap <$> ks)
                  (seqZ startIndex (Z.of_nat (length ks))))
      end.
Proof.
  intros Hlo Hhi r ks.
  destruct (buildFilter_fields query startIndex) as (P & N & W).
  fold r in P, N, W. fold ks in P, N, W.
  pose proof (length_hits query (keys query)) as Hlen. fold ks in Hlen.
  rewrite indexAfter_safe in N by lia.
  rewrite indicesFrom_safe in W by lia. done.
Qed.

(** C2, as amended.  There are as many fragments [column = $k] as bound
    values, and with no fragment the clause is the empty string, [params]
    is empty and [nextIndex] is [startIndex]; the placeholders are the
    indices the loop counts from [startIndex], and [nextIndex] is the
    index it is left with.  For a start index from -2^53 on and as long
    as the start index plus the number of keys of the input does not
    exceed 2^53, these are [startIndex], [startIndex + 1], ... and
    [nextIndex] is [startIndex] plus the number of bound values. *)
Theorem buildFilter_placeholders (query : jsobject) (startIndex : Z) :
  let r := buildFilter query columnMap startIndex in
  let n := length (params r) in
  (∃ cols : list string,
     length cols = n
     ∧ whereClause r =
         match cols with
         | [] => ""
         | _ => "WHERE " ++ join " AND "
                  (zip_with fragment cols (indicesFrom startIndex n))
         end)
  ∧ nextIndex r = indexAfter startIndex n
  ∧ (n = 0%nat → whereClause r = "" ∧ params r = [] ∧ nextIndex r = startIndex)
  ∧ (- 2 ^ 53 <= startIndex →
     startIndex + Z.of_nat (length (keys query)) <= 2 ^ 53 →
     indicesFrom startIndex n = seqZ startIndex (Z.of_nat n)
     ∧ Forall (λ k, integerText k = pretty k) (indicesFrom startIndex n)
     ∧ nextIndex r = startIndex + Z.of_nat n).
Proof.
  intros r n.
  destruct (buildFilter_fields query startIndex) as (P & N & W).
  fold r in P, N, W.
  assert (Hn : n = length (hits query (keys query))).
  { subst n. by rewrite P, length_fmap. }
  rewrite <- Hn in N, W.
  split; [|split; [done|split]].
  - exists (columnOf columnMap <$> hits query (keys query)).
    split; [by rewrite length_fmap|].
    rewrite W. by destruct (hits query (keys query)).
  - intros Hz. rewrite Hz in N. rewrite Hn in Hz.
    apply nil_length_inv in Hz. rewrite Hz in W, P. done.
  - intros Hlo Hhi.
    pose proof (length_hits query (keys query)) as Hlen. rewrite <- Hn in Hlen.
    split; [apply indicesFrom_safe; lia|].
    split; [|rewrite N; apply indexAfter_safe; lia].
    rewrite indicesFrom_safe by lia. apply Forall_forall.
    intros k Hk%elem_of_seqZ. apply integerText_safe. lia.
Qed.

End FilterServiceFacts.

Section FilterServiceOnTheCode.

Import JS Num FilterService.

(** C1, on the code: a key that the column map does not list is not
    always dropped.  The map is read by [columnMap[key]], which also
    finds what an object inherits from [Object.prototype].  The column
    map of the controller has no entry [constructor]; for the input
    [{ constructor: 'x' }] the clause nevertheless holds the text of the
    function [Object] as a column, and ['x'] is bound.  A key that is
    neither listed nor inherited, such as [page], is dropped. *)
Theorem buildFilter_inherited_key :
  (<["idcampanha" := "a.idcampanha"]> (<["idsitio" := "a.idsitio"]> (∅ : ColumnMap)))
    !! "constructor" = None
  ∧ buildFilter [("constructor", JStr "x")]
      (<["idcampanha" := "a.idcampanha"]> (<["idsitio" := "a.idsitio"]> ∅)) 1
    = {| whereClause := "WHERE function Object() { [native code] } = $1";
         params := [JStr "x"];
         nextIndex := 2 |}
  ∧ buildFilter [("page", JStr "x")]
      (<["idcampanha" := "a.idcampanha"]> (<["idsitio" := "a.idsitio"]> ∅)) 1
    = {| whereClause := ""; params := []; nextIndex := 1 |}.
Proof. by vm_compute. Qed.

(** C2, as stated, fails: from the start index 2^53 the code counts in
    binary64, where adding 1 to 2^53 gives 2^53 again.  Both placeholders
    are [$9007199254740992] and [nextIndex] is the start index, not the
    start index plus two. *)
Lemma buildFilter_placeholders_repeat :
  buildFilter [("idcampanha", JStr "5"); ("idsitio", JStr "9")]
    (<["idcampanha" := "a.idcampanha"]> (<["idsitio" := "a.idsitio"]> ∅)) (2 ^ 53)
  = {| whereClause :=
         "WHERE a.idcampanha = $9007199254740992 AND a.idsitio = $9007199254740992";
       params := [JStr "5"; JStr "9"];
       nextIndex := 2 ^ 53 |}
  ∧ nextIndex
      (buildFilter [("idcampanha", JStr "5"); ("idsitio", JStr "9")]
         (<["idcampanha" := "a.idcampanha"]> (<["idsitio" := "a.idsitio"]> ∅)) (2 ^ 53))
    ≠ 2 ^ 53
      + Z.of_nat
          (length
             (params
                (buildFilter [("idcampanha", JStr "5"); ("idsitio", JStr "9")]
                   (<["idcampanha" := "a.idcampanha"]> (<["idsitio" := "a.idsitio"]> ∅))
                   (2 ^ 53)))).
Proof. by vm_compute. Qed.

Lemma buildFilter_placeholders_witness :
  nextIndex
    (buildFilter [("idcampanha", JStr "5"); ("page", JStr "2"); ("idsitio", JStr "9")]
       (<["idcampanha" := "a.idcampanha"]> (<["idsitio" := "a.idsitio"]> ∅)) 3)
  = 3 + Z.of_nat
          (length
             (params
                (buildFilter
                   [("idcampanha", JStr "5"); ("page", JStr "2"); ("idsitio", JStr "9")]
                   (<["idcampanha" := "a.idcampanha"]> (<["idsitio" := "a.idsitio"]> ∅))
                   3))).
Proof.
  refine (proj2 (proj2 (proj2 (proj2 (proj2
            (buildFilter_placeholders
               (<["idcampanha" := "a.idcampanha"]> (<["idsitio" := "a.idsitio"]> ∅))
               [("idcampanha", JStr "5"); ("page", JStr "2"); ("idsitio", JStr "9")] 3)))
            _ _))).
  - by vm_compute.
  - by vm_compute.
Defined.

End FilterServiceOnTheCode.

(** ** Strings *)

Section StringFacts.

Import JS.

Lemma append_assoc (s t u : string) : (s ++ t) ++ u = s ++ (t ++ u).
Proof. induction s as [|a s IH]; [done|]. simpl. by rewrite IH. Qed.

Lemma append_nil_r (s : string) : s ++ "" = s.
Proof. induction s as [|a s IH]; [done|]. simpl. by rewrite IH. Qed.

Lemma includes_unit (c : ascii) (s : string) :
  includes (String c EmptyString) s = mem c s.
Proof.
  induction s as [|a s IH]; [done|].
  cbn [includes mem String.prefix]. rewrite IH.
  destruct (ascii_dec c a) as [->|Hne].
  - rewrite Ascii.eqb_refl. by destruct s.
  - destruct (Ascii.eqb_spec a c) as [->|_]; done.
Qed.

Lemma mem_app (c : ascii) (s t : string) :
  mem c (s ++ t) = mem c s || mem c t.
Proof.
  induction s as [|a s IH]; [done|]. simpl. by rewrite IH, orb_assoc.
Qed.

Lemma replaceAll_app (c : ascii) (by_ s t : string) :
  replaceAll c by_ (s ++ t) = replaceAll c by_ s ++ replaceAll c by_ t.
Proof.
  induction s as [|a s IH]; [done|]. simpl.
  destruct (Ascii.eqb a c); rewrite IH; [|done].
  by rewrite append_assoc.
Qed.

Lemma mem_replaceAll_other (c x : ascii) (s : string) :
  c ≠ x → mem c (replaceAll x EmptyString s) = mem c s.
Proof.
  intros Hne. induction s as [|a s IH]; [done|]. simpl.
  destruct (Ascii.eqb_spec a x) as [->|_]; simpl; rewrite IH; [|done].
  destruct (Ascii.eqb_spec x c); [congruence | done].
Qed.

Lemma replaceFirst_split (c : ascii) (by_ a b : string) :
  mem c a = false →
  replaceFirst c by_ (a ++ String c b) = a ++ by_ ++ b.
Proof.
  induction a as [|x a IH]; simpl.
  - by rewrite Ascii.eqb_refl.
  - intros H. apply orb_false_iff in H as [-> H]. by rewrite IH.
Qed.

End StringFacts.


(** ** The calendar *)

Section CalendarFacts.

Import Date.

Ltac div_lia := Z.div_mod_to_equations; lia.

(** Computes the month index [k - 1] of a month number [k] that is a
    numeral. *)
Ltac eval_month :=
  repeat match goal with
         | |- context [Zpos ?a - 1] =>
             let v := eval compute in (Zpos a - 1) in change (Zpos a - 1) with v
         end.

Lemma DayFromYear_succ (y : Z) :
  DayFromYear (y + 1) = DayFromYear y + DaysInYear y.
Proof.
  unfold DayFromYear, DaysInYear.
  repeat match goal with
         | |- context [negb (?a =? ?b)] => destruct (Z.eqb_spec a b); cbn [negb]
         end; div_lia.
Qed.

Lemma DayFromYear_mono (y1 y2 : Z) :
  y1 < y2 → DayFromYear y1 < DayFromYear y2.
Proof. unfold DayFromYear. intros H. div_lia. Qed.

(** [YearFromDay] is the year of ECMA-262: the day lies in it. *)
Lemma YearFromDay_spec (d : Z) :
  DayFromYear (YearFromDay d) <= d < DayFromYear (YearFromDay d + 1).
Proof.
  unfold YearFromDay.
  set (est := 1970 + 400 * d / 146097).
  assert (Hlo : DayFromYear (est - 1) <= d).
  { unfold DayFromYear, est. div_lia. }
  assert (Hhi : d < DayFromYear (est + 2)).
  { unfold DayFromYear, est. div_lia. }
  destruct (Z.ltb_spec d (DayFromYear est)).
  - replace (est - 1 + 1) with est by lia. lia.
  - destruct (Z.leb_spec (DayFromYear (est + 1)) d).
    + replace (est + 1 + 1) with (est + 2) by lia. lia.
    + lia.
Qed.

Lemma YearFromDay_unique (d y : Z) :
  DayFromYear y <= d < DayFromYear (y + 1) → YearFromDay d = y.
Proof.
  intros Hy. pose proof (YearFromDay_spec d) as HY.
  destruct (Z.lt_trichotomy (YearFromDay d) y) as [Hlt|[Heq|Hgt]]; [|done|].
  - destruct (Z.eq_dec (YearFromDay d + 1) y) as [E|E].
    + rewrite E in HY. lia.
    + pose proof (DayFromYear_mono (YearFromDay d + 1) y). lia.
  - destruct (Z.eq_dec (y + 1) (YearFromDay d)) as [E|E].
    + rewrite <- E in HY. lia.
    + pose proof (DayFromYear_mono (y + 1) (YearFromDay d)). lia.
Qed.

Lemma DaysInYear_cases (y : Z) : DaysInYear y = 365 ∨ DaysInYear y = 366.
Proof.
  unfold DaysInYear.
  repeat match goal with
         | |- context [negb (?a =? ?b)] => destruct (Z.eqb_spec a b); cbn [negb]
         end; auto.
Qed.

Lemma DayWithinYear_range (t : Z) :
  0 <= DayWithinYear t < DaysInYear (YearFromTime t).
Proof.
  unfold DayWithinYear, YearFromTime.
  pose proof (YearFromDay_spec (Day t)) as H.
  rewrite DayFromYear_succ in H. lia.
Qed.

Lemma InLeapYear_cases (t : Z) :
  (InLeapYear t = 0 ∧ DaysInYear (YearFromTime t) = 365)
  ∨ (InLeapYear t = 1 ∧ DaysInYear (YearFromTime t) = 366).
Proof.
  unfold InLeapYear.
  destruct (DaysInYear_cases (YearFromTime t)) as [E|E]; rewrite E; cbn; auto.
Qed.

(** The month and the day of the month are those of a calendar. *)
Lemma MonthFromTime_range (t : Z) : 0 <= MonthFromTime t <= 11.
Proof.
  unfold MonthFromTime.
  repeat match goal with
         | |- context [?a <? ?b] => destruct (Z.ltb_spec a b)
         end; lia.
Qed.

Lemma DateFromTime_range (t : Z) : 1 <= DateFromTime t <= 31.
Proof.
  unfold DateFromTime, MonthFromTime.
  pose proof (DayWithinYear_range t) as Hd.
  destruct (InLeapYear_cases t) as [[-> E]|[-> E]]; rewrite E in Hd;
    repeat match goal with
           | |- context [?a <? ?b] => destruct (Z.ltb_spec a b)
           end; cbn [monthStart]; lia.
Qed.

(** Rebuilding the day number from its own year, month and day of the
    month gives it back. *)
Lemma MakeDay_of_fields (t : Z) :
  MakeDay (YearFromTime t) (MonthFromTime t) (DateFromTime t) = Day t.
Proof.
  unfold MakeDay.
  pose proof (MonthFromTime_range t) as Hm.
  replace (MonthFromTime t / 12) with 0 by div_lia.
  replace (MonthFromTime t mod 12) with (MonthFromTime t) by div_lia.
  rewrite Z.add_0_r. fold (InLeapYear t).
  unfold DateFromTime, DayWithinYear. lia.
Qed.

Lemma Day_of_midnight (day : Z) : Day (MakeDate day 0) = day.
Proof. unfold Day, MakeDate, msPerDay. div_lia. Qed.

(** Past the end of a month, the day number built by [MakeDay] falls in a
    later month of the same year. *)
Lemma MonthFromTime_overflow (y m d : Z) :
  1 <= m <= 12 → DaysInMonth y m < d <= 31 →
  MonthFromTime (MakeDate (MakeDay y (m - 1) d) 0) ≠ m - 1.
Proof.
  intros Hm Hd.
  remember (if DaysInYear y =? 366 then 1 else 0) as leap eqn:Eleap.
  assert (Hfeb : DaysInMonth y 2 = 28 + leap).
  { subst leap. unfold DaysInMonth. by destruct (DaysInYear y =? 366). }
  assert (Hleap : (leap = 0 ∧ DaysInYear y = 365) ∨ (leap = 1 ∧ DaysInYear y = 366)).
  { subst leap. destruct (DaysInYear_cases y) as [E|E]; rewrite E; cbn; auto. }
  assert (Hday : MakeDay y (m - 1) d = DayFromYear y + monthStart (m - 1) leap + d - 1).
  { unfold MakeDay. replace ((m - 1) / 12) with 0 by div_lia.
    replace ((m - 1) mod 12) with (m - 1) by div_lia.
    by rewrite Z.add_0_r, <- Eleap. }
  assert (Hyear_len : 365 <= DaysInYear y) by (destruct Hleap; lia).
  assert (Hleap01 : 0 <= leap <= 1) by (destruct Hleap; lia).
  clear Eleap Hleap.
  assert (Hcases : m = 1 ∨ m = 2 ∨ m = 3 ∨ m = 4 ∨ m = 5 ∨ m = 6 ∨ m = 7 ∨ m = 8
                   ∨ m = 9 ∨ m = 10 ∨ m = 11 ∨ m = 12) by lia.
  assert (Hin : 0 <= monthStart (m - 1) leap + d - 1 < 365
                ∧ monthStart m leap <= monthStart (m - 1) leap + d - 1).
  { clear Hday.
    destruct Hcases as [->|[->|[->|[->|[->|[->|[->|[->|[->|[->|[->| ->]]]]]]]]]]];
      try rewrite Hfeb in Hd; eval_month; cbn [monthStart DaysInMonth] in Hd |- *;
      lia. }
  assert (Hyear : YearFromTime (MakeDate (MakeDay y (m - 1) d) 0) = y).
  { unfold YearFromTime. rewrite Day_of_midnight, Hday.
    apply YearFromDay_unique. rewrite DayFromYear_succ. lia. }
  assert (Hl : InLeapYear (MakeDate (MakeDay y (m - 1) d) 0) = leap).
  { unfold InLeapYear. rewrite Hyear. clear - Hfeb.
    unfold DaysInMonth in Hfeb. destruct (DaysInYear y =? 366); lia. }
  unfold MonthFromTime, DayWithinYear.
  rewrite Hl, Hyear, Day_of_midnight, Hday.
  replace (DayFromYear y + monthStart (m - 1) leap + d - 1 - DayFromYear y)
    with (monthStart (m - 1) leap + d - 1) by lia.
  clear Hl Hyear Hday.
  destruct Hin as [_ Hin]. revert Hin.
  destruct Hcases as [->|[->|[->|[->|[->|[->|[->|[->|[->|[->|[->| ->]]]]]]]]]]];
    try rewrite Hfeb in Hd; cbn [DaysInMonth] in Hd;
    eval_month; cbn [monthStart]; intros Hin;
    repeat match goal with
           | |- context [?a <? ?b] => destruct (Z.ltb_spec a b)
           end; lia.
Qed.

End CalendarFacts.

(** ** Digits and fixed-width fields *)

Section DigitFacts.

Import JS Num.

Lemma length_append (s t : string) :
  String.length (s ++ t) = (String.length s + String.length t)%nat.
Proof. induction s as [|a s IH]; [done|]. simpl. by rewrite IH. Qed.

Lemma every_app (p : ascii → bool) (s t : string) :
  every p (s ++ t) = every p s && every p t.
Proof.
  induction s as [|a s IH]; [done|]. simpl. by rewrite IH, andb_assoc.
Qed.

Lemma every_impl (p q : ascii → bool) (s : string) :
  (∀ c, p c = true → q c = true) → every p s = true → every q s = true.
Proof.
  intros Hpq. induction s as [|a s IH]; [done|]. simpl.
  intros [Ha Hs]%andb_prop. by rewrite (Hpq _ Ha), IH.
Qed.

Lemma digit_cases (d : Z) :
  0 <= d < 10 →
  d = 0 ∨ d = 1 ∨ d = 2 ∨ d = 3 ∨ d = 4 ∨ d = 5 ∨ d = 6 ∨ d = 7 ∨ d = 8 ∨ d = 9.
Proof. lia. Qed.

Lemma digitVal_digitChar (d : Z) : 0 <= d < 10 → digitVal (digitChar d) = d.
Proof.
  intros H. destruct (digit_cases d H) as [->|[->|[->|[->|[->|[->|[->|[->|[->| ->]]]]]]]]];
    reflexivity.
Qed.

Lemma isDigit_digitChar (d : Z) : 0 <= d < 10 → isDigit (digitChar d) = true.
Proof.
  intros H. destruct (digit_cases d H) as [->|[->|[->|[->|[->|[->|[->|[->|[->| ->]]]]]]]]];
    reflexivity.
Qed.

Lemma isDigit_not_space (c : ascii) : isDigit c = true → isWhiteSpace c = false.
Proof. destruct c as [[] [] [] [] [] [] [] []]; done. Qed.

Lemma length_padDigits (w : nat) (n : Z) : String.length (padDigits w n) = w.
Proof.
  revert n. induction w as [|w IH]; intros n; [done|].
  cbn [padDigits]. rewrite length_append, IH. cbn. lia.
Qed.

Lemma every_padDigits (w : nat) (n : Z) : every isDigit (padDigits w n) = true.
Proof.
  revert n. induction w as [|w IH]; intros n; [done|].
  cbn [padDigits]. rewrite every_app, IH. cbn.
  rewrite isDigit_digitChar; [done|]. Z.div_mod_to_equations; lia.
Qed.

Lemma digitsValueFrom_app (acc : Z) (s t : string) :
  digitsValueFrom acc (s ++ t) = digitsValueFrom (digitsValueFrom acc s) t.
Proof. revert acc. induction s as [|a s IH]; intros acc; [done|]. simpl. apply IH. Qed.

Lemma digitsValueFrom_padDigits (w : nat) (acc n : Z) :
  digitsValueFrom acc (padDigits w n) = acc * 10 ^ Z.of_nat w + n mod 10 ^ Z.of_nat w.
Proof.
  revert n. induction w as [|w IH]; intros n.
  - cbn [padDigits digitsValueFrom]. change (10 ^ Z.of_nat 0) with 1.
    rewrite Z.mod_1_r. lia.
  - cbn [padDigits]. rewrite digitsValueFrom_app, IH. cbn [digitsValueFrom].
    rewrite digitVal_digitChar by (Z.div_mod_to_equations; lia).
    rewrite Nat2Z.inj_succ, Z.pow_succ_r by lia.
    rewrite (Z.rem_mul_r n 10) by lia.
    pose proof (Z.pow_pos_nonneg 10 (Z.of_nat w)). lia.
Qed.

(** A number that fits its field is read back from it. *)
Lemma digitsValue_padDigits (w : nat) (n : Z) :
  0 <= n < 10 ^ Z.of_nat w → digitsValue (padDigits w n) = n.
Proof.
  intros H. unfold digitsValue. rewrite digitsValueFrom_padDigits.
  rewrite Z.mod_small by done. lia.
Qed.

Lemma sliceTo_app (s t : string) : sliceTo (String.length s) (s ++ t) = s.
Proof. induction s as [|a s IH]; [by destruct t|]. simpl. by rewrite IH. Qed.

Lemma trimEnd_no_space (s : string) :
  every (λ c, negb (isWhiteSpace c)) s = true → trimEnd s = s.
Proof.
  induction s as [|a s IH]; [done|]. simpl.
  intros [Ha Hs]%andb_prop. rewrite (IH Hs).
  destruct s; [|done]. apply negb_true_iff in Ha. by rewrite Ha.
Qed.

Lemma trim_no_space (s : string) :
  every (λ c, negb (isWhiteSpace c)) s = true → trim s = s.
Proof.
  intros H. unfold trim.
  assert (trimStart s = s) as ->; [|by apply trimEnd_no_space].
  destruct s as [|a s]; [done|]. simpl in *.
  apply andb_prop in H as [Ha _]. apply negb_true_iff in Ha. by rewrite Ha.
Qed.

End DigitFacts.

(** ** DataFormatterService.normalizeDate on its own results *)

Section IdempotenceFacts.

Import JS Num DataFormatterService.

Context (rt : Runtime).

(** [Number(g)] for a group [g] of decimal digits, as taken by the date
    patterns, is the value of the digits. *)
Lemma Number_of_digits (g : string) :
  g ≠ "" → every isDigit g = true →
  StringToNumber g = Finite (inject_Z (NumberOfGroup g)).
Proof.
  intros Hne Hdig. unfold StringToNumber.
  rewrite trim_no_space
    by (eapply every_impl; [|exact Hdig]; intros c Hc;
        by rewrite (isDigit_not_space c Hc)).
  apply String.eqb_neq in Hne as Hne'. rewrite Hne'.
  assert (Hspan : ∀ t, every isDigit t = true → spanDigits t = (t, "")).
  { induction t as [|c t IH]; [done|]. simpl.
    intros [-> Ht]%andb_prop. by rewrite (IH Ht). }
  destruct g as [|c g]; [done|]. simpl in Hdig.
  apply andb_prop in Hdig as [Hc Hg].
  assert (nonDecimalLiteral (String c g) = None) as ->.
  { unfold nonDecimalLiteral.
    destruct g as [|c2 g]; [by destruct c as [[] [] [] [] [] [] [] []]|].
    simpl in Hg. apply andb_prop in Hg as [Hc2 _].
    assert (Hletter : ∀ x : ascii, isDigit x = true →
              (Ascii.eqb x "x" || Ascii.eqb x "X") = false
              ∧ (Ascii.eqb x "o" || Ascii.eqb x "O") = false
              ∧ (Ascii.eqb x "b" || Ascii.eqb x "B") = false).
    { intros x. by destruct x as [[] [] [] [] [] [] [] []]. }
    destruct (Hletter c2 Hc2) as (E1 & E2 & E3).
    destruct c as [[] [] [] [] [] [] [] []]; try done.
    by rewrite E1, E2, E3. }
  unfold decimalLiteral.
  assert (takeSign (String c g) = (false, String c g)) as ->.
  { destruct c as [[] [] [] [] [] [] [] []]; done. }
  assert (String.eqb (String c g) "Infinity" = false) as ->.
  { destruct c as [[] [] [] [] [] [] [] []]; done. }
  rewrite (Hspan (String c g)) by (simpl; by rewrite Hc, Hg).
  cbn [exponentPart String.eqb andb String.length Z.of_nat].
  rewrite append_nil_r. unfold scale10, NumberOfGroup. cbn [Z.leb Z.sub Z.opp Z.add].
  cbn. by rewrite Z.mul_1_r.
Qed.

Lemma takeDigits_app (ds rest : string) :
  every isDigit ds = true →
  takeDigits (String.length ds) (ds ++ rest) = Some (ds, rest).
Proof.
  induction ds as [|c ds IH]; [done|]. simpl.
  intros [-> Hds]%andb_prop. by rewrite (IH Hds).
Qed.

Lemma takeDigits_pad (w : nat) (n : Z) (rest : string) :
  takeDigits w (padDigits w n ++ rest) = Some (padDigits w n, rest).
Proof.
  rewrite <- (length_padDigits w n) at 1.
  apply takeDigits_app, every_padDigits.
Qed.

Lemma matchISO_isoDate (y m d : Z) (rest : string) :
  matchISO (isoDate y m d ++ rest)
  = Some (padDigits 4 y, padDigits 2 m, padDigits 2 d).
Proof.
  unfold isoDate, matchISO. rewrite !append_assoc.
  rewrite (takeDigits_pad 4 y). cbn [mbind option_bind expect String.append].
  rewrite Ascii.eqb_refl. cbn [mbind option_bind].
  rewrite (takeDigits_pad 2 m). cbn [mbind option_bind expect String.append].
  rewrite Ascii.eqb_refl. cbn [mbind option_bind].
  by rewrite (takeDigits_pad 2 d).
Qed.

Lemma isoDate_no_space (y m d : Z) :
  every (λ c, negb (isWhiteSpace c)) (isoDate y m d) = true.
Proof.
  assert (Hd : ∀ w n, every (λ c, negb (isWhiteSpace c)) (padDigits w n) = true).
  { intros w n. eapply every_impl; [|apply every_padDigits].
    intros c Hc. by rewrite (isDigit_not_space c Hc). }
  unfold isoDate. rewrite !every_app, !Hd. done.
Qed.

Lemma isoDate_length (y m d : Z) : String.length (isoDate y m d) = 10%nat.
Proof. unfold isoDate. by rewrite !length_append, !length_padDigits. Qed.

(** A canonical date string is read by the ISO pattern, and the numbers
    taken from it are those it was written from. *)
Lemma normalizeDate_isoDate (y m d : Z) :
  0 <= y <= 9999 → 0 <= m <= 99 → 0 <= d <= 99 →
  normalizeDate rt (JStr (isoDate y m d)) = Normal (buildISODate y m d).
Proof.
  intros Hy Hm Hd. unfold normalizeDate.
  assert (isoDate y m d ≠ "") as Hne.
  { intros E. pose proof (isoDate_length y m d) as L. by rewrite E in L. }
  apply String.eqb_neq in Hne. cbn [truthy]. rewrite Hne. cbn [negb].
  rewrite trim_no_space by apply isoDate_no_space. rewrite Hne.
  rewrite <- (append_nil_r (isoDate y m d)) at 1. rewrite matchISO_isoDate.
  unfold NumberOfGroup. rewrite !digitsValue_padDigits; [done|cbn; lia..].
Qed.

Lemma bind_Normal {A B} (a : A) (k : A → completion B) :
  (x ← Normal a; k x) = k a.
Proof. reflexivity. Qed.

Lemma sliceTo_isoDate (y m d : Z) (rest : string) :
  sliceTo 10 (isoDate y m d ++ rest) = isoDate y m d.
Proof. rewrite <- (isoDate_length y m d) at 1. apply sliceTo_app. Qed.

(** The ISO text of a date whose year has four digits. *)
Lemma toISOString_isoDate (t : Z) :
  0 <= Date.YearFromTime t <= 9999 →
  Date.toISOString (Some t)
  = Normal (isoDate (Date.YearFromTime t) (Date.MonthFromTime t + 1)
              (Date.DateFromTime t) ++ Date.isoTimePart t).
Proof.
  intros Hy. unfold Date.toISOString, Date.isoDatePart, isoDate, Date.isoYear.
  by assert ((0 <=? Date.YearFromTime t) && (Date.YearFromTime t <=? 9999) = true)
    as -> by lia.
Qed.

(** What [buildISODate] returns, when it returns a string. *)
Lemma buildISODate_Some (y m d : Z) (s : string) :
  buildISODate y m d = Some s →
  1900 <= y <= 3000 ∧ 1 <= m <= 12 ∧ 1 <= d <= 31 ∧ s = isoDate y m d.
Proof.
  unfold buildISODate.
  destruct (_ || _) eqn:Hrange; [done|].
  repeat (apply orb_false_iff in Hrange as [Hrange ?]).
  destruct (Date.fromNumber _) as [t|]; [|done].
  unfold Date.getUTCFullYear, Date.getUTCMonth, Date.getUTCDate, Date.strictEq.
  cbn [fmap option_fmap option_map].
  destruct (Z.eqb_spec (Date.YearFromTime t) y) as [Ey|]; [|done].
  destruct (Z.eqb_spec (Date.MonthFromTime t) (m - 1)) as [Em|]; [|done].
  destruct (Z.eqb_spec (Date.DateFromTime t) d) as [Ed|]; [|done].
  cbv beta iota delta [andb].
  rewrite toISOString_isoDate by lia. rewrite bind_Normal, sliceTo_isoDate.
  rewrite Ey, Em, Ed. replace (m - 1 + 1) with m by lia.
  intros [= <-]. rewrite Z.gtb_ltb in *. repeat split; lia || done.
Qed.

(** A valid time value at midnight, in the years the service accepts, is
    accepted by [buildISODate] when it is given its own fields. *)
Lemma buildISODate_of_midnight (day : Z) :
  let t := Date.MakeDate day 0 in
  Date.TimeClip t = Some t →
  1900 <= Date.YearFromTime t <= 3000 →
  buildISODate (Date.YearFromTime t) (Date.MonthFromTime t + 1) (Date.DateFromTime t)
  = Some (isoDate (Date.YearFromTime t) (Date.MonthFromTime t + 1)
            (Date.DateFromTime t)).
Proof.
  intros t Hclip Hy. unfold buildISODate.
  pose proof (MonthFromTime_range t) as Hm.
  pose proof (DateFromTime_range t) as Hd.
  assert ((Date.MonthFromTime t + 1 <? 1) || (Date.MonthFromTime t + 1 >? 12)
          || (Date.DateFromTime t <? 1) || (Date.DateFromTime t >? 31)
          || (Date.YearFromTime t <? 1900) || (Date.YearFromTime t >? 3000) = false)
    as ->.
  { rewrite !Z.gtb_ltb. repeat (apply orb_false_iff; split); lia. }
  replace (Date.MonthFromTime t + 1 - 1) with (Date.MonthFromTime t) by lia.
  assert (Date.fromNumber
            (Date.UTC (Date.YearFromTime t) (Date.MonthFromTime t) (Date.DateFromTime t))
          = Some t) as ->.
  { unfold Date.UTC.
    assert ((0 <=? Date.YearFromTime t) && (Date.YearFromTime t <=? 99) = false)
      as -> by lia.
    rewrite MakeDay_of_fields. unfold t at 1. rewrite Day_of_midnight.
    fold t. rewrite Hclip. exact Hclip. }
  unfold Date.getUTCFullYear, Date.getUTCMonth, Date.getUTCDate, Date.strictEq.
  cbn [fmap option_fmap option_map]. rewrite !Z.eqb_refl.
  cbv beta iota delta [andb].
  rewrite toISOString_isoDate by lia. by rewrite bind_Normal, sliceTo_isoDate.
Qed.

Lemma yearOf_isoDate (y m d : Z) : 0 <= y <= 9999 → yearOf (isoDate y m d) = y.
Proof.
  intros Hy. unfold yearOf, isoDate.
  rewrite <- (length_padDigits 4 y) at 1. rewrite sliceTo_app.
  apply digitsValue_padDigits. cbn. lia.
Qed.

Lemma takeDigits_head (n : nat) (c : ascii) (s : string) :
  isDigit c = false → takeDigits (S n) (String c s) = None.
Proof. intros H. cbn. by rewrite H. Qed.

Lemma isCanonicalDate_head (c : ascii) (s : string) :
  isDigit c = false → isCanonicalDate (String c s) = false.
Proof.
  intros Hc. unfold isCanonicalDate, matchISO. by rewrite takeDigits_head.
Qed.

Lemma fromNumber_TimeClip (x t : Z) :
  Date.fromNumber (Date.TimeClip x) = Some t → t = x ∧ Date.TimeClip t = Some t.
Proof.
  destruct (Date.TimeClip x) as [u|] eqn:Eu; [|done].
  assert (u = x) as ->.
  { unfold Date.TimeClip in Eu. destruct (_ >? _); congruence. }
  cbn [Date.fromNumber]. rewrite Eu. by intros [= <-].
Qed.

(** The time value of a date built by [Date.UTC] is a midnight. *)
Lemma fromNumber_UTC (y m d t : Z) :
  Date.fromNumber (Date.UTC y m d) = Some t →
  ∃ day, t = Date.MakeDate day 0 ∧ Date.TimeClip t = Some t.
Proof.
  unfold Date.UTC. intros [-> Hclip]%fromNumber_TimeClip. eauto.
Qed.

(** The date part of a Date object or of a parsed text, when it is a
    canonical date string of an accepted year, is normalised to itself. *)
Lemma utcDatePart_idempotent (t : Z) (s : string) :
  utcDatePart t = Normal s →
  isCanonicalDate s = true →
  1900 <= yearOf s <= 3000 →
  normalizeDate rt (JStr s) = Normal (Some s).
Proof.
  unfold utcDatePart.
  destruct (Date.fromNumber _) as [t'|] eqn:E; [|done].
  apply fromNumber_UTC in E as (day & Ht' & Hclip).
  destruct (decide (0 <= Date.YearFromTime t' <= 9999)) as [Hy|Hy].
  - rewrite toISOString_isoDate by done. rewrite bind_Normal, sliceTo_isoDate.
    intros [= <-] _ Hrange. rewrite yearOf_isoDate in Hrange by done.
    pose proof (MonthFromTime_range t'). pose proof (DateFromTime_range t').
    rewrite normalizeDate_isoDate by lia. f_equal.
    subst t'. by apply buildISODate_of_midnight.
  - unfold Date.toISOString. rewrite bind_Normal. intros [= <-] Hcanon _.
    exfalso. revert Hcanon.
    unfold Date.isoDatePart, Date.isoYear.
    assert ((0 <=? Date.YearFromTime t') && (Date.YearFromTime t' <=? 9999) = false)
      as -> by lia.
    destruct (Date.YearFromTime t' <? 0); rewrite !append_assoc;
      cbn [String.append sliceTo]; by rewrite isCanonicalDate_head.
Qed.

(** C6, as amended.  [normalizeDate] gives back a canonical date string of
    a year from 1900 to 3000 that it has returned; the inputs may be
    strings of any accepted form or Date objects. *)
Theorem normalizeDate_idempotent (x : jsval) (s : string) :
  normalizeDate rt x = Normal (Some s) →
  isCanonicalDate s = true →
  1900 <= yearOf s <= 3000 →
  normalizeDate rt (JStr s) = Normal (Some s).
Proof.
  intros Hx Hcanon Hyear.
  assert (Hbuild : ∀ y m d, buildISODate y m d = Some s →
                            normalizeDate rt (JStr s) = Normal (Some s)).
  { intros y m d Hb. pose proof Hb as (Hy & Hm & Hd & ->)%buildISODate_Some.
    rewrite normalizeDate_isoDate by lia. by rewrite Hb. }
  unfold normalizeDate in Hx.
  destruct (truthy x); [cbn [negb] in Hx|done].
  destruct x as [| |b|n|v|tv|props]; try done.
  - destruct (String.eqb (trim v) ""); [done|].
    destruct (matchISO (trim v)) as [[[y m] d]|].
    { injection Hx as Hx. eauto. }
    destruct (matchDMY (trim v)) as [[[d m] y]|].
    { injection Hx as Hx. eauto. }
    destruct (matchMDY (trim v)) as [[[m d] y]|].
    { injection Hx as Hx. eauto. }
    destruct (Date.getTime _) as [t|]; [|done].
    destruct (utcDatePart t) as [iso|] eqn:E; [|done].
    injection Hx as ->. by eapply utcDatePart_idempotent.
  - destruct (Date.getTime tv) as [t|]; [|done].
    destruct (utcDatePart t) as [iso|] eqn:E; [|done].
    rewrite bind_Normal in Hx. injection Hx as ->.
    by eapply utcDatePart_idempotent.
Qed.

(** On a string handled by one of the three explicit patterns the bound
    on the year holds by itself. *)
Lemma normalizeDate_pattern_result (y m d : Z) (s : string) :
  buildISODate y m d = Some s →
  isCanonicalDate s = true ∧ 1900 <= yearOf s <= 3000.
Proof.
  intros (Hy & Hm & Hd & ->)%buildISODate_Some. split.
  - unfold isCanonicalDate.
    rewrite <- (append_nil_r (isoDate y m d)) at 1.
    by rewrite matchISO_isoDate, isoDate_length.
  - rewrite yearOf_isoDate; lia.
Qed.

End IdempotenceFacts.

(** ** DataFormatterService: dates and numbers *)

Section NormalizerFacts.

Import JS Num DataFormatterService.

Context (rt : Runtime).

Lemma expect_Some (c : ascii) (s r : string) :
  expect c s = Some r → s = String c r.
Proof.
  destruct s as [|a s]; [done|]. cbn.
  destruct (Ascii.eqb_spec a c) as [->|]; [|done]. by intros [= ->].
Qed.

Lemma takeDigits12_shape (s ds r : string) :
  takeDigits12 s = Some (ds, r) →
  s = ds ++ r ∧ ((∃ c1, ds = String c1 "") ∨ (∃ c1 c2, ds = String c1 (String c2 ""))).
Proof.
  destruct s as [|c1 [|c2 s]]; cbn; [done|..].
  - destruct (isDigit c1); [|done]. intros [= <- <-]. eauto.
  - destruct (isDigit c1); [|done].
    destruct (isDigit c2); intros [= <- <-]; eauto 6.
Qed.

(** A text matched by the day/month/year pattern is not matched by the
    ISO pattern, which is tried first: its second or third code unit is
    the separator ["/"]. *)
Lemma matchDMY_not_ISO (t d m y : string) :
  matchDMY t = Some (d, m, y) → matchISO t = None.
Proof.
  unfold matchDMY, matchISO. intros H.
  destruct (takeDigits12 t) as [[ds r1]|] eqn:E1; [|done]. cbn in H.
  destruct (expect "/" r1) as [r2|] eqn:E2; [|done].
  apply expect_Some in E2 as ->.
  apply takeDigits12_shape in E1 as [-> [[c1 ->]|[c1 [c2 ->]]]]; cbn.
  - destruct (isDigit c1); done.
  - destruct (isDigit c1); [|done]. destruct (isDigit c2); done.
Qed.

(** A day past the end of its month, or a month that is none, is not
    accepted. *)
Lemma buildISODate_not_calendar (y m d : Z) :
  ¬ (1 <= m <= 12 ∧ 1 <= d <= Date.DaysInMonth y m) →
  buildISODate y m d = None.
Proof.
  intros Hno. unfold buildISODate.
  destruct (_ || _) eqn:Hrange; [done|].
  repeat (apply orb_false_iff in Hrange as [Hrange ?]).
  rewrite Z.gtb_ltb in *.
  assert (Hover : 1 <= m <= 12 ∧ Date.DaysInMonth y m < d <= 31) by lia.
  destruct Hover as [Hm Hd].
  unfold Date.UTC.
  assert ((0 <=? y) && (y <=? 99) = false) as -> by lia.
  destruct (Date.fromNumber _) as [t|] eqn:E; [|done].
  apply fromNumber_TimeClip in E as [-> _].
  unfold Date.getUTCMonth, Date.strictEq. cbn [fmap option_fmap option_map].
  destruct (Z.eqb_spec (Date.MonthFromTime (Date.MakeDate (Date.MakeDay y (m - 1) d) 0))
              (m - 1)) as [E|_].
  - by destruct (MonthFromTime_overflow y m d Hm Hd).
  - by rewrite andb_false_r.
Qed.

(** C4.  Calendar overflow is rejected: ["31/02/2023"] gives [null],
    ["15/03/2023"] gives ["2023-03-15"], and every string whose trimmed
    text matches the day/month/year pattern gives [null] when the date
    rebuilt in UTC from the extracted year, month and day does not have
    that year, month and day; this is the case whenever the month is not
    one of the twelve or the day is not a day of that month. *)
Theorem normalizeDate_rejects_overflow :
  normalizeDate rt (JStr "31/02/2023") = Normal None
  ∧ normalizeDate rt (JStr "15/03/2023") = Normal (Some "2023-03-15")
  ∧ (∀ s d m y : string,
       matchDMY (trim s) = Some (d, m, y) →
       let date := Date.fromNumber
                     (Date.UTC (NumberOfGroup y) (NumberOfGroup m - 1) (NumberOfGroup d)) in
       ¬ (Date.getUTCFullYear date = Some (NumberOfGroup y)
          ∧ Date.getUTCMonth date = Some (NumberOfGroup m - 1)
          ∧ Date.getUTCDate date = Some (NumberOfGroup d)) →
       normalizeDate rt (JStr s) = Normal None)
  ∧ (∀ s d m y : string,
       matchDMY (trim s) = Some (d, m, y) →
       ¬ (1 <= NumberOfGroup m <= 12
          ∧ 1 <= NumberOfGroup d <= Date.DaysInMonth (NumberOfGroup y) (NumberOfGroup m)) →
       normalizeDate rt (JStr s) = Normal None).
Proof.
  assert (Hdmy : ∀ s d m y, matchDMY (trim s) = Some (d, m, y) →
            normalizeDate rt (JStr s) = Normal None
            ∨ normalizeDate rt (JStr s)
              = Normal (buildISODate (NumberOfGroup y) (NumberOfGroup m)
                          (NumberOfGroup d))).
  { intros s d m y Hm. unfold normalizeDate.
    destruct (truthy (JStr s)); [|by left]. cbn [negb].
    destruct (String.eqb (trim s) ""); [by left|].
    rewrite (matchDMY_not_ISO _ _ _ _ Hm), Hm. by right. }
  split; [by vm_compute|]. split; [by vm_compute|]. split.
  - intros s d m y Hm date Hover.
    destruct (Hdmy s d m y Hm) as [->| ->]; [done|]. f_equal.
    unfold buildISODate. subst date.
    set (date := Date.fromNumber _) in *.
    destruct (_ || _); [done|].
    destruct (Date.strictEq (Date.getUTCFullYear date) (NumberOfGroup y)) eqn:E1;
      [|done].
    destruct (Date.strictEq (Date.getUTCMonth date) (NumberOfGroup m - 1)) eqn:E2;
      [|done].
    destruct (Date.strictEq (Date.getUTCDate date) (NumberOfGroup d)) eqn:E3;
      [|done].
    exfalso. apply Hover. unfold Date.strictEq in *.
    destruct (Date.getUTCFullYear date), (Date.getUTCMonth date),
      (Date.getUTCDate date); try done.
    apply Z.eqb_eq in E1, E2, E3. by subst.
  - intros s d m y Hm Hno.
    destruct (Hdmy s d m y Hm) as [->| ->]; [done|].
    by rewrite buildISODate_not_calendar.
Qed.

Lemma split_at_first (c : ascii) (t : string) :
  mem c t = true → ∃ a b, t = a ++ String c b ∧ mem c a = false.
Proof.
  induction t as [|x t IH]; [done|]. simpl.
  destruct (Ascii.eqb_spec x c) as [->|Hne].
  - intros _. by exists "", t.
  - intros (a & b & -> & Ha)%IH. exists (String x a), b. split; [done|].
    simpl. destruct (Ascii.eqb_spec x c); done.
Qed.

(** C5.  Locale numbers: the three examples, and the two ways a string is
    read.  With a comma in the trimmed text, the text is cut at its first
    comma, every dot is removed on both sides and that comma becomes the
    decimal point before the text is parsed; without a comma the trimmed
    text is parsed as it is. *)
Theorem parseLocaleNumber_locale :
  parseLocaleNumber rt (JStr "1.234,56") = Some (Finite (Qred 1234.56))
  ∧ parseLocaleNumber rt (JStr "1234.56") = Some (Finite (Qred 1234.56))
  ∧ parseLocaleNumber rt (JStr "abc") = None
  ∧ (∀ s : string,
       includes "," (trim s) = true →
       ∃ a b : string,
         trim s = a ++ "," ++ b ∧ mem "," a = false
         ∧ parseLocaleNumber rt (JStr s)
           = nanToNull (StringToNumber
                          (replaceAll "." "" a ++ "." ++ replaceAll "." "" b)))
  ∧ (∀ s : string,
       includes "," (trim s) = false → trim s ≠ "" →
       parseLocaleNumber rt (JStr s) = nanToNull (StringToNumber (trim s))).
Proof.
  split; [reflexivity|]. split; [reflexivity|]. split; [reflexivity|]. split.
  - intros s Hc. pose proof Hc as Hc'. rewrite includes_unit in Hc'.
    apply split_at_first in Hc' as (a & b & Ht & Ha).
    exists a, b. split; [done|]. split; [done|].
    unfold parseLocaleNumber. cbn [looseNull ToString]. rewrite Hc, Ht.
    assert (String.eqb (a ++ String "," b) "" = false) as ->.
    { apply String.eqb_neq. by destruct a. }
    rewrite replaceAll_app. simpl (replaceAll "." "" (String "," b)).
    rewrite replaceFirst_split; [done|].
    by rewrite mem_replaceAll_other.
  - intros s Hc Hne. unfold parseLocaleNumber. cbn [looseNull ToString].
    apply String.eqb_neq in Hne. by rewrite Hne, Hc.
Qed.

End NormalizerFacts.

Section IdempotenceExamples.

Import JS DataFormatterService.

(** C6, as stated, fails: a Date object of the first day of 1850 is
    normalised to ["1850-01-01"], a canonical date string, which
    [normalizeDate] then rejects because its year is before 1900. *)
Lemma normalizeDate_not_idempotent_1850 :
  ¬ (∀ (rt : Runtime) (x : jsval) (s : string),
       normalizeDate rt x = Normal (Some s) →
       isCanonicalDate s = true →
       normalizeDate rt (JStr s) = Normal (Some s)).
Proof.
  intros H.
  specialize (H stubRuntime (JDate (Date.UTC 1850 0 1)) "1850-01-01" eq_refl eq_refl).
  discriminate H.
Qed.

Lemma normalizeDate_idempotent_witness :
  normalizeDate stubRuntime (JStr "2023-03-15") = Normal (Some "2023-03-15").
Proof.
  apply (normalizeDate_idempotent stubRuntime (JDate (Some 1678893723000)) "2023-03-15").
  - reflexivity.
  - reflexivity.
  - vm_compute. split; discriminate.
Defined.

Lemma normalizeDate_overflow_witness :
  normalizeDate stubRuntime (JStr " 30/02/2024 ") = Normal None.
Proof.
  apply (proj2 (proj2 (proj2 (normalizeDate_rejects_overflow stubRuntime)))
           " 30/02/2024 " "30" "02" "2024").
  - reflexivity.
  - vm_compute. intros [_ [_ H]]. apply H. reflexivity.
Defined.

Lemma parseLocaleNumber_witness :
  parseLocaleNumber stubRuntime (JStr " 2,5 ")
  = nanToNull (Num.StringToNumber "2.5").
Proof.
  destruct (proj1 (proj2 (proj2 (proj2 (parseLocaleNumber_locale stubRuntime))))
              " 2,5 " eq_refl) as (a & b & Hsplit & Ha & ->).
  vm_compute in Hsplit.
  destruct a as [|c a]; [discriminate Hsplit|].
  injection Hsplit as <- Hsplit.
  destruct a as [|c a]; [|injection Hsplit as <- _; discriminate Ha].
  injection Hsplit as <-. reflexivity.
Defined.

End IdempotenceExamples.

(** ** DataFormatterService: relationship fields *)

Section FormatterFacts.

Import JS DataFormatterService.

Context (rt : Runtime).

Lemma get_absent (o : jsobject) (k : string) :
  k ∉ keys o → get o k = JUndefined.
Proof.
  induction o as [|[k' v] o IH]; [done|]. cbn [keys map fst get].
  intros Hk. apply not_elem_of_cons in Hk as [Hne Hk].
  destruct (String.eqb_spec k' k); [congruence|]. by apply IH.
Qed.

(** A property that is [undefined] is not written to JSON. *)
Lemma jsonKeys_undefined (o : jsobject) (k : string) :
  NoDup (keys o) → get o k = JUndefined → k ∉ jsonKeys o.
Proof.
  unfold jsonKeys. induction o as [|[k' v] o IH]; [intros _ _; apply not_elem_of_nil|].
  cbn [keys map fst get List.filter snd]. intros [Hk' Hnd]%NoDup_cons.
  destruct (String.eqb_spec k' k) as [->|Hne].
  - intros ->. intros Hin. apply Hk'.
    unfold keys in Hin. apply list_elem_of_fmap in Hin as [[k1 v1] [-> Hin]].
    apply list_elem_of_In, filter_In in Hin as [Hin _].
    apply list_elem_of_In in Hin. apply list_elem_of_fmap. by exists (k1, v1).
  - intros Hget. specialize (IH Hnd Hget).
    destruct v; cbn [keys map fst]; try done;
      apply not_elem_of_cons; split; congruence || done.
Qed.

Lemma listKeys_NoDup : NoDup listKeys.
Proof. apply (bool_decide_unpack (NoDup listKeys)). by vm_compute. Qed.

(** The record [formatListOutput] builds: its keys, and its two
    relationship properties. *)
Lemma formatListOutput_shape (row : jsval) (out : jsobject) :
  formatListOutput rt row = Normal (JObj out) →
  keys out = listKeys
  ∧ get out "sitio"
    = (if truthy (prop row "idsitio") then prop row "sitio_nome" else JUndefined)
  ∧ get out "campanha"
    = (if truthy (prop row "idcampanha") then prop row "nrocampanha" else JUndefined).
Proof.
  unfold formatListOutput. destruct (truthy row); [cbn [negb]|done].
  destruct (normalizeDate rt (prop row "datamedida")) as [dm|]; [|done].
  rewrite bind_Normal. by intros [= <-].
Qed.

(** C7, as amended.  The record of a row always has the properties
    [sitio] and [campanha].  With a [null] foreign key the property is
    [undefined], not [null], and so is not written when the record is
    serialised to JSON; with a truthy foreign key [sitio] is the row's
    [sitio_nome] and [campanha] its [nrocampanha]. *)
Theorem formatListOutput_relationships (row : jsval) (out : jsobject) :
  formatListOutput rt row = Normal (JObj out) →
  (prop row "idsitio" = JNull →
     "sitio" ∈ keys out ∧ get out "sitio" = JUndefined ∧ "sitio" ∉ jsonKeys out)
  ∧ (prop row "idcampanha" = JNull →
     "campanha" ∈ keys out ∧ get out "campanha" = JUndefined
     ∧ "campanha" ∉ jsonKeys out)
  ∧ (truthy (prop row "idsitio") = true → get out "sitio" = prop row "sitio_nome")
  ∧ (truthy (prop row "idcampanha") = true →
     get out "campanha" = prop row "nrocampanha").
Proof.
  intros (Hkeys & Hs & Hc)%formatListOutput_shape.
  pose proof listKeys_NoDup as Hnd. rewrite <- Hkeys in Hnd.
  split; [|split; [|split]].
  - intros E. rewrite E in Hs. cbn in Hs.
    split; [rewrite Hkeys; unfold listKeys; repeat constructor|].
    split; [done|]. by apply jsonKeys_undefined.
  - intros E. rewrite E in Hc. cbn in Hc.
    split; [rewrite Hkeys; unfold listKeys; repeat constructor|].
    split; [done|]. by apply jsonKeys_undefined.
  - intros E. by rewrite E in Hs.
  - intros E. by rewrite E in Hc.
Qed.

Lemma campanhaKeys_NoDup : NoDup campanhaKeys.
Proof. apply (bool_decide_unpack (NoDup campanhaKeys)). by vm_compute. Qed.

Lemma formatDetailOutput_shape (row : jsval) (out : jsobject) :
  formatDetailOutput rt row = Normal (JObj out) →
  keys out = listKeys
  ∧ (truthy (prop row "idsitio") = false → get out "sitio" = JUndefined)
  ∧ (truthy (prop row "idcampanha") = false → get out "campanha" = JUndefined)
  ∧ (truthy (prop row "idcampanha") = true →
     ∃ c, get out "campanha" = JObj c ∧ keys c = campanhaKeys
          ∧ (truthy (prop row "idreservatorio") = false →
             get c "reservatorio" = JUndefined)).
Proof.
  unfold formatDetailOutput. destruct (truthy row); [cbn [negb]|done].
  destruct (normalizeDate rt (prop row "datamedida")) as [dm|]; [|done].
  rewrite bind_Normal.
  destruct (truthy (prop row "idcampanha")) eqn:Ec.
  - destruct (normalizeDate rt (prop row "campanha_datainicio")) as [di|]; [|done].
    rewrite bind_Normal.
    destruct (normalizeDate rt (prop row "campanha_datafim")) as [df|]; [|done].
    rewrite !bind_Normal. intros [= <-].
    split; [done|]. split; [by intros ->|]. split; [done|].
    intros _. eexists. split; [reflexivity|]. split; [done|]. by intros ->.
  - rewrite bind_Normal. intros [= <-].
    split; [done|]. split; [by intros ->|]. split; done.
Qed.

(** C10, as amended.  The test on a foreign key is a test for a truthy
    value: 0 and the empty string count as absent, like [null].  For
    every falsy [idsitio] the property [sitio] of both records is
    [undefined] and is not written to JSON, whatever [sitio_nome] is;
    likewise [idcampanha] and [campanha]; and in the detail record, where
    [campanha] is an object, a falsy [idreservatorio] makes its property
    [reservatorio] [undefined]. *)
Theorem format_outputs_falsy_foreign_keys (row : jsval) :
  truthy (JNum (Finite 0)) = false ∧ truthy (JStr "") = false
  ∧ (∀ out, formatListOutput rt row = Normal (JObj out) →
       (truthy (prop row "idsitio") = false →
          get out "sitio" = JUndefined ∧ "sitio" ∉ jsonKeys out)
       ∧ (truthy (prop row "idcampanha") = false →
          get out "campanha" = JUndefined ∧ "campanha" ∉ jsonKeys out))
  ∧ (∀ out, formatDetailOutput rt row = Normal (JObj out) →
       (truthy (prop row "idsitio") = false →
          get out "sitio" = JUndefined ∧ "sitio" ∉ jsonKeys out)
       ∧ (truthy (prop row "idcampanha") = false →
          get out "campanha" = JUndefined ∧ "campanha" ∉ jsonKeys out)
       ∧ (truthy (prop row "idcampanha") = true →
          truthy (prop row "idreservatorio") = false →
          ∃ c, get out "campanha" = JObj c
               ∧ get c "reservatorio" = JUndefined
               ∧ "reservatorio" ∉ jsonKeys c)).
Proof.
  split; [done|]. split; [done|]. split.
  - intros out (Hkeys & Hs & Hc)%formatListOutput_shape.
    pose proof listKeys_NoDup as Hnd. rewrite <- Hkeys in Hnd.
    split; intros E.
    + rewrite E in Hs. split; [done|]. by apply jsonKeys_undefined.
    + rewrite E in Hc. split; [done|]. by apply jsonKeys_undefined.
  - intros out (Hkeys & Hs & Hc & Hr)%formatDetailOutput_shape.
    pose proof listKeys_NoDup as Hnd. rewrite <- Hkeys in Hnd.
    split; [|split].
    + intros E. split; [auto|]. apply jsonKeys_undefined; auto.
    + intros E. split; [auto|]. apply jsonKeys_undefined; auto.
    + intros Ec Er. destruct (Hr Ec) as (c & Hget & Hck & Hres).
      exists c. split; [done|]. split; [auto|].
      apply jsonKeys_undefined; [|auto].
      rewrite Hck. apply campanhaKeys_NoDup.
Qed.

End FormatterFacts.

Section FormatterExamples.

Import JS DataFormatterService.

(** C7, as stated, fails: for a row whose foreign keys are [null] the
    record still has the keys [sitio] and [campanha]. *)
Lemma formatListOutput_keeps_keys :
  ¬ (∀ (rt : Runtime) (row : jsval) (out : jsobject),
       formatListOutput rt row = Normal (JObj out) →
       (prop row "idsitio" = JNull → "sitio" ∉ keys out)
       ∧ (prop row "idcampanha" = JNull → "campanha" ∉ keys out)).
Proof.
  intros H.
  destruct (H stubRuntime
              (JObj [("idabioticocoluna", JStr "7"); ("idsitio", JNull);
                     ("idcampanha", JNull)])
              _ eq_refl) as [Hs _].
  apply Hs; [reflexivity|]. unfold keys. cbn [map fst]. repeat constructor.
Qed.

Lemma formatListOutput_witness :
  get [("idabioticocoluna", JStr "7"); ("datamedida", JNull); ("horamedida", JUndefined);
       ("profundidade", JNull); ("dic", JNull); ("nt", JNull); ("pt", JNull);
       ("delta13c", JNull); ("delta15n", JNull); ("sitio", JStr "Ponte");
       ("campanha", JUndefined)] "sitio" = JStr "Ponte".
Proof.
  refine (proj1 (proj2 (proj2
    (formatListOutput_relationships stubRuntime
       (JObj [("idabioticocoluna", JStr "7"); ("idsitio", JStr "3");
              ("sitio_nome", JStr "Ponte"); ("idcampanha", JNull)])
       _ _))) _); reflexivity.
Defined.

(** C10, as stated, fails: no row with [idsitio] equal to 0 gives a record
    without the key [sitio]. *)
Lemma formatListOutput_zero_keeps_key :
  ¬ (∃ (rt : Runtime) (row : jsval) (out : jsobject),
       prop row "idsitio" = JNum (Finite 0)
       ∧ prop row "sitio_nome" ≠ JNull
       ∧ formatListOutput rt row = Normal (JObj out)
       ∧ "sitio" ∉ keys out).
Proof.
  intros (rt' & row & out & _ & _ & Hout & Hno). apply Hno.
  unfold formatListOutput in Hout.
  destruct (truthy row); [cbn [negb] in Hout|done].
  destruct (normalizeDate rt' (prop row "datamedida")) as [dm|]; [|done].
  rewrite bind_Normal in Hout. injection Hout as <-.
  unfold keys. cbn [map fst]. repeat constructor.
Qed.

Lemma format_outputs_falsy_witness :
  get [("idabioticocoluna", JStr "7"); ("datamedida", JNull); ("horamedida", JUndefined);
       ("profundidade", JNull); ("dic", JNull); ("nt", JNull); ("pt", JNull);
       ("delta13c", JNull); ("delta15n", JNull); ("sitio", JUndefined);
       ("campanha", JUndefined)] "sitio" = JUndefined.
Proof.
  refine (proj1 (proj1 (proj1 (proj2 (proj2
    (format_outputs_falsy_foreign_keys stubRuntime
       (JObj [("idabioticocoluna", JStr "7"); ("idsitio", JNum (Finite 0));
              ("sitio_nome", JStr "Ponte"); ("idcampanha", JStr "")])))) _ _) _));
    reflexivity.
Defined.

End FormatterExamples.

(** ** ExportService.generateExportFile *)

Section ExportFacts.

Import JS ExportService.

Context (rt : Runtime).

(** The promise of the generator is handed to the caller as it is. *)
Lemma generateExportFile_unfold (data : list jsval) (options : ExportFileOptions) :
  generateExportFile rt data (Some options)
  = if strictEqStr (format options) "xlsx"
    then generateXLSX rt data (includeHeaders options)
    else generateCSV rt data
           {| csv_includeHeaders := includeHeaders options;
              csv_delimiter := orDefault (delimiter options) ";";
              csv_encoding := orDefault (encoding options) "utf-8" |}.
Proof. unfold generateExportFile. by destruct (strictEqStr _ _). Qed.

(** C8, on the code: the error of the CSV generator reaches the caller.
    For a data array whose first element is [null], [Object.keys] throws a
    TypeError inside [generateCSV]; the promise [generateExportFile]
    returns is rejected with that TypeError, not with the fixed error of
    the [catch] clause, which is reached only by what the [try] block
    itself throws (reading [format] of a missing options object). *)
Theorem generateExportFile_leaks_generator_error :
  generateExportFile rt [JNull]
    (Some {| format := JStr "csv"; encoding := None; delimiter := None;
             includeHeaders := true |})
  = Rejected TypeError_nullObject
  ∧ TypeError_nullObject ≠ exportError
  ∧ generateExportFile rt [JNull] None = Rejected exportError.
Proof. split; [reflexivity|]. split; [discriminate|reflexivity]. Qed.

(** C9.  [format] is not validated: with any value other than the string
    ["xlsx"] the CSV generator runs, with [";"] for a missing delimiter
    and ["utf-8"] for a missing encoding. *)
Theorem generateExportFile_defaults_to_csv (data : list jsval)
    (options : ExportFileOptions) :
  format options ≠ JStr "xlsx" →
  generateExportFile rt data (Some options)
  = generateCSV rt data
      {| csv_includeHeaders := includeHeaders options;
         csv_delimiter := orDefault (delimiter options) ";";
         csv_encoding := orDefault (encoding options) "utf-8" |}
  ∧ orDefault None ";" = ";"
  ∧ orDefault None "utf-8" = "utf-8".
Proof.
  intros Hfmt. rewrite generateExportFile_unfold.
  assert (strictEqStr (format options) "xlsx" = false) as ->; [|done].
  destruct (format options) as [| | | |s| |]; try done. cbn.
  apply String.eqb_neq. congruence.
Qed.

End ExportFacts.

Section ExportExamples.

Import JS ExportService.

Lemma generateExportFile_defaults_witness :
  generateExportFile stubRuntime [JObj [("a", JStr "1")]]
    (Some {| format := JStr "pdf"; encoding := None; delimiter := None;
             includeHeaders := true |})
  = generateCSV stubRuntime [JObj [("a", JStr "1")]]
      {| csv_includeHeaders := true; csv_delimiter := ";"; csv_encoding := "utf-8" |}.
Proof.
  refine (proj1 (generateExportFile_defaults_to_csv stubRuntime _
                   {| format := JStr "pdf"; encoding := None; delimiter := None;
                      includeHeaders := true |} _)).
  discriminate.
Defined.

End ExportExamples.

(** ** The CSV round trip *)

Section CsvFacts.

Import JS ExportService CsvReader.

Context (rt : Runtime).

Lemma mapC_Normal {A B} (f : A → B) (xs : list A) :
  mapC (λ x, Normal (f x)) xs = Normal (map f xs).
Proof.
  induction xs as [|x xs IH]; [done|]. cbn [mapC map].
  by rewrite bind_Normal, IH, bind_Normal.
Qed.

Lemma mapC_ext {A B} (f g : A → completion B) (xs : list A) :
  (∀ x, f x = g x) → mapC f xs = mapC g xs.
Proof.
  intros Hfg. induction xs as [|x xs IH]; [done|]. cbn [mapC].
  by rewrite Hfg, IH.
Qed.

Lemma mapC_map {A B C} (f : B → completion C) (g : A → B) (xs : list A) :
  mapC f (map g xs) = mapC (λ x, f (g x)) xs.
Proof. induction xs as [|x xs IH]; [done|]. cbn [mapC map]. by rewrite IH. Qed.

(** On records the generator does not throw; its text is the header line
    and one line per record, joined by line feeds. *)
Lemma csvString_records (records : list jsobject) (r0 : jsobject) (delimiter : string) :
  csvString rt (map JObj (r0 :: records)) true delimiter
  = Normal (join (String newline "")
              (join delimiter (keys r0)
               :: map (λ r, join delimiter
                              (map (λ k, escapeCsvValue rt (get r k) delimiter) (keys r0)))
                    (r0 :: records))).
Proof.
  unfold csvString. cbn [nth map Object_keys]. rewrite bind_Normal.
  change (JObj r0 :: map JObj records) with (map JObj (r0 :: records)).
  rewrite mapC_map.
  rewrite (mapC_ext _
            (λ r, Normal
               (join delimiter
                  (map (λ k, escapeCsvValue rt (get r k) delimiter) (keys r0))))).
  - by rewrite mapC_Normal, bind_Normal.
  - intros r. cbn [member prop]. 
    rewrite (mapC_ext _ (λ k, Normal (escapeCsvValue rt (get r k) delimiter)))
      by (intros k; by rewrite bind_Normal).
    by rewrite mapC_Normal, bind_Normal.
Qed.

Lemma escapeCsvValue_text (d : ascii) (value : jsval) :
  escapeCsvValue rt value (String d "") = escapeText d (cellText rt value).
Proof.
  unfold escapeCsvValue, cellText, escapeText.
  destruct (looseNull value); [done|]. by rewrite !includes_unit.
Qed.

Lemma escapeText_plain (d : ascii) (k : string) :
  plainName d k = true → escapeText d k = k.
Proof.
  unfold plainName, escapeText.
  intros [[Hd Hq]%andb_prop Hn]%andb_prop.
  apply negb_true_iff in Hd, Hq, Hn. by rewrite Hd, Hq, Hn.
Qed.

Lemma consString_first (s f : string) (fs : list string) (rs : list (list string)) :
  consString s ((f :: fs) :: rs) = ((s ++ f) :: fs) :: rs.
Proof. induction s as [|c s IH]; [done|]. cbn [consString]. by rewrite IH. Qed.

Lemma consFields_fresh (vs : list string) (rs : list (list string)) :
  vs ≠ [] → consFields vs ([""] :: rs) = vs :: rs.
Proof.
  induction vs as [|v vs IH]; [done|]. intros _.
  destruct vs as [|v2 vs].
  - cbn [consFields]. by rewrite consString_first, append_nil_r.
  - change (consFields (v :: v2 :: vs) ([""] :: rs))
      with (consString v (newField (consFields (v2 :: vs) ([""] :: rs)))).
    rewrite IH by done. cbn [newField]. by rewrite consString_first, append_nil_r.
Qed.

Section Reader.

Context (d : ascii) (Hdq : d ≠ quote) (Hdn : d ≠ newline).

Local Abbreviation parse := (parseFrom d false).

Lemma parse_newline (s : string) : parse (String newline s) = newRow (parse s).
Proof.
  cbn [parseFrom]. destruct (Ascii.eqb_spec newline d); [done|]. done.
Qed.

Lemma parse_delimiter (s : string) : parse (String d s) = newField (parse s).
Proof.
  cbn [parseFrom]. destruct (Ascii.eqb_spec d quote); [done|].
  by rewrite Ascii.eqb_refl.
Qed.

(** A field written as it is. *)
Lemma parse_raw (s rest : string) :
  mem d s = false → mem quote s = false → mem newline s = false →
  parse (s ++ rest) = consString s (parse rest).
Proof.
  induction s as [|a s IH]; [done|]. simpl.
  intros [Ed Hd]%orb_false_iff [Eq Hq]%orb_false_iff [En Hn]%orb_false_iff.
  by rewrite Eq, Ed, En, IH.
Qed.

(** The inside of a quoted field, up to the closing quote. *)
Lemma parse_quoted (s rest : string) :
  (∀ r, rest ≠ String quote r) →
  parseFrom d true
    (replaceAll quote (String quote (String quote "")) s ++ String quote rest)
  = consString s (parse rest).
Proof.
  intros Hrest. induction s as [|a s IH].
  - simpl. destruct rest as [|c r]; [done|].
    destruct (Ascii.eqb_spec c quote) as [->|_]; [by destruct (Hrest r)|done].
  - simpl. destruct (Ascii.eqb_spec a quote) as [->|Hne].
    + simpl. by rewrite IH.
    + simpl. destruct (Ascii.eqb_spec a quote); [done|]. by rewrite IH.
Qed.

(** A field as [escapeCsvValue] writes it is read back as it was. *)
Lemma parse_field (s rest : string) :
  (∀ r, rest ≠ String quote r) →
  parse (escapeText d s ++ rest) = consString s (parse rest).
Proof.
  intros Hrest. unfold escapeText.
  destruct (mem d s || mem quote s || mem newline s) eqn:E.
  - rewrite append_assoc. simpl. by apply parse_quoted.
  - apply orb_false_iff in E as [[Ed Eq]%orb_false_iff En]. by apply parse_raw.
Qed.

(** One line of fields, followed by the end of the text or by a line
    feed. *)
Lemma parse_line (vs : list string) (rest : string) :
  vs ≠ [] →
  rest = "" ∨ (∃ r, rest = String newline r) →
  parse (join (String d "") (map (escapeText d) vs) ++ rest)
  = consFields vs (parse rest).
Proof.
  intros Hvs Hrest.
  assert (Hq : ∀ r, rest ≠ String quote r).
  { destruct Hrest as [->|[r' ->]]; [done|]. intros r E. by injection E. }
  clear Hrest. induction vs as [|v vs IH]; [done|]. clear Hvs.
  destruct vs as [|v2 vs].
  - cbn [map join String.concat consFields]. by apply parse_field.
  - change (join (String d "") (map (escapeText d) (v :: v2 :: vs)))
      with (escapeText d v ++ String d ""
            ++ join (String d "") (map (escapeText d) (v2 :: vs))).
    rewrite !append_assoc. rewrite parse_field.
    + change (consFields (v :: v2 :: vs) (parse rest))
        with (consString v (newField (consFields (v2 :: vs) (parse rest)))).
      rewrite <- IH by done. cbn [String.append]. by rewrite parse_delimiter.
    + cbn [String.append]. intros r E. by injection E.
Qed.

(** A whole text: the lines are read back as the rows they were written
    from. *)
Lemma parse_lines (rows : list (list string)) :
  rows ≠ [] → Forall (λ vs, vs ≠ []) rows →
  parse (join (String newline "")
           (map (λ vs, join (String d "") (map (escapeText d) vs)) rows))
  = rows.
Proof.
  induction rows as [|vs rows IH]; [done|]. intros _ [Hvs Hrows]%Forall_cons.
  destruct rows as [|vs2 rows].
  - cbn [map join String.concat].
    rewrite <- (append_nil_r (String.concat _ _)).
    rewrite parse_line by auto. by apply consFields_fresh.
  - change (join (String newline "")
              (map (λ vs, join (String d "") (map (escapeText d) vs))
                 (vs :: vs2 :: rows)))
      with (join (String d "") (map (escapeText d) vs) ++ String newline ""
            ++ join (String newline "")
                 (map (λ vs, join (String d "") (map (escapeText d) vs))
                    (vs2 :: rows))).
    rewrite parse_line by eauto. cbn [String.append].
    rewrite parse_newline, IH by done. by apply consFields_fresh.
Qed.

End Reader.

Lemma map_escapeText_plain (d : ascii) (ks : list string) :
  Forall (λ k, plainName d k = true) ks → map (escapeText d) ks = ks.
Proof.
  induction 1 as [|k ks Hk _ IH]; [done|]. cbn [map].
  by rewrite (escapeText_plain d k Hk), IH.
Qed.

Lemma combine_map_self {A B} (f : A → B) (ks : list A) :
  combine ks (map f ks) = map (λ k, (k, f k)) ks.
Proof. induction ks as [|k ks IH]; [done|]. cbn [map combine]. by rewrite IH. Qed.

(** Looking every key of a record up gives its own pairs. *)
Lemma textPairs_lookup (r : jsobject) :
  NoDup (keys r) →
  map (λ k, (k, cellText rt (get r k))) (keys r) = textPairs rt r.
Proof.
  induction r as [|[k v] r IH]; [done|].
  cbn [keys map fst]. intros [Hk Hnd]%NoDup_cons.
  change (textPairs rt ((k, v) :: r)) with ((k, cellText rt v) :: textPairs rt r).
  cbn [get]. rewrite String.eqb_refl. f_equal.
  rewrite <- (IH Hnd). apply map_ext_in. intros k' Hin.
  destruct (String.eqb_spec k k') as [->|_]; [|done].
  destruct Hk. by apply list_elem_of_In.
Qed.


End CsvFacts.

Section CsvExamples.

Import JS ExportService CsvReader.



End CsvExamples.

(** * Further properties *)

(** ** FilterService.buildFilter: order, composition, bound values *)

Section FilterServiceMore.

Import JS Num FilterService.

Context (columnMap : ColumnMap).

Local Abbreviation accepted query ks :=
  (filter (λ k : string, accepts query columnMap k = true) ks).

(** No key of the object is a name inherited from [Object.prototype]. *)
Local Abbreviation ownNames query :=
  (Forall (λ k : string, k ∉ inheritedNames) (keys query)).

Lemma fragments_imap (cols : list string) (start : Z) :
  zip_with fragment cols (seqZ start (Z.of_nat (length cols)))
  = imap (λ i c, fragment c (start + Z.of_nat i)) cols.
Proof.
  revert start. induction cols as [|c cols IH]; intros start; [done|].
  cbn [length]. rewrite Nat2Z.inj_succ, seqZ_cons by lia.
  rewrite Z.pred_succ. cbn [zip_with imap]. rewrite Z.add_0_r. f_equal.
  rewrite IH. apply imap_ext. intros i x _. cbn. f_equal. lia.
Qed.

(** The result lists the accepted keys in the order the input lists its
    keys: the bound values are the input's values under them, and the
    fragment at position [i] pairs the column of the key at position [i]
    with the placeholder [startIndex + i].  The indices are those binary64
    counts one by one: the start index is at least -2^53, and the start
    index plus the number of keys of the input at most 2^53. *)
Theorem buildFilter_input_order (query : jsobject) (startIndex : Z) :
  ownNames query →
  - 2 ^ 53 <= startIndex →
  startIndex + Z.of_nat (length (keys query)) <= 2 ^ 53 →
  let r := buildFilter query columnMap startIndex in
  let ks := accepted query (keys query) in
  params r = get query <$> ks
  ∧ nextIndex r = startIndex + Z.of_nat (length ks)
  ∧ whereClause r =
      match ks with
      | [] => ""
      | _ => "WHERE " ++ join " AND "
               (imap (λ i k, fragment (columnOf columnMap k) (startIndex + Z.of_nat i)) ks)
      end.
Proof.
  intros _ Hlo Hhi r ks.
  destruct (buildFilter_fields_safe columnMap query startIndex Hlo Hhi) as (P & N & W).
  fold r in P, N, W. fold ks in P, N, W.
  split; [done|]. split; [done|]. rewrite W.
  destruct ks as [|k ks']; [done|].
  rewrite <- (length_fmap (columnOf columnMap) (k :: ks')), fragments_imap.
  by rewrite imap_fmap.
Qed.

(** No bound value is [null], [undefined] or the empty string, and every
    bound value stands under a key whose column name is not empty. *)
Theorem buildFilter_bound_values (query : jsobject) (startIndex : Z) :
  ownNames query →
  let r := buildFilter query columnMap startIndex in
  Forall (λ v, v ≠ JNull ∧ v ≠ JUndefined ∧ v ≠ JStr "") (params r)
  ∧ Forall (λ k, ∃ c, columnMap !! k = Some c ∧ c ≠ "")
      (accepted query (keys query)).
Proof.
  intros Hown r. subst r. split.
  - rewrite buildFilter_unfold.
    assert (H : Forall (λ v, v ≠ JNull ∧ v ≠ JUndefined ∧ v ≠ JStr "")
                  (get query <$> accepted query (keys query))).
    { apply Forall_fmap, Forall_forall. intros k [Hacc _]%list_elem_of_filter.
      apply accepts_elim in Hacc as (_ & Hn & He). cbn.
      destruct (get query k) as [| | | |s| |]; try done.
      repeat split; try done. intros [= ->]. done. }
    by destruct (accepted query (keys query)).
  - apply Forall_forall. intros k [Hacc Hin]%list_elem_of_filter.
    apply accepts_elim in Hacc as (Hm & _).
    apply (proj1 (Forall_forall _ _) Hown) in Hin.
    destruct (mapped_own columnMap k Hin Hm) as (c & Hc & Hne & _). eauto.
Qed.

Lemma get_app_l (q1 q2 : jsobject) (k : string) :
  k ∈ keys q1 → get (q1 ++ q2)%list k = get q1 k.
Proof.
  induction q1 as [|[k' v] q1 IH]; [by intros ?%elem_of_nil|].
  cbn [keys map fst app get]. intros Hin.
  destruct (String.eqb_spec k' k) as [->|Hne]; [done|].
  apply IH. apply elem_of_cons in Hin as [->|Hin]; done.
Qed.

Lemma get_app_r (q1 q2 : jsobject) (k : string) :
  k ∉ keys q1 → get (q1 ++ q2)%list k = get q2 k.
Proof.
  induction q1 as [|[k' v] q1 IH]; [done|].
  cbn [keys map fst app get]. intros [Hne Hin]%not_elem_of_cons.
  destruct (String.eqb_spec k' k) as [->|_]; [done|]. by apply IH.
Qed.

Lemma accepted_ext (qa qb : jsobject) (ks : list string) :
  Forall (λ k, get qa k = get qb k) ks → accepted qa ks = accepted qb ks.
Proof.
  induction 1 as [|k ks Hk _ IH]; [done|]. rewrite !filter_cons, IH.
  unfold accepts. by rewrite Hk.
Qed.

Lemma join_app (sep : string) (xs ys : list string) :
  xs ≠ [] → ys ≠ [] →
  join sep (xs ++ ys)%list = join sep xs ++ sep ++ join sep ys.
Proof.
  intros Hx Hy. induction xs as [|x xs IH]; [done|]. clear Hx.
  destruct xs as [|x2 xs].
  - destruct ys; done.
  - change (join sep ((x :: x2 :: xs) ++ ys)%list)
      with (x ++ sep ++ join sep ((x2 :: xs) ++ ys)%list).
    rewrite IH by done.
    change (join sep (x :: x2 :: xs)) with (x ++ sep ++ join sep (x2 :: xs)).
    by rewrite !append_assoc.
Qed.


End FilterServiceMore.

Section FilterServiceExamples.

Import JS FilterService.

Lemma ownNames_example (query : jsobject) :
  bool_decide (Forall (λ k : string, k ∉ inheritedNames) (keys query)) = true →
  Forall (λ k : string, k ∉ inheritedNames) (keys query).
Proof. apply bool_decide_eq_true_1. Qed.

Lemma buildFilter_input_order_witness :
  params (buildFilter [("page", JStr "2"); ("idsitio", JStr "9"); ("idcampanha", JStr "5")]
            (<["idcampanha" := "a.idcampanha"]> (<["idsitio" := "a.idsitio"]> ∅)) 1)
  = [JStr "9"; JStr "5"].
Proof.
  refine (proj1 (buildFilter_input_order
                   (<["idcampanha" := "a.idcampanha"]> (<["idsitio" := "a.idsitio"]> ∅))
                   [("page", JStr "2"); ("idsitio", JStr "9"); ("idcampanha", JStr "5")]
                   1 _ _ _)).
  - apply ownNames_example. by vm_compute.
  - by vm_compute.
  - by vm_compute.
Defined.

Lemma buildFilter_bound_values_witness :
  Forall (λ v, v ≠ JNull ∧ v ≠ JUndefined ∧ v ≠ JStr "")
    (params (buildFilter [("idsitio", JStr ""); ("idcampanha", JStr "5")]
               (<["idcampanha" := "a.idcampanha"]> (<["idsitio" := "a.idsitio"]> ∅)) 1)).
Proof.
  refine (proj1 (buildFilter_bound_values
                   (<["idcampanha" := "a.idcampanha"]> (<["idsitio" := "a.idsitio"]> ∅))
                   [("idsitio", JStr ""); ("idcampanha", JStr "5")] 1 _)).
  apply ownNames_example. by vm_compute.
Defined.


End FilterServiceExamples.

(** ** The calendar: dates that exist *)

Section CalendarMore.

Import Date.

Ltac div_lia := Z.div_mod_to_equations; lia.

Ltac eval_month :=
  repeat match goal with
         | |- context [Zpos ?a - 1] =>
             let v := eval compute in (Zpos a - 1) in change (Zpos a - 1) with v
         end.

Lemma month_cases (m : Z) :
  1 <= m <= 12 →
  m = 1 ∨ m = 2 ∨ m = 3 ∨ m = 4 ∨ m = 5 ∨ m = 6 ∨ m = 7 ∨ m = 8
  ∨ m = 9 ∨ m = 10 ∨ m = 11 ∨ m = 12.
Proof. lia. Qed.

(** The day number [MakeDay] builds for a day that exists has the given
    year, month and day of the month. *)
Lemma fields_of_MakeDay (y m d : Z) :
  1 <= m <= 12 → 1 <= d <= DaysInMonth y m →
  let t := MakeDate (MakeDay y (m - 1) d) 0 in
  YearFromTime t = y ∧ MonthFromTime t = m - 1 ∧ DateFromTime t = d.
Proof.
  intros Hm Hd t. subst t.
  remember (if DaysInYear y =? 366 then 1 else 0) as leap eqn:Eleap.
  assert (Hfeb : DaysInMonth y 2 = 28 + leap).
  { subst leap. unfold DaysInMonth. by destruct (DaysInYear y =? 366). }
  assert (Hleap : (leap = 0 ∧ DaysInYear y = 365) ∨ (leap = 1 ∧ DaysInYear y = 366)).
  { subst leap. destruct (DaysInYear_cases y) as [E|E]; rewrite E; cbn; auto. }
  assert (Hday : MakeDay y (m - 1) d = DayFromYear y + monthStart (m - 1) leap + d - 1).
  { unfold MakeDay. replace ((m - 1) / 12) with 0 by div_lia.
    replace ((m - 1) mod 12) with (m - 1) by div_lia.
    by rewrite Z.add_0_r, <- Eleap. }
  assert (Hlen : DaysInYear y = 365 + leap) by (destruct Hleap; lia).
  assert (Hleap01 : 0 <= leap <= 1) by (destruct Hleap; lia).
  clear Hleap.
  pose proof (month_cases m Hm) as Hcases.
  assert (Hin : 0 <= monthStart (m - 1) leap + d - 1 < 365 + leap
                ∧ monthStart (m - 1) leap <= monthStart (m - 1) leap + d - 1
                ∧ (m < 12 → monthStart (m - 1) leap + d - 1 < monthStart m leap)).
  { clear Hday.
    destruct Hcases as [->|[->|[->|[->|[->|[->|[->|[->|[->|[->|[->| ->]]]]]]]]]]];
      try rewrite Hfeb in Hd; eval_month; cbn [monthStart DaysInMonth] in Hd |- *;
      lia. }
  assert (Hyear : YearFromTime (MakeDate (MakeDay y (m - 1) d) 0) = y).
  { unfold YearFromTime. rewrite Day_of_midnight, Hday.
    apply YearFromDay_unique. rewrite DayFromYear_succ. lia. }
  assert (Hl : InLeapYear (MakeDate (MakeDay y (m - 1) d) 0) = leap).
  { unfold InLeapYear. by rewrite Hyear, Eleap. }
  assert (Hmonth : MonthFromTime (MakeDate (MakeDay y (m - 1) d) 0) = m - 1).
  { unfold MonthFromTime, DayWithinYear.
    rewrite Hl, Hyear, Day_of_midnight, Hday.
    replace (DayFromYear y + monthStart (m - 1) leap + d - 1 - DayFromYear y)
      with (monthStart (m - 1) leap + d - 1) by lia.
    clear Hl Hyear Hday Eleap Hlen Hfeb Hd.
    destruct Hin as (_ & Hlo & Hhi). revert Hlo Hhi.
    destruct Hcases as [->|[->|[->|[->|[->|[->|[->|[->|[->|[->|[->| ->]]]]]]]]]]];
      eval_month; cbn [monthStart]; intros Hlo Hhi;
      repeat match goal with
             | |- context [?a <? ?b] => destruct (Z.ltb_spec a b)
             end; lia. }
  split; [done|]. split; [done|].
  unfold DateFromTime, DayWithinYear.
  rewrite Hmonth, Hl, Hyear, Day_of_midnight, Hday. lia.
Qed.

(** The day of the month never exceeds the length of the month. *)
Lemma DateFromTime_le_month (t : Z) :
  DateFromTime t <= DaysInMonth (YearFromTime t) (MonthFromTime t + 1).
Proof.
  unfold DateFromTime, MonthFromTime, DaysInMonth.
  pose proof (DayWithinYear_range t) as Hd.
  destruct (InLeapYear_cases t) as [[El E]|[El E]]; rewrite El, E in *;
    repeat match goal with
           | |- context [?a <? ?b] => destruct (Z.ltb_spec a b)
           end;
    cbn [monthStart];
    match goal with
    | |- _ <= match ?e with _ => _ end =>
        let v := eval compute in e in change e with v; cbv beta iota
    end;
    try match goal with
        | |- context [?a =? ?b] =>
            let v := eval compute in (a =? b) in change (a =? b) with v;
            cbv beta iota
        end; lia.
Qed.

(** Midnights of the years from 0 to 9999 are time values. *)
Lemma TimeClip_midnight (y m d : Z) :
  0 <= y <= 9999 → 0 <= m <= 11 → 1 <= d <= 31 →
  TimeClip (MakeDate (MakeDay y m d) 0) = Some (MakeDate (MakeDay y m d) 0).
Proof.
  intros Hy Hm Hd. unfold TimeClip.
  assert (Hs : 0 <= monthStart m (if DaysInYear y =? 366 then 1 else 0) <= 335).
  { destruct (DaysInYear y =? 366);
      assert (m = 0 ∨ m = 1 ∨ m = 2 ∨ m = 3 ∨ m = 4 ∨ m = 5 ∨ m = 6 ∨ m = 7
              ∨ m = 8 ∨ m = 9 ∨ m = 10 ∨ m = 11) as Hc by lia;
      destruct Hc as [->|[->|[->|[->|[->|[->|[->|[->|[->|[->|[->| ->]]]]]]]]]]];
      cbn; lia. }
  assert (Hb : Z.abs (MakeDate (MakeDay y m d) 0) <= 8640000000000000).
  { assert (Hf : -720000 <= DayFromYear y <= 2940000)
      by (unfold DayFromYear; div_lia).
    unfold MakeDate, MakeDay, msPerDay.
    replace (m / 12) with 0 by div_lia. replace (m mod 12) with m by div_lia.
    rewrite !Z.add_0_r. lia. }
  destruct (Z.gtb_spec (Z.abs (MakeDate (MakeDay y m d) 0)) 8640000000000000);
    [lia|done].
Qed.

End CalendarMore.

(** ** DataFormatterService.normalizeDate: the dates it accepts *)

Section NormalizeDateMore.

Import JS Num DataFormatterService.

Context (rt : Runtime).

Lemma DaysInMonth_le_31 (y m : Z) : Date.DaysInMonth y m <= 31.
Proof.
  unfold Date.DaysInMonth.
  repeat match goal with
         | |- context [match ?x with _ => _ end] => destruct x
         end; lia.
Qed.

(** A day that exists, in a year from 1900 to 3000, is accepted. *)
Lemma buildISODate_valid (y m d : Z) :
  1900 <= y <= 3000 → 1 <= m <= 12 → 1 <= d <= Date.DaysInMonth y m →
  buildISODate y m d = Some (isoDate y m d).
Proof.
  intros Hy Hm Hd.
  destruct (fields_of_MakeDay y m d Hm Hd) as (EY & EM & ED).
  pose proof (DaysInMonth_le_31 y m) as H31.
  pose proof (buildISODate_of_midnight (Date.MakeDay y (m - 1) d)) as H.
  cbv zeta in H. rewrite EY, EM, ED in H.
  replace (m - 1 + 1) with m in H by lia.
  apply H; [|lia]. apply TimeClip_midnight; lia.
Qed.

Lemma takeDigits_short (n : nat) (ds : string) (c : ascii) (rest : string) :
  every isDigit ds = true → (String.length ds < n)%nat → isDigit c = false →
  takeDigits n (ds ++ String c rest) = None.
Proof.
  revert n. induction ds as [|a ds IH]; intros n Hds Hlen Hc.
  - destruct n; [cbn in Hlen; lia|]. cbn. by rewrite Hc.
  - destruct n; [cbn in Hlen; lia|]. simpl in *.
    apply andb_prop in Hds as [-> Hds]. rewrite IH; [done|done| lia |done].
Qed.

Lemma padDigits_1 (n : Z) : padDigits 1 n = String (digitChar (n mod 10)) "".
Proof. reflexivity. Qed.

Lemma padDigits_2 (n : Z) :
  padDigits 2 n
  = String (digitChar ((n / 10) mod 10)) (String (digitChar (n mod 10)) "").
Proof. reflexivity. Qed.

Lemma isDigit_mod10 (n : Z) : isDigit (digitChar (n mod 10)) = true.
Proof. apply isDigit_digitChar. Z.div_mod_to_equations; lia. Qed.

Lemma takeDigits12_pad (w : nat) (n : Z) (c : ascii) (rest : string) :
  w = 1%nat ∨ w = 2%nat → isDigit c = false →
  takeDigits12 (padDigits w n ++ String c rest) = Some (padDigits w n, String c rest).
Proof.
  intros [-> | ->] Hc.
  - rewrite padDigits_1. cbn [String.append takeDigits12].
    by rewrite isDigit_mod10, Hc.
  - rewrite padDigits_2. cbn [String.append takeDigits12].
    by rewrite !isDigit_mod10.
Qed.

Lemma padDigits_no_space (w : nat) (n : Z) :
  every (λ c, negb (isWhiteSpace c)) (padDigits w n) = true.
Proof.
  eapply every_impl; [|apply every_padDigits].
  intros c Hc. by rewrite (isDigit_not_space c Hc).
Qed.

(** The text after a prefix that starts the trimmed text. *)
Lemma trim_prefix (s r : string) :
  s ≠ "" → every (λ c, negb (isWhiteSpace c)) s = true →
  ∃ r', trim (s ++ r) = s ++ r'.
Proof.
  intros Hne Hs. unfold trim.
  assert (trimStart (s ++ r) = s ++ r) as ->.
  { destruct s as [|a s]; [done|]. simpl in *.
    apply andb_prop in Hs as [Ha _]. apply negb_true_iff in Ha. by rewrite Ha. }
  clear Hne. induction s as [|a s IH].
  - by exists (trimEnd r).
  - simpl in Hs. apply andb_prop in Hs as [Ha Hs].
    destruct (IH Hs) as [r' Hr']. simpl. rewrite Hr'.
    apply negb_true_iff in Ha. rewrite Ha.
    exists r'. by destruct (s ++ r').
Qed.

(** The ISO pattern reads the first ten code units only. *)
Lemma normalizeDate_isoDate_prefix (y m d : Z) (rest : string) :
  0 <= y <= 9999 → 0 <= m <= 99 → 0 <= d <= 99 →
  normalizeDate rt (JStr (isoDate y m d ++ rest)) = Normal (buildISODate y m d).
Proof.
  intros Hy Hm Hd. unfold normalizeDate.
  assert (Hlen := isoDate_length y m d).
  assert (isoDate y m d ≠ "") as Hne by (intros E; by rewrite E in Hlen).
  destruct (trim_prefix (isoDate y m d) rest Hne (isoDate_no_space y m d)) as [r' Hr'].
  assert (String.eqb (isoDate y m d ++ rest) "" = false) as Hne1.
  { apply String.eqb_neq. by destruct (isoDate y m d). }
  assert (String.eqb (isoDate y m d ++ r') "" = false) as Hne2.
  { apply String.eqb_neq. by destruct (isoDate y m d). }
  cbn [truthy]. rewrite Hne1. cbn [negb]. rewrite Hr', Hne2, matchISO_isoDate.
  unfold NumberOfGroup. rewrite !digitsValue_padDigits; [done|cbn; lia..].
Qed.

(** A canonical date string is accepted exactly when it names a day that
    exists, in a year from 1900 to 3000; it is then returned as it is,
    and otherwise the result is [null]. *)
Theorem normalizeDate_canonical_iff (y m d : Z) :
  0 <= y <= 9999 → 0 <= m <= 99 → 0 <= d <= 99 →
  (normalizeDate rt (JStr (isoDate y m d)) = Normal (Some (isoDate y m d))
   ↔ 1900 <= y <= 3000 ∧ 1 <= m <= 12 ∧ 1 <= d <= Date.DaysInMonth y m)
  ∧ (normalizeDate rt (JStr (isoDate y m d)) ≠ Normal (Some (isoDate y m d))
     → normalizeDate rt (JStr (isoDate y m d)) = Normal None).
Proof.
  intros Hy Hm Hd. rewrite normalizeDate_isoDate by done. split; [split|].
  - intros [= Hb]. pose proof Hb as (H1 & H2 & H3 & _)%buildISODate_Some.
    split; [done|]. split; [done|]. split; [lia|].
    destruct (Z.le_gt_cases d (Date.DaysInMonth y m)) as [Hle|Hgt]; [done|].
    rewrite buildISODate_not_calendar in Hb by lia. done.
  - intros (H1 & H2 & H3). by rewrite buildISODate_valid.
  - destruct (buildISODate y m d) as [s|] eqn:Hb; [|done].
    apply buildISODate_Some in Hb as (_ & _ & _ & ->). done.
Qed.

Lemma notation_no_space (a b c : string) (sep : ascii) :
  every (λ x, negb (isWhiteSpace x)) a = true →
  every (λ x, negb (isWhiteSpace x)) b = true →
  every (λ x, negb (isWhiteSpace x)) c = true →
  isWhiteSpace sep = false →
  every (λ x, negb (isWhiteSpace x)) (a ++ String sep (b ++ String sep c)) = true.
Proof.
  intros Ha Hb Hc Hsep. rewrite every_app, Ha. simpl.
  rewrite Hsep, every_app, Hb. simpl. by rewrite Hsep, Hc.
Qed.

(** The notations of one day.  A day that exists, in a year from 1900 to
    3000, is normalised to the same canonical string from
    day/month/year with slashes, from month-day-year with hyphens (day
    and month with one or two digits), and from any text that starts
    with its canonical string, such as a timestamp. *)
Theorem normalizeDate_notations (y m d : Z) (wd wm : nat) (rest : string) :
  1900 <= y <= 3000 → 1 <= m <= 12 → 1 <= d <= Date.DaysInMonth y m →
  wd = 1%nat ∨ wd = 2%nat → wm = 1%nat ∨ wm = 2%nat →
  d < 10 ^ Z.of_nat wd → m < 10 ^ Z.of_nat wm →
  normalizeDate rt
    (JStr (padDigits wd d ++ "/" ++ padDigits wm m ++ "/" ++ padDigits 4 y))
  = Normal (Some (isoDate y m d))
  ∧ normalizeDate rt
      (JStr (padDigits wm m ++ "-" ++ padDigits wd d ++ "-" ++ padDigits 4 y))
    = Normal (Some (isoDate y m d))
  ∧ normalizeDate rt (JStr (isoDate y m d ++ rest)) = Normal (Some (isoDate y m d)).
Proof.
  intros Hy Hm Hd Hwd Hwm Hdw Hmw.
  pose proof (DaysInMonth_le_31 y m) as H31.
  pose proof (buildISODate_valid y m d Hy Hm Hd) as Hb.
  assert (Hlen : ∀ w n, w = 1%nat ∨ w = 2%nat → (String.length (padDigits w n) < 4)%nat).
  { intros w n [-> | ->]; rewrite length_padDigits; lia. }
  assert (Hval : NumberOfGroup (padDigits wd d) = d
                 ∧ NumberOfGroup (padDigits wm m) = m
                 ∧ NumberOfGroup (padDigits 4 y) = y).
  { unfold NumberOfGroup. rewrite !digitsValue_padDigits; [done|cbn; lia|lia|lia]. }
  destruct Hval as (Vd & Vm & Vy).
  assert (Hy4 : takeDigits 4 (padDigits 4 y) = Some (padDigits 4 y, "")).
  { rewrite <- (append_nil_r (padDigits 4 y)) at 1. apply takeDigits_pad. }
  split; [|split].
  - unfold normalizeDate.
    set (text := padDigits wd d ++ "/" ++ padDigits wm m ++ "/" ++ padDigits 4 y).
    assert (Htrim : trim text = text).
    { apply trim_no_space. apply notation_no_space; auto using padDigits_no_space. }
    assert (Hne : String.eqb text "" = false).
    { apply String.eqb_neq. unfold text.
      destruct Hwd as [-> | ->]; [rewrite padDigits_1|rewrite padDigits_2]; done. }
    cbn [truthy]. rewrite Htrim, Hne. cbn [negb].
    assert (matchISO text = None) as ->.
    { unfold matchISO, text. cbn [String.append].
      rewrite takeDigits_short; auto using every_padDigits. }
    assert (matchDMY text = Some (padDigits wd d, padDigits wm m, padDigits 4 y)) as ->.
    { unfold matchDMY, text. cbn [String.append].
      rewrite takeDigits12_pad by done. cbn [mbind option_bind expect].
      rewrite Ascii.eqb_refl. cbn [mbind option_bind].
      rewrite takeDigits12_pad by done. cbn [mbind option_bind expect].
      rewrite Ascii.eqb_refl. cbn [mbind option_bind].
      by rewrite Hy4. }
    by rewrite Vd, Vm, Vy, Hb.
  - unfold normalizeDate.
    set (text := padDigits wm m ++ "-" ++ padDigits wd d ++ "-" ++ padDigits 4 y).
    assert (Htrim : trim text = text).
    { apply trim_no_space. apply notation_no_space; auto using padDigits_no_space. }
    assert (Hne : String.eqb text "" = false).
    { apply String.eqb_neq. unfold text.
      destruct Hwm as [-> | ->]; [rewrite padDigits_1|rewrite padDigits_2]; done. }
    cbn [truthy]. rewrite Htrim, Hne. cbn [negb].
    assert (matchISO text = None) as ->.
    { unfold matchISO, text. cbn [String.append].
      rewrite takeDigits_short; auto using every_padDigits. }
    assert (matchDMY text = None) as ->.
    { unfold matchDMY, text. cbn [String.append].
      rewrite takeDigits12_pad by done. done. }
    assert (matchMDY text = Some (padDigits wm m, padDigits wd d, padDigits 4 y)) as ->.
    { unfold matchMDY, text. cbn [String.append].
      rewrite takeDigits12_pad by done. cbn [mbind option_bind expect].
      rewrite Ascii.eqb_refl. cbn [mbind option_bind].
      rewrite takeDigits12_pad by done. cbn [mbind option_bind expect].
      rewrite Ascii.eqb_refl. cbn [mbind option_bind].
      by rewrite Hy4. }
    by rewrite Vd, Vm, Vy, Hb.
  - rewrite normalizeDate_isoDate_prefix by lia. by rewrite Hb.
Qed.

End NormalizeDateMore.

Section NormalizeDateExamples.

Import JS Num DataFormatterService.

Lemma normalizeDate_canonical_witness :
  normalizeDate stubRuntime (JStr "2024-02-29") = Normal (Some "2024-02-29").
Proof.
  apply (proj1 (normalizeDate_canonical_iff stubRuntime 2024 2 29
                  ltac:(lia) ltac:(lia) ltac:(lia))).
  vm_compute. repeat split; discriminate.
Defined.

Lemma normalizeDate_notations_witness :
  normalizeDate stubRuntime (JStr "5/03/2023") = Normal (Some "2023-03-05").
Proof.
  apply (proj1 (normalizeDate_notations stubRuntime 2023 3 5 1 2 ""
                  ltac:(lia) ltac:(lia) ltac:(vm_compute; split; discriminate)
                  ltac:(by left) ltac:(by right) ltac:(reflexivity) ltac:(reflexivity))).
Defined.

End NormalizeDateExamples.

(** ** DataFormatterService.normalizeDate: Date objects, errors, spaces *)

Section NormalizeDateObjects.

Import JS Num DataFormatterService.

Context (rt : Runtime).

Ltac div_lia := Z.div_mod_to_equations; lia.

Lemma TimeClip_Some (t u : Z) : Date.TimeClip t = Some u → u = t.
Proof. unfold Date.TimeClip. destruct (_ >? _); congruence. Qed.

Lemma TimeClip_bound (t : Z) :
  Date.TimeClip t = Some t ↔ Z.abs t <= 8640000000000000.
Proof.
  unfold Date.TimeClip. destruct (Z.gtb_spec (Z.abs t) 8640000000000000); split;
    (done || lia).
Qed.

(** The year, month and day of the month depend on the day only. *)
Lemma fields_of_same_day (t u : Z) :
  Date.Day t = Date.Day u →
  Date.YearFromTime t = Date.YearFromTime u
  ∧ Date.MonthFromTime t = Date.MonthFromTime u
  ∧ Date.DateFromTime t = Date.DateFromTime u.
Proof.
  intros E.
  assert (EY : Date.YearFromTime t = Date.YearFromTime u)
    by (unfold Date.YearFromTime; by rewrite E).
  assert (EL : Date.InLeapYear t = Date.InLeapYear u)
    by (unfold Date.InLeapYear; by rewrite EY).
  assert (EW : Date.DayWithinYear t = Date.DayWithinYear u)
    by (unfold Date.DayWithinYear; by rewrite E, EY).
  assert (EM : Date.MonthFromTime t = Date.MonthFromTime u)
    by (unfold Date.MonthFromTime; by rewrite EW, EL).
  split; [done|]. split; [done|].
  unfold Date.DateFromTime. by rewrite EW, EM, EL.
Qed.

(** The midnight of the day of a time value is a time value. *)
Lemma TimeClip_day_start (t : Z) :
  Date.TimeClip t = Some t →
  Date.TimeClip (Date.MakeDate (Date.Day t) 0) = Some (Date.MakeDate (Date.Day t) 0).
Proof.
  rewrite !TimeClip_bound. unfold Date.MakeDate, Date.Day, Date.msPerDay. div_lia.
Qed.

(** What the rebuilt date is, for a time value: the midnight of its day,
    or of the same month and day in the year 1900 + Y for a year Y from
    0 to 99. *)
Lemma rebuilt_date (t : Z) :
  Date.TimeClip t = Some t →
  let y := Date.YearFromTime t in
  let day := Date.MakeDay (if (0 <=? y) && (y <=? 99) then 1900 + y else y)
               (Date.MonthFromTime t) (Date.DateFromTime t) in
  Date.fromNumber (Date.UTC y (Date.MonthFromTime t) (Date.DateFromTime t))
  = Some (Date.MakeDate day 0).
Proof.
  intros Ht y day. unfold Date.UTC. fold y. fold day.
  assert (Hclip : Date.TimeClip (Date.MakeDate day 0) = Some (Date.MakeDate day 0)).
  { subst day. pose proof (MonthFromTime_range t). pose proof (DateFromTime_range t).
    destruct ((0 <=? y) && (y <=? 99)) eqn:E.
    - apply TimeClip_midnight; lia.
    - subst y. rewrite MakeDay_of_fields. by apply TimeClip_day_start. }
  rewrite Hclip. cbn [Date.fromNumber]. exact Hclip.
Qed.

Lemma utcDatePart_total (t : Z) :
  Date.TimeClip t = Some t → ∃ s, utcDatePart t = Normal s.
Proof.
  intros Ht. unfold utcDatePart. rewrite (rebuilt_date t Ht).
  unfold Date.toISOString. rewrite bind_Normal. eauto.
Qed.

Lemma normalizeDate_Throw_cases (value : jsval) (e : jserror) :
  (∀ t, value = JDate (Some t) → Date.TimeClip t = Some t) →
  normalizeDate rt value = Throw e
  ↔ e = TypeError_trim
    ∧ truthy value = true
    ∧ match value with JStr _ | JDate _ => False | _ => True end.
Proof.
  intros Hvalid. unfold normalizeDate.
  destruct value as [| |b|n|s|tv|props].
  - split; [done|]. by intros (_ & ? & _).
  - split; [done|]. by intros (_ & ? & _).
  - destruct b; cbn [truthy negb]; [|split; [done|by intros (_ & ? & _)]].
    split; [by intros [= <-]|by intros (-> & _)].
  - destruct (truthy (JNum n)) eqn:E; cbn [negb].
    + split; [by intros [= <-]|by intros (-> & _)].
    + split; [done|by intros (_ & ? & _)].
  - split; [|by intros (_ & _ & [])]. intros H. exfalso.
    destruct (truthy (JStr s)); [|done]. cbn [negb] in H.
    destruct (String.eqb (trim s) ""); [done|].
    destruct (matchISO (trim s)) as [[[? ?] ?]|]; [done|].
    destruct (matchDMY (trim s)) as [[[? ?] ?]|]; [done|].
    destruct (matchMDY (trim s)) as [[[? ?] ?]|]; [done|].
    destruct (Date.getTime _) as [t|]; [|done].
    by destruct (utcDatePart t).
  - split; [|by intros (_ & _ & [])]. intros H. exfalso.
    cbn [truthy negb] in H.
    destruct tv as [t|]; cbn [Date.getTime] in H; [|done].
    destruct (utcDatePart_total t (Hvalid t eq_refl)) as [s Hs].
    by rewrite Hs, bind_Normal in H.
  - split; [by intros [= <-]|by intros (-> & _)].
Qed.

(** The only error [normalizeDate] raises is the TypeError of calling
    [trim] on a value that has none: it is raised exactly for the truthy
    values that are neither strings nor Date objects (numbers other than
    0 and NaN, [true], objects).  On [null], [undefined], strings and
    Date objects it returns. *)
Theorem normalizeDate_throws_iff (value : jsval) (e : jserror) :
  (∀ t, value = JDate (Some t) → Date.TimeClip t = Some t) →
  normalizeDate rt value = Throw e
  ↔ e = TypeError_trim
    ∧ truthy value = true
    ∧ match value with JStr _ | JDate _ => False | _ => True end.
Proof. apply normalizeDate_Throw_cases. Qed.

Lemma DaysInMonth_not_february (y y' m : Z) :
  m ≠ 2 → Date.DaysInMonth y m = Date.DaysInMonth y' m.
Proof.
  intros Hm. unfold Date.DaysInMonth.
  destruct m as [|p|p]; try reflexivity.
  do 4 (try destruct p as [p|p|]); try reflexivity. done.
Qed.

Lemma DaysInYear_century (y : Z) :
  1 <= y <= 99 → Date.DaysInYear (1900 + y) = Date.DaysInYear y.
Proof.
  intros Hy. unfold Date.DaysInYear.
  replace ((1900 + y) mod 4) with (y mod 4) by div_lia.
  replace ((1900 + y) mod 100) with (y mod 100) by div_lia.
  destruct (Z.eqb_spec (y mod 100) 0) as [E|E]; [div_lia|].
  reflexivity.
Qed.

(** A time value whose UTC year is outside 0 to 99 is rebuilt as the
    midnight of its own day. *)
Lemma utcDatePart_plain (t : Z) :
  Date.TimeClip t = Some t →
  100 <= Date.YearFromTime t <= 9999 →
  utcDatePart t
  = Normal (isoDate (Date.YearFromTime t) (Date.MonthFromTime t + 1)
              (Date.DateFromTime t)).
Proof.
  intros Ht Hy. unfold utcDatePart. rewrite (rebuilt_date t Ht). cbv zeta.
  replace ((0 <=? Date.YearFromTime t) && (Date.YearFromTime t <=? 99)) with false
    by (symmetry; apply andb_false_iff; right; lia).
  rewrite MakeDay_of_fields.
  destruct (fields_of_same_day (Date.MakeDate (Date.Day t) 0) t
              (Day_of_midnight (Date.Day t))) as (EY & EM & ED).
  rewrite toISOString_isoDate by (rewrite EY; lia).
  rewrite bind_Normal, sliceTo_isoDate. by rewrite EY, EM, ED.
Qed.

(** A time value whose UTC year Y is from 0 to 99 is rebuilt in the year
    1900 + Y. *)
Lemma utcDatePart_two_digit_year (t : Z) :
  Date.TimeClip t = Some t →
  0 <= Date.YearFromTime t <= 99 →
  ¬ (Date.YearFromTime t = 0 ∧ Date.MonthFromTime t = 1 ∧ Date.DateFromTime t = 29) →
  utcDatePart t
  = Normal (isoDate (1900 + Date.YearFromTime t) (Date.MonthFromTime t + 1)
              (Date.DateFromTime t)).
Proof.
  intros Ht Hy Hfeb. unfold utcDatePart. rewrite (rebuilt_date t Ht). cbv zeta.
  replace ((0 <=? Date.YearFromTime t) && (Date.YearFromTime t <=? 99)) with true
    by (symmetry; apply andb_true_iff; lia).
  pose proof (MonthFromTime_range t) as HM.
  pose proof (DateFromTime_range t) as HD.
  pose proof (DateFromTime_le_month t) as HL.
  set (y := Date.YearFromTime t) in *.
  set (m := Date.MonthFromTime t) in *.
  set (d := Date.DateFromTime t) in *.
  assert (Hd : 1 <= d <= Date.DaysInMonth (1900 + y) (m + 1)).
  { split; [lia|].
    destruct (Z.eq_dec m 1) as [->|Hm].
    - destruct (Z.eq_dec y 0) as [E0|E0].
      + rewrite E0 in HL |- *.
        assert (d ≠ 29) by (intros ?; apply Hfeb; done).
        change (Date.DaysInMonth 0 (1 + 1)) with 29 in HL.
        change (Date.DaysInMonth (1900 + 0) (1 + 1)) with 28. lia.
      + change (1 + 1) with 2 in *. unfold Date.DaysInMonth in *.
        rewrite DaysInYear_century by lia. done.
    - rewrite (DaysInMonth_not_february (1900 + y) y) by lia. done. }
  destruct (fields_of_MakeDay (1900 + y) (m + 1) d ltac:(lia) Hd) as (EY & EM & ED).
  replace (m + 1 - 1) with m in * by lia.
  rewrite toISOString_isoDate by (rewrite EY; lia).
  rewrite bind_Normal, sliceTo_isoDate. by rewrite EY, EM, ED.
Qed.

(** A Date object is answered with its UTC calendar date, whatever the
    year from 100 to 9999: the window 1900 to 3000 that text dates must
    fall in is not applied to it. *)
Theorem normalizeDate_Date_object (t : Z) :
  Date.TimeClip t = Some t →
  100 <= Date.YearFromTime t <= 9999 →
  normalizeDate rt (JDate (Some t))
  = Normal (Some (isoDate (Date.YearFromTime t) (Date.MonthFromTime t + 1)
                    (Date.DateFromTime t))).
Proof.
  intros Ht Hy. unfold normalizeDate. cbn [truthy negb Date.getTime].
  by rewrite utcDatePart_plain.
Qed.

(** A Date object whose UTC year Y is from 0 to 99 is answered with the
    same day and month in the year 1900 + Y, because [Date.UTC] reads
    such a year as a two-digit one (29 February of the year 0 apart,
    which 1900 does not have). *)
Theorem normalizeDate_Date_two_digit_year (t : Z) :
  Date.TimeClip t = Some t →
  0 <= Date.YearFromTime t <= 99 →
  ¬ (Date.YearFromTime t = 0 ∧ Date.MonthFromTime t = 1 ∧ Date.DateFromTime t = 29) →
  normalizeDate rt (JDate (Some t))
  = Normal (Some (isoDate (1900 + Date.YearFromTime t) (Date.MonthFromTime t + 1)
                    (Date.DateFromTime t))).
Proof.
  intros Ht Hy Hfeb. unfold normalizeDate. cbn [truthy negb Date.getTime].
  by rewrite utcDatePart_two_digit_year.
Qed.

(** The text [toISOString] gives for a Date object of a year from 1900
    to 3000 is normalised to the same date as the object itself, the
    first ten characters of that text. *)
Theorem normalizeDate_timestamp (t : Z) (iso : string) :
  Date.TimeClip t = Some t →
  1900 <= Date.YearFromTime t <= 3000 →
  Date.toISOString (Some t) = Normal iso →
  normalizeDate rt (JStr iso) = Normal (Some (sliceTo 10 iso))
  ∧ normalizeDate rt (JDate (Some t)) = Normal (Some (sliceTo 10 iso)).
Proof.
  intros Ht Hy Hiso.
  rewrite toISOString_isoDate in Hiso by lia.
  assert (E : iso = isoDate (Date.YearFromTime t) (Date.MonthFromTime t + 1)
                      (Date.DateFromTime t) ++ Date.isoTimePart t) by congruence.
  rewrite E. clear Hiso E.
  pose proof (MonthFromTime_range t) as HM.
  pose proof (DateFromTime_range t) as HD.
  pose proof (DateFromTime_le_month t) as HL.
  rewrite sliceTo_isoDate. split.
  - rewrite normalizeDate_isoDate_prefix by lia.
    by rewrite buildISODate_valid by lia.
  - unfold normalizeDate. cbn [truthy negb Date.getTime].
    by rewrite utcDatePart_plain by (done || lia).
Qed.

End NormalizeDateObjects.

Section NormalizeDateSpaces.

Import JS Num DataFormatterService.

Context (rt : Runtime).

#[local] Arguments String.append !_ _ / : simpl nomatch.

Lemma trimStart_head (s : string) :
  trimStart s = "" ∨ ∃ a t, trimStart s = String a t ∧ isWhiteSpace a = false.
Proof.
  induction s as [|a s IH]; [by left|]. simpl.
  destruct (isWhiteSpace a) eqn:E; [done|]. right. by exists a, s.
Qed.

Lemma trimEnd_head (a : ascii) (s : string) :
  trimEnd (String a s) = "" ∨ ∃ t, trimEnd (String a s) = String a t.
Proof.
  simpl. destruct (trimEnd s).
  - destruct (isWhiteSpace a); [by left|right; by eexists].
  - right. by eexists.
Qed.

Lemma trimEnd_idempotent (s : string) : trimEnd (trimEnd s) = trimEnd s.
Proof.
  induction s as [|a s IH]; [done|]. simpl.
  destruct (trimEnd s) as [|b t] eqn:E.
  - destruct (isWhiteSpace a) eqn:Ea; [done|]. simpl. by rewrite Ea.
  - change (trimEnd (String a (String b t))) with
      (match trimEnd (String b t) with
       | "" => if isWhiteSpace a then "" else String a ""
       | u => String a u
       end).
    by rewrite IH.
Qed.

Lemma trim_idempotent (s : string) : trim (trim s) = trim s.
Proof.
  unfold trim. destruct (trimStart_head s) as [->|(a & t & -> & Ha)]; [done|].
  destruct (trimEnd_head a t) as [->|[u Hu]]; [done|].
  rewrite Hu. cbn [trimStart]. rewrite Ha, <- Hu. apply trimEnd_idempotent.
Qed.

(** White space around a text date never matters: a text and its trimmed
    form get the same answer. *)
Theorem normalizeDate_trim (s : string) :
  normalizeDate rt (JStr s) = normalizeDate rt (JStr (trim s)).
Proof.
  unfold normalizeDate. cbn [truthy]. cbv zeta. rewrite trim_idempotent.
  destruct (String.eqb_spec s "") as [->|Hs]; [done|]. cbn [negb].
  by destruct (String.eqb (trim s) "").
Qed.

End NormalizeDateSpaces.

Section NormalizeDateObjectExamples.

Import JS Num DataFormatterService.

Lemma normalizeDate_throws_witness :
  normalizeDate stubRuntime (JNum (Finite 5)) = Throw TypeError_trim
  ∧ normalizeDate stubRuntime (JDate (Some 0)) ≠ Throw TypeError_trim.
Proof.
  split.
  - apply (proj2 (normalizeDate_throws_iff stubRuntime (JNum (Finite 5)) TypeError_trim
                    ltac:(discriminate))).
    by vm_compute.
  - intros H.
    apply (proj1 (normalizeDate_throws_iff stubRuntime (JDate (Some 0)) TypeError_trim
                    ltac:(by intros t [= <-])))
      in H.
    by destruct H as (_ & _ & []).
Defined.

Lemma normalizeDate_Date_object_witness :
  normalizeDate stubRuntime (JDate (Some (-30000000000000)))
  = Normal (Some "1019-05-04").
Proof.
  apply (normalizeDate_Date_object stubRuntime (-30000000000000)
           ltac:(reflexivity) ltac:(by vm_compute)).
Defined.

Lemma normalizeDate_Date_two_digit_year_witness :
  normalizeDate stubRuntime (JDate (Some (-60000000000000)))
  = Normal (Some "1968-09-03").
Proof.
  apply (normalizeDate_Date_two_digit_year stubRuntime (-60000000000000)
           ltac:(reflexivity) ltac:(by vm_compute)
           ltac:(by vm_compute; intros (? & _))).
Defined.

Lemma normalizeDate_timestamp_witness :
  normalizeDate stubRuntime (JStr "2023-11-14T22:13:20.000Z") = Normal (Some "2023-11-14")
  ∧ normalizeDate stubRuntime (JDate (Some 1700000000000)) = Normal (Some "2023-11-14").
Proof.
  apply (normalizeDate_timestamp stubRuntime 1700000000000 "2023-11-14T22:13:20.000Z"
           ltac:(reflexivity) ltac:(by vm_compute) ltac:(reflexivity)).
Defined.

End NormalizeDateObjectExamples.

(** ** DataFormatterService.parseLocaleNumber: decimal texts *)

Section ParseLocaleNumberMore.

Import JS Num DataFormatterService.

Context (rt : Runtime).

#[local] Arguments String.append !_ _ / : simpl nomatch.

Lemma digits_no_space (s : string) :
  every isDigit s = true → every (λ c, negb (isWhiteSpace c)) s = true.
Proof.
  apply every_impl. intros c Hc. by rewrite (isDigit_not_space c Hc).
Qed.

Lemma mem_digits (c : ascii) (s : string) :
  isDigit c = false → every isDigit s = true → mem c s = false.
Proof.
  intros Hc. induction s as [|a s IH]; [done|]. simpl.
  intros [Ha Hs]%andb_prop. rewrite (IH Hs), orb_false_r.
  destruct (Ascii.eqb_spec a c) as [->|]; [congruence|done].
Qed.

Lemma replaceAll_absent (c : ascii) (by_ s : string) :
  mem c s = false → replaceAll c by_ s = s.
Proof.
  induction s as [|a s IH]; [done|]. simpl.
  intros [Ha Hs]%orb_false_elim. by rewrite Ha, (IH Hs).
Qed.

Lemma spanDigits_app (ds rest : string) :
  every isDigit ds = true →
  match rest with "" => True | String c _ => isDigit c = false end →
  spanDigits (ds ++ rest) = (ds, rest).
Proof.
  intros Hds Hrest. induction ds as [|a ds IH].
  - simpl. destruct rest as [|c rest]; [done|]. simpl. by rewrite Hrest.
  - simpl in Hds |- *. apply andb_prop in Hds as [-> Hds]. by rewrite (IH Hds).
Qed.

(** [Number] of a decimal text with a point: digits, a point, digits. *)
Lemma StringToNumber_decimal (ip fp : string) :
  ip ≠ "" → every isDigit ip = true → every isDigit fp = true →
  StringToNumber (ip ++ "." ++ fp)
  = Finite (scale10 (digitsValue (ip ++ fp)) (- Z.of_nat (String.length fp))).
Proof.
  intros Hne Hip Hfp. unfold StringToNumber.
  rewrite trim_no_space.
  2:{ rewrite !every_app, (digits_no_space ip Hip), (digits_no_space fp Hfp). done. }
  destruct ip as [|c ip]; [done|]. simpl in Hip.
  apply andb_prop in Hip as [Hc Hip].
  change (String c ip ++ "." ++ fp) with (String c (ip ++ "." ++ fp)).
  cbn [String.eqb].
  assert (nonDecimalLiteral (String c (ip ++ "." ++ fp)) = None) as ->.
  { unfold nonDecimalLiteral.
    assert (Hletter : ∀ x : ascii, isDigit x = true ∨ x = "."%char →
              (Ascii.eqb x "x" || Ascii.eqb x "X") = false
              ∧ (Ascii.eqb x "o" || Ascii.eqb x "O") = false
              ∧ (Ascii.eqb x "b" || Ascii.eqb x "B") = false).
    { intros x [Hx| ->]; [|done]. by destruct x as [[] [] [] [] [] [] [] []]. }
    assert (∃ c2 r, ip ++ "." ++ fp = String c2 r
                    ∧ (isDigit c2 = true ∨ c2 = "."%char)) as (c2 & r & -> & Hc2).
    { destruct ip as [|c2 ip]; simpl in *.
      - exists "."%char, fp. split; [done|by right].
      - apply andb_prop in Hip as [Hc2 _]. exists c2, (ip ++ "." ++ fp).
        split; [done|by left]. }
    destruct (Hletter c2 Hc2) as (E1 & E2 & E3).
    destruct c as [[] [] [] [] [] [] [] []]; try done.
    by rewrite E1, E2, E3. }
  unfold decimalLiteral.
  assert (takeSign (String c (ip ++ "." ++ fp)) = (false, String c (ip ++ "." ++ fp)))
    as ->.
  { destruct c as [[] [] [] [] [] [] [] []]; done. }
  assert (String.eqb (String c (ip ++ "." ++ fp)) "Infinity" = false) as ->.
  { destruct c as [[] [] [] [] [] [] [] []]; done. }
  change (String c (ip ++ "." ++ fp)) with (String c ip ++ String "." fp).
  rewrite (spanDigits_app (String c ip) (String "." fp))
    by (done || (simpl; by rewrite Hc, Hip)).
  rewrite <- (append_nil_r fp) at 1.
  rewrite (spanDigits_app fp "") by done.
  cbn [String.eqb andb exponentPart]. by rewrite Z.sub_0_l.
Qed.

Lemma dropdots_groups (groups : list string) :
  Forall (λ g, every isDigit g = true) groups →
  replaceAll "." "" (join "." groups) = String.concat "" groups.
Proof.
  unfold join. induction 1 as [|g groups Hg Hgs IH]; [done|].
  assert (Eg : replaceAll "." "" g = g)
    by (apply replaceAll_absent; by apply mem_digits).
  destruct groups as [|g' groups]; [done|].
  change (String.concat "." (g :: g' :: groups))
    with (g ++ String "." (String.concat "." (g' :: groups))).
  change (String.concat "" (g :: g' :: groups))
    with (g ++ "" ++ String.concat "" (g' :: groups)).
  rewrite replaceAll_app, Eg.
  change (replaceAll "." "" (String "." (String.concat "." (g' :: groups))))
    with ("" ++ replaceAll "." "" (String.concat "." (g' :: groups))).
  by rewrite IH.
Qed.

Lemma digits_concat (groups : list string) :
  Forall (λ g, every isDigit g = true) groups →
  every isDigit (String.concat "" groups) = true.
Proof.
  induction 1 as [|g groups Hg Hgs IH]; [done|].
  destruct groups as [|g' groups]; [done|].
  change (String.concat "" (g :: g' :: groups))
    with (g ++ "" ++ String.concat "" (g' :: groups)).
  rewrite every_app, Hg. exact IH.
Qed.

Lemma groups_no_space (groups : list string) :
  Forall (λ g, every isDigit g = true) groups →
  every (λ c, negb (isWhiteSpace c)) (join "." groups) = true.
Proof.
  unfold join. induction 1 as [|g groups Hg Hgs IH]; [done|].
  destruct groups as [|g' groups]; [by apply digits_no_space|].
  change (String.concat "." (g :: g' :: groups))
    with (g ++ String "." (String.concat "." (g' :: groups))).
  rewrite every_app, (digits_no_space g Hg). exact IH.
Qed.

(** With a decimal comma, the dots that group the digits before it are
    dropped wherever they stand: the digit groups are read as one integer
    part and the digits after the comma as the fraction. *)
Theorem parseLocaleNumber_grouped (groups : list string) (fp : string) :
  Forall (λ g, every isDigit g = true) groups →
  String.concat "" groups ≠ "" →
  every isDigit fp = true →
  parseLocaleNumber rt (JStr (join "." groups ++ "," ++ fp))
  = Some (Finite (scale10 (digitsValue (String.concat "" groups ++ fp))
                    (- Z.of_nat (String.length fp)))).
Proof.
  intros Hgs Hne Hfp. unfold parseLocaleNumber.
  cbn [looseNull ToString]. cbv zeta.
  rewrite trim_no_space.
  2:{ rewrite !every_app, (groups_no_space groups Hgs), (digits_no_space fp Hfp). done. }
  assert (String.eqb (join "." groups ++ "," ++ fp) "" = false) as ->.
  { apply String.eqb_neq. by destruct (join "." groups). }
  rewrite (includes_unit "," _), mem_app. cbn [mem Ascii.eqb Bool.eqb orb].
  rewrite orb_true_r.
  rewrite replaceAll_app, (dropdots_groups groups Hgs).
  change ("," ++ fp) with (String "," fp).
  change (replaceAll "." "" (String "," fp)) with (String "," (replaceAll "." "" fp)).
  rewrite (replaceAll_absent "." "" fp) by (by apply mem_digits).
  rewrite replaceFirst_split by (apply mem_digits; [done|by apply digits_concat]).
  by rewrite StringToNumber_decimal by (done || by apply digits_concat).
Qed.

(** Without a comma a dot is the decimal point, never a grouping mark:
    digits, a dot, digits is read as integer part and fraction. *)
Theorem parseLocaleNumber_decimal_dot (ip fp : string) :
  ip ≠ "" → every isDigit ip = true → every isDigit fp = true →
  parseLocaleNumber rt (JStr (ip ++ "." ++ fp))
  = Some (Finite (scale10 (digitsValue (ip ++ fp)) (- Z.of_nat (String.length fp)))).
Proof.
  intros Hne Hip Hfp. unfold parseLocaleNumber.
  cbn [looseNull ToString]. cbv zeta.
  rewrite trim_no_space.
  2:{ rewrite !every_app, (digits_no_space ip Hip), (digits_no_space fp Hfp). done. }
  assert (String.eqb (ip ++ "." ++ fp) "" = false) as ->.
  { apply String.eqb_neq. by destruct ip. }
  rewrite (includes_unit "," _), !mem_app.
  rewrite (mem_digits "," ip), (mem_digits "," fp) by done.
  cbn [mem Ascii.eqb Bool.eqb orb].
  by rewrite StringToNumber_decimal.
Qed.

Lemma nanToNull_not_NaN (n : jsnum) : nanToNull n ≠ Some NaN.
Proof. unfold nanToNull. by destruct n. Qed.

Lemma parseLocaleNumber_not_NaN (value : jsval) :
  parseLocaleNumber rt value ≠ Some NaN.
Proof.
  unfold parseLocaleNumber. destruct (looseNull value); [done|].
  destruct value; cbv zeta;
    repeat match goal with
           | |- context [if ?b then _ else _] => destruct b
           end; (done || apply nanToNull_not_NaN).
Qed.

End ParseLocaleNumberMore.

Section ParseLocaleNumberExamples.

Import JS Num DataFormatterService.

Lemma parseLocaleNumber_grouped_witness :
  parseLocaleNumber stubRuntime (JStr "12.345.678,90")
  = Some (Finite (Qred 12345678.9)).
Proof.
  apply (parseLocaleNumber_grouped stubRuntime ["12"; "345"; "678"] "90"
           ltac:(by repeat constructor) ltac:(discriminate) ltac:(reflexivity)).
Defined.

Lemma parseLocaleNumber_decimal_dot_witness :
  parseLocaleNumber stubRuntime (JStr "1.234") = Some (Finite (Qred 1.234)).
Proof.
  apply (parseLocaleNumber_decimal_dot stubRuntime "1" "234"
           ltac:(discriminate) ltac:(reflexivity) ltac:(reflexivity)).
Defined.

End ParseLocaleNumberExamples.

(** ** DataFormatterService.formatListOutput and formatDetailOutput *)

Section FormatterMore.

Import JS Num DataFormatterService.

Context (rt : Runtime).

(** A truthy value that is neither a string nor a Date object: calling
    [trim] on it is a TypeError. *)
#[warnings="-inconsistent-scopes"]
Local Abbreviation lacksTrim v :=
  (truthy v = true ∧ match v with JStr _ | JDate _ => False | _ => True end).

Lemma normalizeDate_Normal_or_Throw (value : jsval) :
  (∀ t, value = JDate (Some t) → Date.TimeClip t = Some t) →
  (lacksTrim value ∧ normalizeDate rt value = Throw TypeError_trim)
  ∨ (¬ lacksTrim value ∧ ∃ r, normalizeDate rt value = Normal r).
Proof.
  intros Hvalid. destruct (normalizeDate rt value) as [r|e] eqn:E.
  - right. split; [|by eexists]. intros H.
    pose proof (proj2 (normalizeDate_Throw_cases rt value TypeError_trim Hvalid)
                  (conj eq_refl H)) as E'.
    congruence.
  - apply (normalizeDate_Throw_cases rt value e Hvalid) in E as (-> & H). by left.
Qed.


Lemma ofNumber_parseLocaleNumber (value : jsval) :
  ofNumber (parseLocaleNumber rt value) = JNull
  ∨ ∃ n, ofNumber (parseLocaleNumber rt value) = JNum n ∧ n ≠ NaN.
Proof.
  pose proof (parseLocaleNumber_not_NaN rt value) as H.
  destruct (parseLocaleNumber rt value) as [n|]; [|by left].
  right. exists n. split; [done|]. congruence.
Qed.

Lemma ofDate_cases (r : option string) :
  ofDate r = JNull ∨ ∃ s, ofDate r = JStr s.
Proof. destruct r; [right; by eexists|by left]. Qed.

(** Whatever the row holds, the records both formatters build are typed:
    [datamedida] is [null] or a string, and each of the six measurement
    fields is [null] or a number that is not NaN. *)
Theorem format_outputs_types (row : jsval) (out : jsobject) :
  formatListOutput rt row = Normal (JObj out)
  ∨ formatDetailOutput rt row = Normal (JObj out) →
  (get out "datamedida" = JNull ∨ ∃ s, get out "datamedida" = JStr s)
  ∧ ∀ k, k ∈ ["profundidade"; "dic"; "nt"; "pt"; "delta13c"; "delta15n"] →
         get out k = JNull ∨ ∃ n, get out k = JNum n ∧ n ≠ NaN.
Proof.
  intros H.
  assert (∃ dm s c,
    out = [("idabioticocoluna", prop row "idabioticocoluna");
           ("datamedida", ofDate dm);
           ("horamedida", prop row "horamedida");
           ("profundidade", ofNumber (parseLocaleNumber rt (prop row "profundidade")));
           ("dic", ofNumber (parseLocaleNumber rt (prop row "dic")));
           ("nt", ofNumber (parseLocaleNumber rt (prop row "nt")));
           ("pt", ofNumber (parseLocaleNumber rt (prop row "pt")));
           ("delta13c", ofNumber (parseLocaleNumber rt (prop row "delta13c")));
           ("delta15n", ofNumber (parseLocaleNumber rt (prop row "delta15n")));
           ("sitio", s); ("campanha", c)]) as (dm & s & c & ->).
  { destruct H as [H|H].
    - unfold formatListOutput in H. destruct (truthy row); [cbn [negb] in H|done].
      destruct (normalizeDate rt (prop row "datamedida")) as [dm|]; [|done].
      rewrite bind_Normal in H. injection H as <-. by eexists _, _, _.
    - unfold formatDetailOutput in H. destruct (truthy row); [cbn [negb] in H|done].
      destruct (normalizeDate rt (prop row "datamedida")) as [dm|]; [|done].
      rewrite bind_Normal in H.
      match type of H with (x ← ?c; _) = _ => destruct c as [cv|] end; [|done].
      rewrite bind_Normal in H. injection H as <-. by eexists _, _, _. }
  split; [apply ofDate_cases|].
  intros k Hk. repeat (apply elem_of_cons in Hk as [->|Hk]);
    [apply ofNumber_parseLocaleNumber ..|by apply elem_of_nil in Hk].
Qed.

End FormatterMore.

Section FormatterMoreExamples.

Import JS Num DataFormatterService.


Lemma format_outputs_types_witness :
  let out :=
    [("idabioticocoluna", JUndefined); ("datamedida", JStr "2024-01-15");
     ("horamedida", JUndefined); ("profundidade", JNull); ("dic", JNull);
     ("nt", JNull); ("pt", JNum (Finite (Qred 1.5))); ("delta13c", JNull);
     ("delta15n", JNull); ("sitio", JUndefined); ("campanha", JUndefined)] in
  (get out "datamedida" = JNull ∨ ∃ s, get out "datamedida" = JStr s)
  ∧ ∀ k, k ∈ ["profundidade"; "dic"; "nt"; "pt"; "delta13c"; "delta15n"] →
         get out k = JNull ∨ ∃ n, get out k = JNum n ∧ n ≠ NaN.
Proof.
  apply (format_outputs_types stubRuntime
           (JObj [("datamedida", JStr "15/01/2024"); ("dic", JStr "abc");
                  ("nt", JNum NaN); ("pt", JStr "1,5")])).
  left. reflexivity.
Defined.

End FormatterMoreExamples.

(** ** ExportService: columns, errors, encodings, worksheet *)

Section ExportMore.

Import JS ExportService CsvReader.

Context (rt : Runtime).

Lemma csvString_rows (records : list jsobject) (r0 : jsobject)
    (includeHeaders : bool) (delimiter : string) :
  csvString rt (map JObj (r0 :: records)) includeHeaders delimiter
  = Normal (join (String newline "")
              ((if includeHeaders then [join delimiter (keys r0)] else [])
               ++ map (λ r, join delimiter
                              (map (λ k, escapeCsvValue rt (get r k) delimiter)
                                 (keys r0)))
                    (r0 :: records))%list).
Proof.
  unfold csvString. cbn [nth map Object_keys]. rewrite bind_Normal.
  change (JObj r0 :: map JObj records) with (map JObj (r0 :: records)).
  rewrite mapC_map.
  rewrite (mapC_ext _
            (λ r, Normal
               (join delimiter
                  (map (λ k, escapeCsvValue rt (get r k) delimiter) (keys r0))))).
  - by rewrite mapC_Normal, bind_Normal.
  - intros r. cbn [member prop].
    rewrite (mapC_ext _ (λ k, Normal (escapeCsvValue rt (get r k) delimiter)))
      by (intros k; by rewrite bind_Normal).
    by rewrite mapC_Normal, bind_Normal.
Qed.

Lemma csv_read_back (d : ExportDelimiter) (r0 : jsobject)
    (records : list jsobject) (includeHeaders : bool) :
  keys r0 ≠ [] →
  (includeHeaders = true →
   Forall (λ k, plainName (delimiterChar d) k = true) (keys r0)) →
  ∃ text : string,
    csvString rt (map JObj (r0 :: records)) includeHeaders (delimiterText d)
    = Normal text
    ∧ parseCSV (delimiterChar d) text
      = ((if includeHeaders then [keys r0] else [])
         ++ map (λ r, map (λ k, cellText rt (get r k)) (keys r0)) (r0 :: records))%list.
Proof.
  intros Hne Hplain. eexists. split; [apply csvString_rows|].
  unfold parseCSV, delimiterText.
  set (dc := delimiterChar d).
  set (vals := λ r : jsobject, map (λ k, cellText rt (get r k)) (keys r0)).
  assert (Hrows :
    ((if includeHeaders then [join (String dc "") (keys r0)] else [])
     ++ map (λ r, join (String dc "")
                    (map (λ k, escapeCsvValue rt (get r k) (String dc "")) (keys r0)))
          (r0 :: records))%list
    = map (λ vs, join (String dc "") (map (escapeText dc) vs))
        ((if includeHeaders then [keys r0] else []) ++ map vals (r0 :: records))%list).
  { rewrite map_app. f_equal.
    - destruct includeHeaders; [|done]. cbn [map].
      by rewrite (map_escapeText_plain dc (keys r0) (Hplain eq_refl)).
    - rewrite map_map. apply map_ext. intros r. unfold vals. rewrite map_map.
      f_equal. apply map_ext. intros k. apply escapeCsvValue_text. }
  rewrite Hrows. apply parse_lines.
  - by destruct d.
  - by destruct d.
  - by destruct includeHeaders.
  - apply Forall_app. split.
    + destruct includeHeaders; by repeat constructor.
    + apply Forall_forall. intros vs Hin.
      apply list_elem_of_In, in_map_iff in Hin as (r & <- & _).
      unfold vals. by destruct (keys r0).
Qed.


(** *** Errors of the generators *)

Lemma mapC_Throw {A B} (f : A → completion B) (xs : list A) (e : jserror) :
  mapC f xs = Throw e → ∃ x, x ∈ xs ∧ f x = Throw e.
Proof.
  induction xs as [|x xs IH]; [done|]. cbn [mapC].
  destruct (f x) as [y|e'] eqn:E.
  - rewrite bind_Normal. destruct (mapC f xs) as [ys|e'']; [done|].
    intros [= <-]. destruct (IH eq_refl) as (x' & Hin & Hx').
    exists x'. split; [by right|done].
  - intros [= <-]. exists x. split; [by left|done].
Qed.

Lemma mapC_total {A B} (f : A → completion B) (xs : list A) :
  (∀ x, x ∈ xs → ∃ y, f x = Normal y) → ∃ ys, mapC f xs = Normal ys.
Proof.
  induction xs as [|x xs IH]; intros H; [by eexists|]. cbn [mapC].
  destruct (H x ltac:(by left)) as [y ->].
  destruct (IH (λ x' Hx', H x' ltac:(by right))) as [ys ->].
  by eexists.
Qed.

Lemma mapC_fails {A B} (f : A → completion B) (xs : list A) (x : A) (e : jserror) :
  x ∈ xs → f x = Throw e → ∃ e', mapC f xs = Throw e'.
Proof.
  intros Hin Hx. destruct (mapC f xs) as [ys|e'] eqn:E; [|by eexists].
  exfalso. revert ys E. induction Hin as [x xs|x x' xs Hin IH]; intros ys.
  - cbn [mapC]. by rewrite Hx.
  - cbn [mapC]. destruct (f x'); [|done]. rewrite bind_Normal.
    destruct (mapC f xs) as [ys'|]; [|done]. by destruct (IH Hx ys').
Qed.

Lemma member_Throw (v : jsval) (key : string) (e : jserror) :
  member v key = Throw e ↔ looseNull v = true ∧ e = TypeError_read (ToString rt v) key.
Proof.
  destruct v; cbn; split; try done; try (by intros [? _]).
  - by intros [= <-].
  - by intros [_ ->].
  - by intros [= <-].
  - by intros [_ ->].
Qed.

(** The text of a row of the CSV: its error, if any, is the TypeError of
    reading a key of [null] or [undefined]. *)
Lemma csvRow_Throw (keys : list string) (delimiter : string) (row : jsval)
    (e : jserror) :
  (values ← mapC (λ key, v ← member row key;
                         Normal (escapeCsvValue rt v delimiter)) keys;
   Normal (join delimiter values)) = Throw e →
  looseNull row = true ∧ ∃ key, key ∈ keys ∧ e = TypeError_read (ToString rt row) key.
Proof.
  destruct (mapC _ keys) as [vs|e'] eqn:E; [done|]. intros [= <-].
  apply mapC_Throw in E as (key & Hin & Hk).
  destruct (member row key) as [v|e''] eqn:Em; [done|].
  injection Hk as <-. apply member_Throw in Em as [Hnull ->]. eauto.
Qed.

Lemma csvString_Throw (data : list jsval) (includeHeaders : bool)
    (delimiter : string) (e : jserror) :
  csvString rt data includeHeaders delimiter = Throw e →
  e = TypeError_nullObject ∨ ∃ what key, e = TypeError_read what key.
Proof.
  unfold csvString.
  destruct (Object_keys (nth 0 data JUndefined)) as [ks|e'] eqn:Ek.
  - rewrite bind_Normal. destruct (mapC _ data) as [rows|e'] eqn:E; [done|].
    intros [= <-]. apply mapC_Throw in E as (row & _ & Hrow).
    apply csvRow_Throw in Hrow as (_ & key & _ & ->). right. eauto.
  - intros [= <-]. left.
    destruct (nth 0 data JUndefined); cbn in Ek; congruence.
Qed.



(** *** Encodings *)

Lemma utf8Encode_ascii (content : string) :
  every (λ c, (nat_of_ascii c <? 128)%nat) content = true →
  utf8Encode content = latin1Encode content.
Proof.
  unfold utf8Encode, latin1Encode, list_byte_of_string.
  induction content as [|c content IH]; [done|]. cbn [every].
  intros [Hc Hs]%andb_prop. cbn [list_ascii_of_string flat_map map].
  rewrite (IH Hs). unfold utf8Unit. by rewrite Hc.
Qed.

(** For a text of ASCII characters the encoding makes no difference: the
    buffer holds the characters, one byte each, whatever the encoding
    asked for. *)
Theorem encodeBuffer_ascii (content encoding : string) :
  every (λ c, (nat_of_ascii c <? 128)%nat) content = true →
  encodeBuffer content encoding = list_byte_of_string content
  ∧ List.length (encodeBuffer content encoding) = String.length content.
Proof.
  intros Hascii. unfold encodeBuffer.
  assert (E : latin1Encode content = list_byte_of_string content) by done.
  assert (L : List.length (list_byte_of_string content) = String.length content).
  { unfold list_byte_of_string. rewrite length_map.
    clear. induction content as [|c content IH]; [done|]. cbn. by rewrite IH. }
  destruct (String.eqb encoding "iso-8859-1");
    rewrite ?(utf8Encode_ascii content Hascii), E; done.
Qed.

(** *** The worksheet *)

Lemma columnWidth_range (rows : list SheetRow) (j : nat) :
  10 <= columnWidth rt rows j <= 50.
Proof. unfold columnWidth. lia. Qed.

Lemma async_await {A} (p : promise A) :
  async (x ← await p; Normal (Fulfilled x)) = p.
Proof. by destruct p. Qed.

Lemma lastCell_le (values : list jsval) : (lastCell values <= length values)%nat.
Proof.
  induction values as [|v vs IH]; [done|]. cbn [lastCell length].
  destruct (lastCell vs); [destruct v; lia|lia].
Qed.

Lemma lastCell_strings (ks : list string) : lastCell (map JStr ks) = length ks.
Proof.
  induction ks as [|k ks IH]; [done|]. cbn [map lastCell length]. rewrite IH.
  by destruct (length ks).
Qed.

Lemma columnCount_le (n : nat) (rows : list SheetRow) :
  Forall (λ r, length (row_values r) = n) rows → (columnCount rows <= n)%nat.
Proof.
  induction 1 as [|r rows Hr _ IH]; cbn [columnCount fold_right]; [lia|].
  fold (columnCount rows). pose proof (lastCell_le (row_values r)). lia.
Qed.


End ExportMore.

Section ExportMoreExamples.

Import JS ExportService CsvReader.



Lemma encodeBuffer_ascii_witness :
  encodeBuffer "id;nome" "iso-8859-1" = list_byte_of_string "id;nome"
  ∧ List.length (encodeBuffer "id;nome" "iso-8859-1") = String.length "id;nome".
Proof. apply (encodeBuffer_ascii "id;nome" "iso-8859-1" ltac:(reflexivity)). Defined.


End ExportMoreExamples.

(** ** abioticoColuna.controller: the queries *)

Section ControllerFacts.

Import JS FilterService AbioticoColunaController.

Local Abbreviation accepted query ks :=
  (filter (λ k : string, accepts query abioticoColumnMap k = true) ks).

Lemma abioticoColumnMap_keys (k c : string) :
  abioticoColumnMap !! k = Some c → k = "idcampanha" ∨ k = "idsitio".
Proof.
  unfold abioticoColumnMap. intros H.
  apply lookup_insert_Some in H as [[<- _]|[_ H]]; [by left|].
  apply lookup_insert_Some in H as [[<- _]|[_ H]]; [by right|].
  by rewrite lookup_empty in H.
Qed.

Lemma two_keys (a b : string) (ks : list string) :
  NoDup ks → Forall (λ k, k = a ∨ k = b) ks →
  ks = [] ∨ ks = [a] ∨ ks = [b] ∨ ks = [a; b] ∨ ks = [b; a].
Proof.
  intros Hnd Hks.
  destruct ks as [|k1 ks]; [by left|].
  apply NoDup_cons in Hnd as [H1 Hnd]. apply Forall_cons in Hks as [E1 Hks].
  destruct ks as [|k2 ks].
  { destruct E1 as [->| ->]; auto. }
  apply NoDup_cons in Hnd as [H2 Hnd]. apply Forall_cons in Hks as [E2 Hks].
  apply not_elem_of_cons in H1 as [H12 H1].
  destruct ks as [|k3 ks].
  { destruct E1 as [->| ->], E2 as [->| ->]; try done; auto 6. }
  apply Forall_cons in Hks as [E3 _].
  apply not_elem_of_cons in H1 as [H13 _]. apply not_elem_of_cons in H2 as [H23 _].
  destruct E1 as [->| ->], E2 as [->| ->], E3 as [->| ->]; done.
Qed.

(** Whatever the filters hold, the WHERE clause is one of five fixed
    texts: nothing a client sends becomes part of the text of the list
    query or of the count query, which differ only in what precedes and
    follows the clause. *)
Theorem buildAbioticoQuery_where_clauses (filters : jsobject) :
  Forall (λ k : string, k ∉ inheritedNames) (keys filters) →
  NoDup (keys filters) →
  ∃ w : string,
    w ∈ [""; "WHERE a.idcampanha = $1"; "WHERE a.idsitio = $1";
         "WHERE a.idcampanha = $1 AND a.idsitio = $2";
         "WHERE a.idsitio = $1 AND a.idcampanha = $2"]
    ∧ mainQuery (buildAbioticoQuery filters)
      = baseQuery ++ " " ++ w ++ " ORDER BY a.datamedida DESC, a.horamedida DESC"
    ∧ countText (buildAbioticoQuery filters) = countQuery ++ " " ++ w.
Proof.
  intros Hown Hnd. unfold buildAbioticoQuery. cbn [mainQuery countText].
  eexists. split; [|done].
  destruct (buildFilter_fields abioticoColumnMap filters 1) as (_ & _ & ->).
  assert (Hks : NoDup (accepted filters (keys filters))) by (by apply NoDup_filter).
  assert (Htwo : Forall (λ k, k = "idcampanha" ∨ k = "idsitio")
                   (accepted filters (keys filters))).
  { apply Forall_forall. intros k [Hacc Hin]%list_elem_of_filter.
    apply (proj1 (Forall_forall _ _) Hown) in Hin.
    apply accepts_allow_listed in Hacc; [|done].
    by apply abioticoColumnMap_keys in Hacc. }
  destruct (two_keys _ _ _ Hks Htwo) as [-> |[-> |[-> |[-> | ->]]]];
    vm_compute; repeat constructor.
Qed.

(** The placeholders of the page query line up with its values: with [n]
    filter values, which are bound to [$1] to [$n], LIMIT is the
    placeholder [n + 1] and OFFSET the placeholder [n + 2], and the limit
    and the offset are the values at those positions.  The two numbers
    are counted exactly as long as [n] is one an array can hold. *)
Theorem paginatedQuery_placeholders (filters : jsobject) (limit offset : jsval) :
  let q := buildAbioticoQuery filters in
  let n := length (values q) in
  (Z.of_nat n < 2 ^ 32 →
   paramIndex q = Z.of_nat n + 1
   ∧ paginatedQuery q
     = mainQuery q ++ " LIMIT $" ++ pretty (Z.of_nat n + 1)
       ++ " OFFSET $" ++ pretty (Z.of_nat n + 2))
  ∧ paginatedValues q limit offset !! n = Some limit
  ∧ paginatedValues q limit offset !! S n = Some offset
  ∧ length (paginatedValues q limit offset) = (n + 2)%nat.
Proof.
  intros q n. split.
  { intros Hn.
    assert (Hp : paramIndex q = Z.of_nat n + 1).
    { subst q n. unfold buildAbioticoQuery in *. cbn [paramIndex values] in *.
      destruct (buildFilter_fields abioticoColumnMap filters 1) as (P & -> & _).
      rewrite P, length_fmap in Hn. rewrite P, length_fmap.
      rewrite indexAfter_safe by lia. lia. }
    split; [done|].
    unfold paginatedQuery. rewrite Hp.
    change (Num.roundInteger (Z.of_nat n + 1 + 1)) with (Num.increment (Z.of_nat n + 1)).
    rewrite increment_safe by lia.
    rewrite !integerText_safe by lia. do 4 f_equal. f_equal. lia. }
  unfold paginatedValues. fold n. split; [|split].
  - by rewrite lookup_app_r, Nat.sub_diag by done.
  - rewrite lookup_app_r by (subst n; lia).
    by replace (S n - length (values q))%nat with 1%nat by (subst n; lia).
  - rewrite length_app. cbn. subst n. lia.
Qed.

End ControllerFacts.

Section ControllerExamples.

Import JS FilterService AbioticoColunaController.

Lemma buildAbioticoQuery_where_clauses_witness :
  ∃ w : string,
    w ∈ [""; "WHERE a.idcampanha = $1"; "WHERE a.idsitio = $1";
         "WHERE a.idcampanha = $1 AND a.idsitio = $2";
         "WHERE a.idsitio = $1 AND a.idcampanha = $2"]
    ∧ mainQuery (buildAbioticoQuery
                   [("page", JStr "2"); ("idsitio", JStr "1; DROP TABLE tbsitio")])
      = baseQuery ++ " " ++ w ++ " ORDER BY a.datamedida DESC, a.horamedida DESC"
    ∧ countText (buildAbioticoQuery
                   [("page", JStr "2"); ("idsitio", JStr "1; DROP TABLE tbsitio")])
      = countQuery ++ " " ++ w.
Proof.
  refine (buildAbioticoQuery_where_clauses
            [("page", JStr "2"); ("idsitio", JStr "1; DROP TABLE tbsitio")]
            (bool_decide_unpack _ _) (bool_decide_unpack _ _));
    vm_compute; exact I.
Defined.

Lemma paginatedQuery_placeholders_witness :
  paramIndex (buildAbioticoQuery [("idsitio", JStr "9"); ("page", JStr "2")])
  = Z.of_nat
      (length (values (buildAbioticoQuery [("idsitio", JStr "9"); ("page", JStr "2")])))
    + 1.
Proof.
  refine (proj1 (proj1
            (paginatedQuery_placeholders [("idsitio", JStr "9"); ("page", JStr "2")]
               (JNum (Finite 10)) (JNum (Finite 10))) _)).
  by vm_compute.
Defined.

End ControllerExamples.

(** ** abioticoColuna.controller: paging and export *)

Section HandlerFacts.

Import JS Num DataFormatterService ExportService CsvReader FilterService.
Import AbioticoColunaController.

Context (env : Env) (rt : Runtime).

#[warnings="-inconsistent-scopes"]
Local Abbreviation lacksTrim v :=
  (truthy v = true ∧ match v with JStr _ | JDate _ => False | _ => True end).

Lemma Qred_inject_Z (z : Z) : Qred (inject_Z z) = inject_Z z.
Proof.
  unfold Qred, inject_Z.
  pose proof (Z.ggcd_gcd z 1) as Hg.
  pose proof (Z.ggcd_correct_divisors z 1) as Hd.
  destruct (Z.ggcd z 1) as [g [a b]]. cbn [fst snd] in *.
  rewrite Z.gcd_1_r in Hg. subst g. destruct Hd as [Ha Hb].
  rewrite !Z.mul_1_l in *. by subst.
Qed.

Lemma Qred_integer (q : Q) (z : Z) : q == inject_Z z → Qred q = inject_Z z.
Proof. intros H. rewrite (Qred_complete _ _ H). apply Qred_inject_Z. Qed.

Lemma hexVal_digit (c : ascii) :
  isDigit c = true → hexVal c = Some (digitVal c) ∧ (digitVal c <? 10) = true.
Proof. by destruct c as [[] [] [] [] [] [] [] []]. Qed.

Lemma spanRadix_digits (ds : string) :
  every isDigit ds = true → JSNumber.spanRadix 10 ds = ds.
Proof.
  induction ds as [|c ds IH]; [done|]. cbn [every JSNumber.spanRadix].
  intros [Hc Hds]%andb_prop. destruct (hexVal_digit c Hc) as [-> ->].
  by rewrite (IH Hds).
Qed.

Lemma radixValueFrom_digits (acc : Z) (ds : string) :
  every isDigit ds = true →
  radixValueFrom 10 acc ds = Some (digitsValueFrom acc ds).
Proof.
  revert acc. induction ds as [|c ds IH]; intros acc; [done|].
  cbn [every radixValueFrom digitsValueFrom].
  intros [Hc Hds]%andb_prop. destruct (hexVal_digit c Hc) as [-> ->].
  by apply IH.
Qed.

Lemma round64_integer (q : Q) (n : Z) :
  q == inject_Z n → Z.abs n <= 2 ^ 53 → JSNumber.round64 q = Finite (inject_Z n).
Proof.
  intros Hq Hn. unfold JSNumber.round64. rewrite (Qred_integer q n Hq).
  cbn [Qden inject_Z Qnum Pos.eqb]. unfold roundInteger.
  destruct (Z.leb_spec (Z.abs n) (2 ^ 53)); [|lia].
  destruct (Z.leb_spec (2 ^ 1024) (Z.abs n)); [|done].
  assert (2 ^ 53 < 2 ^ 1024) by (by apply Z.pow_lt_mono_r). lia.
Qed.

Lemma digitsValueFrom_nonneg (acc : Z) (ds : string) :
  0 <= acc → every isDigit ds = true → 0 <= digitsValueFrom acc ds.
Proof.
  revert acc. induction ds as [|c ds IH]; intros acc Hacc; [done|].
  cbn [every digitsValueFrom]. intros [Hc Hds]%andb_prop. apply IH; [|done].
  assert (0 <= digitVal c) by (by destruct c as [[] [] [] [] [] [] [] []]). lia.
Qed.

(** [parseInt] of a text of decimal digits is its value, up to 2^53. *)
Lemma parseInt_digits (ds : string) :
  ds ≠ "" → every isDigit ds = true → digitsValue ds <= 2 ^ 53 →
  JSNumber.parseInt ds = Finite (inject_Z (digitsValue ds)).
Proof.
  intros Hne Hds Hle. unfold JSNumber.parseInt.
  pose proof (digitsValueFrom_nonneg 0 ds ltac:(lia) Hds) as Hpos.
  fold (digitsValue ds) in Hpos.
  destruct ds as [|c ds]; [done|]. pose proof Hds as Hall. cbn [every] in Hds.
  apply andb_prop in Hds as [Hc Hds].
  cbn [trimStart]. rewrite (isDigit_not_space c Hc).
  assert (takeSign (String c ds) = (false, String c ds)) as ->.
  { destruct c as [[] [] [] [] [] [] [] []]; done. }
  assert (match String c ds with
          | String "0" (String c2 s') =>
              if Ascii.eqb c2 "x" || Ascii.eqb c2 "X" then (16, s') else (10, String c ds)
          | _ => (10, String c ds)
          end = (10, String c ds)) as E.
  { destruct ds as [|c2 ds]; [by destruct c as [[] [] [] [] [] [] [] []]|].
    cbn [every] in Hds. apply andb_prop in Hds as [Hc2 _].
    assert ((Ascii.eqb c2 "x" || Ascii.eqb c2 "X") = false) as ->
      by (by destruct c2 as [[] [] [] [] [] [] [] []]).
    by destruct c as [[] [] [] [] [] [] [] []]. }
  rewrite E. rewrite (spanRadix_digits _ Hall).
  cbn [String.eqb]. rewrite (radixValueFrom_digits 0 _ Hall).
  fold (digitsValue (String c ds)). apply round64_integer; [reflexivity|lia].
Qed.

(** [getAll] reads [page] and [limit] as decimal numbers: for texts of
    digits, the page is the number read, or 1 when that is 0, the limit
    is the number read, and the offset is (page - 1) * limit, as long as
    the three are at most 2^53.  A request without [page] is page 1, and
    one without [limit] has the limit [PAGE_SIZE]. *)
Theorem getAll_paging (query : jsobject) (ps ls : string) :
  get query "page" = JStr ps → get query "limit" = JStr ls →
  ps ≠ "" → ls ≠ "" → every isDigit ps = true → every isDigit ls = true →
  digitsValue ls ≠ 0 →
  digitsValue ps <= 2 ^ 53 → digitsValue ls <= 2 ^ 53 →
  (digitsValue ps - 1) * digitsValue ls <= 2 ^ 53 →
  let p := if digitsValue ps =? 0 then 1 else digitsValue ps in
  let l := digitsValue ls in
  pageOf rt query = Finite (inject_Z p)
  ∧ limitOf env rt query = Finite (inject_Z l)
  ∧ offsetOf env rt query = Finite (inject_Z ((p - 1) * l))
  ∧ (∀ q, get q "page" = JUndefined → pageOf rt q = Finite 1)
  ∧ (∀ q, get q "limit" = JUndefined → limitOf env rt q = PAGE_SIZE env).
Proof.
  intros Hp Hl Hps Hls Dp Dl Hl0 Bp Bl Bo p l.
  pose proof (digitsValueFrom_nonneg 0 ps ltac:(lia) Dp) as Pp.
  pose proof (digitsValueFrom_nonneg 0 ls ltac:(lia) Dl) as Pl.
  fold (digitsValue ps) in Pp. fold (digitsValue ls) in Pl.
  assert (Ep : pageOf rt query = Finite (inject_Z p)).
  { unfold pageOf. rewrite Hp. cbn [ToString]. rewrite parseInt_digits by done.
    unfold JSNumber.orNumber, p. cbn [truthy].
    destruct (Z.eqb_spec (digitsValue ps) 0) as [->|Hne]; [done|].
    assert (Qeq_bool (inject_Z (digitsValue ps)) 0 = false) as ->; [|done].
    apply not_true_is_false. intros H%Qeq_bool_iff.
    unfold Qeq, inject_Z in H. cbn in H. lia. }
  assert (El : limitOf env rt query = Finite (inject_Z l)).
  { unfold limitOf. rewrite Hl. cbn [ToString]. rewrite parseInt_digits by done.
    unfold JSNumber.orNumber. cbn [truthy]. fold l.
    assert (Qeq_bool (inject_Z l) 0 = false) as ->; [|done].
    apply not_true_is_false. intros H%Qeq_bool_iff.
    unfold Qeq, inject_Z in H. cbn in H. subst l. lia. }
  assert (Hp1 : 1 <= p <= 2 ^ 53).
  { subst p. destruct (Z.eqb_spec (digitsValue ps) 0); lia. }
  assert (Ho : 0 <= (p - 1) * l <= 2 ^ 53).
  { split; [subst l; nia|]. subst p l.
    destruct (Z.eqb_spec (digitsValue ps) 0); lia. }
  split; [done|]. split; [done|]. split.
  { unfold offsetOf. rewrite Ep, El. cbn [JSNumber.sub].
    rewrite (round64_integer (inject_Z p - 1) (p - 1)).
    2:{ unfold Qeq, Qminus, Qplus, Qopp, inject_Z. cbn. lia. }
    2:{ lia. }
    cbn [JSNumber.mul].
    apply round64_integer; [|lia].
    unfold Qeq, Qmult, inject_Z. cbn. lia. }
  split.
  - intros q Hq. unfold pageOf. by rewrite Hq.
  - intros q Hq. unfold limitOf. by rewrite Hq.
Qed.

(** *** The exported file *)

Lemma mapC_Forall2 {A B} (f : A → completion B) (xs : list A) (ys : list B) :
  mapC f xs = Normal ys → Forall2 (λ x y, f x = Normal y) xs ys.
Proof.
  revert ys. induction xs as [|x xs IH]; intros ys.
  - by intros [= <-].
  - cbn [mapC]. destruct (f x) as [y|] eqn:E; [|done]. rewrite bind_Normal.
    destruct (mapC f xs) as [ys'|]; [|done]. rewrite bind_Normal.
    intros [= <-]. constructor; [done|by apply IH].
Qed.

Lemma formatListOutput_object (row v : jsval) :
  truthy row = true → formatListOutput rt row = Normal v →
  ∃ out, v = JObj out ∧ keys out = listKeys.
Proof.
  intros Ht. unfold formatListOutput. rewrite Ht. cbn [negb].
  destruct (normalizeDate rt (prop row "datamedida")) as [dm|]; [|done].
  rewrite bind_Normal. intros [= <-]. by eexists.
Qed.

Lemma formatted_objects (rows data : list jsval) :
  Forall (λ row, truthy row = true) rows →
  mapC (formatListOutput rt) rows = Normal data →
  ∃ outs, data = map JObj outs ∧ Forall (λ out, keys out = listKeys) outs
          ∧ length outs = length rows.
Proof.
  intros Ht Hm%mapC_Forall2. revert Ht.
  induction Hm as [|row v rows data Hv _ IH]; intros Ht.
  - by exists [].
  - apply Forall_cons in Ht as [Hrow Ht].
    destruct (IH Ht) as (outs & -> & Houts & Hlen).
    destruct (formatListOutput_object row v Hrow Hv) as (out & -> & Hk).
    exists (out :: outs). split; [done|]. split; [by constructor|].
    cbn. by rewrite Hlen.
Qed.

Lemma listKeys_plain (d : ExportDelimiter) :
  Forall (λ k, plainName (delimiterChar d) k = true) listKeys.
Proof. destruct d; by repeat constructor. Qed.


Lemma generateCSV_objects (outs : list jsobject) (options : CsvOptions) :
  ∃ buffer, generateCSV rt (map JObj outs) options = Fulfilled buffer.
Proof.
  unfold generateCSV. destruct outs as [|o0 os].
  - cbn. destruct (csv_includeHeaders options); by eexists.
  - cbn [map List.length Nat.eqb].
    change (JObj o0 :: map JObj os) with (map JObj (o0 :: os)).
    rewrite csvString_rows. by eexists.
Qed.

Lemma formatListOutput_object_cases (o : jsobject) :
  (∀ t, get o "datamedida" = JDate (Some t) → Date.TimeClip t = Some t) →
  (lacksTrim (get o "datamedida") ∧ ∃ e, formatListOutput rt (JObj o) = Throw e)
  ∨ (¬ lacksTrim (get o "datamedida") ∧ ∃ v, formatListOutput rt (JObj o) = Normal v).
Proof.
  intros Hvalid. unfold formatListOutput. cbn [truthy negb prop].
  destruct (normalizeDate rt (get o "datamedida")) as [r|e] eqn:E.
  - right. split; [|rewrite bind_Normal; by eexists]. intros H.
    pose proof (proj2 (normalizeDate_Throw_cases rt _ TypeError_trim Hvalid)
                  (conj eq_refl H)) as E'.
    congruence.
  - left. apply (normalizeDate_Throw_cases rt _ e Hvalid) in E as (-> & H).
    split; [done|by eexists].
Qed.

Lemma validHeaderChar_digit (c : ascii) :
  isDigit c = true → validHeaderChar c = true.
Proof. by destruct c as [[] [] [] [] [] [] [] []]. Qed.

Lemma valid_padDigits (w : nat) (n : Z) :
  every validHeaderChar (padDigits w n) = true.
Proof.
  apply (every_impl isDigit); [apply validHeaderChar_digit|apply every_padDigits].
Qed.

Lemma valid_isoDate (y m d : Z) : every validHeaderChar (isoDate y m d) = true.
Proof.
  unfold isoDate. rewrite !every_app, !valid_padDigits. done.
Qed.

(** The two headers of a CSV download are accepted when the text of the
    format and the name of the encoding are. *)
Lemma csv_headers_accepted (b : ExportBody) :
  0 <= Date.YearFromTime (now env) <= 9999 →
  every validHeaderChar (ToString rt (body_format b)) = true →
  every validHeaderChar (orDefault (body_encoding b) "utf-8") = true →
  let day := isoDate (Date.YearFromTime (now env)) (Date.MonthFromTime (now env) + 1)
               (Date.DateFromTime (now env)) in
  fileName env rt (body_format b)
  = Normal ("export_abiotico_coluna_" ++ day ++ "." ++ ToString rt (body_format b))
  ∧ setHeader "Content-Type"
      ("text/csv; charset=" ++ orDefault (body_encoding b) "utf-8")
    = Normal ("Content-Type",
              "text/csv; charset=" ++ orDefault (body_encoding b) "utf-8")
  ∧ setHeader "Content-Disposition"
      ("attachment; filename="
       ++ String quote
            (("export_abiotico_coluna_" ++ day ++ "." ++ ToString rt (body_format b))
             ++ String quote ""))
    = Normal ("Content-Disposition",
              "attachment; filename="
              ++ String quote
                   (("export_abiotico_coluna_" ++ day ++ "."
                     ++ ToString rt (body_format b))
                    ++ String quote "")).
Proof.
  intros Hyear Hf He day. split; [|split].
  - unfold fileName. rewrite toISOString_isoDate by done.
    by rewrite !bind_Normal, sliceTo_isoDate.
  - unfold setHeader.
    change ("text/csv; charset=" ++ orDefault (body_encoding b) "utf-8")
      with ("text/csv; charset=" ++ (orDefault (body_encoding b) "utf-8")).
    by rewrite (every_app _ "text/csv; charset="), He.
  - unfold setHeader.
    assert (every validHeaderChar
              ("attachment; filename="
               ++ String quote
                    (("export_abiotico_coluna_" ++ day ++ "."
                      ++ ToString rt (body_format b))
                     ++ String quote "")) = true) as ->; [|done].
    rewrite (every_app _ "attachment; filename="). cbn [every].
    rewrite !every_app. unfold day. rewrite valid_isoDate, Hf. done.
Qed.



End HandlerFacts.

Section HandlerExamples.

Import JS Num DataFormatterService ExportService CsvReader FilterService.
Import AbioticoColunaController.

Lemma getAll_paging_witness :
  offsetOf (mkEnv None (λ _ _, Fulfilled []) 0) stubRuntime
    [("page", JStr "3"); ("limit", JStr "20"); ("idsitio", JStr "9")]
  = Finite (inject_Z 40).
Proof.
  apply (getAll_paging (mkEnv None (λ _ _, Fulfilled []) 0) stubRuntime
           [("page", JStr "3"); ("limit", JStr "20"); ("idsitio", JStr "9")] "3" "20"
           ltac:(reflexivity) ltac:(reflexivity) ltac:(discriminate) ltac:(discriminate)
           ltac:(reflexivity) ltac:(reflexivity) ltac:(by vm_compute)
           ltac:(by vm_compute) ltac:(by vm_compute) ltac:(by vm_compute)).
Defined.




End HandlerExamples.
